(** * Vital-statistics export (packages/metrics/src/scripts/VSExportGenerator.ts)

    A shallow embedding of the export script: the FHIR documents it reads,
    the document-store queries, the resolvers that assemble a
    [Partial<IFullComposition>], the two row builders, the CSV headers and
    the month-window loop of [startScript].

    Conventions of the embedding.
    - An optional property ([x?: T], or a value that may be [undefined]) is an
      [option]; an array is a [list].
    - A computation that may throw a [TypeError] (reading a property of
      [undefined], as [xs?.[0].p] does on an empty array) lives in the
      error monad [Js]: [None] is the thrown exception.
    - The [await]ed store calls are functions of an explicit [Store] value.
    - A row handed to the CSV writer is a JavaScript object: an ordered list
      of key/value pairs. *)

From Stdlib Require Import ZArith List String Ascii Bool Lia.
Import ListNotations.

Open Scope string_scope.
Open Scope Z_scope.

(** ** JavaScript helpers *)

Module JS.

(** A computation that either returns or throws. *)
Definition Js (A : Type) : Type := option A.

Definition ret {A} (a : A) : Js A := Some a.
Definition throw {A} : Js A := None.
Definition bind {A B} (m : Js A) (k : A -> Js B) : Js B :=
  match m with
  | Some a => k a
  | None => None
  end.

(** [a ?? d] *)
Definition nullish {A} (a : option A) (d : A) : A :=
  match a with
  | Some x => x
  | None => d
  end.

(** [String(v)] and the interpolation of an optional string in a template. *)
Definition toStr (v : option string) : string := nullish v "undefined".

(** [xs[0].p...]: indexing an empty array gives [undefined], and reading a
    property of it throws. *)
Definition first {A} (xs : list A) : Js A :=
  match xs with
  | x :: _ => Some x
  | [] => None
  end.

(** [xs?.[0]...]: only an absent array short-circuits to [undefined]. *)
Definition optFirst {A} (xs : option (list A)) : Js (option A) :=
  match xs with
  | None => Some None
  | Some l => match first l with
              | Some x => Some (Some x)
              | None => None
              end
  end.

(** [a === b] on optional strings. *)
Definition strictEq (a b : option string) : bool :=
  match a, b with
  | Some x, Some y => String.eqb x y
  | None, None => true
  | _, _ => false
  end.

(** [s.startsWith(p)] *)
Definition startsWith (p s : string) : bool := String.prefix p s.

(** [s.replace(pat, rep)] with a string pattern: the first occurrence only. *)
Fixpoint replace (pat rep s : string) : string :=
  if String.prefix pat s
  then rep ++ String.substring (String.length pat)
                               (String.length s - String.length pat) s
  else match s with
       | EmptyString => EmptyString
       | String c s' => String c (replace pat rep s')
       end.

(** [xs.find(p)] *)
Definition find {A} (p : A -> bool) (xs : list A) : option A := List.find p xs.

(** Truthiness of a string. *)
Definition truthy (s : string) : bool := negb (String.eqb s "").

End JS.

Import JS.

Notation "x <- m ;; k" := (bind m (fun x => k))
  (at level 61, m at next level, right associativity).

(** ** FHIR documents, with the properties the resolvers read *)

Record Coding := mkCoding { coding_code : option string }.

Record CodeableConcept := mkCodeableConcept {
  cc_coding : option (list Coding);
  cc_text : option string
}.

Record Reference := mkReference { reference : option string }.

Record Extension := mkExtension {
  ext_url : string;
  ext_valueString : option string;
  ext_valueReference : option Reference
}.

Record Address := mkAddress {
  addr_city : option string;
  addr_district : option string;
  addr_state : option string
}.

(** [valueQuantity.value] is a number; the script only ever prints it, so the
    field holds the text [Number.prototype.toString] gives for it. *)
Record Quantity := mkQuantity {
  q_value : option string;
  q_unit : option string
}.

Record Observation := mkObservation {
  obs_code : CodeableConcept;
  obs_context : option Reference;
  obs_valueCodeableConcept : option CodeableConcept;
  obs_valueQuantity : option Quantity;
  obs_valueString : option string
}.

Record Patient := mkPatient {
  pat_id : option string;
  pat_gender : option string;
  pat_birthDate : option string;
  pat_deceasedDateTime : option string;
  pat_maritalStatus : option CodeableConcept;
  pat_multipleBirthInteger : option Z;
  pat_extension : option (list Extension);
  pat_address : option (list Address)
}.

Record Location := mkLocation {
  loc_id : option string;
  loc_name : option string;
  loc_type : option CodeableConcept;
  loc_partOf : option Reference;
  loc_address : option Address
}.

Record EncounterLocation := mkEncounterLocation { el_location : Reference }.

Record Encounter := mkEncounter {
  enc_id : option string;
  enc_location : option (list EncounterLocation)
}.

Record RelatedPerson := mkRelatedPerson {
  rp_id : option string;
  rp_relationship : option CodeableConcept;
  rp_patient : option Reference
}.

Record Task := mkTask {
  task_focus : option Reference;
  task_businessStatus : option CodeableConcept;
  task_extension : option (list Extension)
}.

Record Section := mkSection {
  sec_title : option string;
  sec_entry : option (list Reference)
}.

Record Composition := mkComposition {
  comp_id : option string;
  comp_title : option string;
  comp_section : option (list Section)
}.

(** ** Constants *)

Definition officeLocationExtURL := "http://opencrvs.org/specs/extension/regLastOffice".
Definition patientOccupationExtURL := "http://opencrvs.org/specs/extension/patient-occupation".
Definition patientEduAttainmentExtURL := "http://opencrvs.org/specs/extension/educational-attainment".

Inductive Role := child | deceased | mother | father | informantRole.

(** [TITLE_MAP[title]]; a title outside the map gives [undefined]. *)
Definition TITLE_MAP (title : string) : option Role :=
  if String.eqb title "Child details" then Some child
  else if String.eqb title "Deceased details" then Some deceased
  else if String.eqb title "Mother's details" then Some mother
  else if String.eqb title "Father's details" then Some father
  else if String.eqb title "Informant's details" then Some informantRole
  else None.

Module OBSERVATION_CODE.
Definition CAUSE_OF_DEATH_METHOD := "cause-of-death-method".
Definition BIRTH_PLURALITY_OF_PREGNANCY := "57722-1".
Definition BODY_WEIGHT_MEASURED := "3141-9".
Definition BIRTH_ATTENDANT_TITLE := "73764-3".
Definition CAUSE_OF_DEATH := "ICD10".
Definition UNCERTIFIED_MANNER_OF_DEATH := "uncertified-manner-of-death".
Definition VERBAL_AUTOPSY_DESCRIPTION := "lay-reported-or-verbal-autopsy-description".
Definition CAUSE_OF_DEATH_ESTABLISHED := "cause-of-death-established".
Definition NUM_MALE_DEPENDENTS_ON_DECEASED := "num-male-dependents-on-deceased".
Definition NUM_FEMALE_DEPENDENTS_ON_DECEASED := "num-female-dependents-on-deceased".
Definition PRESENT_AT_BIRTH_REG := "present-at-birth-reg".
End OBSERVATION_CODE.

(** ** The document store *)

Record Store := mkStore {
  ENCOUNTER : list Encounter;
  OBSERVATION : list Observation;
  PATIENT : list Patient;
  RELATEDPERSON : list RelatedPerson;
  TASK : list Task
}.

(** [{ id: { $in: ids } }] *)
Definition idIn (id : option string) (ids : list string) : bool :=
  match id with
  | Some i => existsb (String.eqb i) ids
  | None => false
  end.

(** [getCollectionDocuments(collectionName, ids)]: the documents of the
    collection whose [id] is one of [ids], in the collection's order; the
    whole collection when [ids] is empty. *)
Definition getCollectionDocuments {D} (getId : D -> option string)
    (collection : list D) (ids : list string) : list D :=
  if (0 <? Z.of_nat (List.length ids))
  then filter (fun d => idIn (getId d) ids) collection
  else collection.

Definition refIs (r : option Reference) (v : string) : bool :=
  match r with
  | Some r' => strictEq (reference r') (Some v)
  | None => false
  end.

(** [getObservationDocByEncounterId]: ['context.reference': encounterId] *)
Definition getObservationDocByEncounterId (st : Store) (encounterId : string)
    : list Observation :=
  filter (fun o => refIs (obs_context o) encounterId) (OBSERVATION st).

(** [getTaskDocByCompositionId]: ['focus.reference': compositionId] *)
Definition getTaskDocByCompositionId (st : Store) (compositionId : string)
    : list Task :=
  filter (fun t => refIs (task_focus t) compositionId) (TASK st).

(** ** Patient snapshots *)

Record IPatient := mkIPatient {
  gender : string;
  birthDate : string;
  deceasedDate : string;
  maritalStatus : string;
  multipleBirth : Z;
  occupation : string;
  educational_attainment : string;
  city : string;
  district : string;
  state : string
}.

(** [IInformant]: a patient snapshot with a relationship.  The key is absent
    when a Patient section titled "Informant's details" filled the slot. *)
Record IInformant := mkIInformant {
  relationship : option string;
  informantPatient : IPatient
}.

(** [getValueFromExt(doc, extURL)] *)
Definition getValueFromExt (doc : Patient) (extURL : string) : option string :=
  match pat_extension doc with
  | None => Some ""
  | Some extension =>
      match find (fun obj => String.eqb (ext_url obj) extURL) extension with
      | Some docExt => ext_valueString docExt
      | None => Some ""
      end
  end.

(** [patient.address?.[0].f] *)
Definition address0 (patient : Patient) (f : Address -> option string)
    : Js (option string) :=
  a <- optFirst (pat_address patient) ;;
  ret (match a with Some a' => f a' | None => None end).

(** [makePatientObject(patient)] *)
Definition makePatientObject (patient : Patient) : Js IPatient :=
  city <- address0 patient addr_city ;;
  district <- address0 patient addr_district ;;
  state <- address0 patient addr_state ;;
  ret {| gender := nullish (pat_gender patient) "";
         birthDate := nullish (pat_birthDate patient) "";
         deceasedDate := nullish (pat_deceasedDateTime patient) "";
         maritalStatus :=
           nullish (match pat_maritalStatus patient with
                    | Some m => cc_text m
                    | None => None
                    end) "";
         multipleBirth := nullish (pat_multipleBirthInteger patient) 0;
         occupation := nullish (getValueFromExt patient patientOccupationExtURL) "";
         educational_attainment :=
           nullish (getValueFromExt patient patientEduAttainmentExtURL) "";
         city := nullish city "";
         district := nullish district "";
         state := nullish state "" |}.

(** [locations.find(({ id }) => id === v)?.name ?? ''] *)
Definition findLocation (locations : list Location) (v : option string)
    : option Location :=
  find (fun l => strictEq (loc_id l) v) locations.

Definition nameOf (l : option Location) : string :=
  nullish (match l with Some l' => loc_name l' | None => None end) "".

Definition isTruthy (v : option string) : bool :=
  match v with
  | Some s => truthy s
  | None => false
  end.

(** The body of the [forEach] of [setPatientsAddress]: the district and state
    of the first address are overwritten, in place, by Location names. *)
Definition setPatientAddress (locations : list Location) (patient : Patient)
    : Js Patient :=
  match pat_address patient with
  | None => ret patient
  | Some address =>
      a0 <- first address ;;
      let a1 :=
        if isTruthy (addr_district a0)
        then mkAddress (addr_city a0)
               (Some (nameOf (findLocation locations (addr_district a0))))
               (addr_state a0)
        else a0 in
      let a2 :=
        if isTruthy (addr_state a1)
        then mkAddress (addr_city a1) (addr_district a1)
               (Some (nameOf (findLocation locations (addr_state a1))))
        else a1 in
      ret (mkPatient (pat_id patient) (pat_gender patient)
             (pat_birthDate patient) (pat_deceasedDateTime patient)
             (pat_maritalStatus patient) (pat_multipleBirthInteger patient)
             (pat_extension patient) (Some (a2 :: tl address)))
  end.

Fixpoint mapM {A B} (f : A -> Js B) (xs : list A) : Js (list B) :=
  match xs with
  | [] => ret []
  | x :: xs' => y <- f x ;; ys <- mapM f xs' ;; ret (y :: ys)
  end.

Fixpoint foldM {A S} (f : S -> A -> Js S) (s : S) (xs : list A) : Js S :=
  match xs with
  | [] => ret s
  | x :: xs' => s' <- f s x ;; foldM f s' xs'
  end.

(** [setPatientsAddress(patients, locations)] *)
Definition setPatientsAddress (patients : list Patient)
    (locations : list Location) : Js (list Patient) :=
  mapM (setPatientAddress locations) patients.

(** ** The aggregate *)

Inductive Event := Birth | Death.

Record IObservation := mkIObservation {
  causeOfDeathMethod : string;
  birthPluralityOfPregnancy : string;
  bodyWeightMeasured : string;
  birthAttendantTitle : string;
  uncertifiedMannerOfDeath : string;
  verbalAutopsyDescription : string;
  causeOfDeathEstablished : string;
  causeOfDeath : string;
  numMaleDependentsOnDeceased : string;
  numFemaleDependentsOnDeceased : string;
  presentAtBirthReg : string
}.

(** [Partial<IFullComposition>]: every key may be absent. *)
Record IFullComposition := mkIFullComposition {
  event : option Event;
  fc_deceased : option IPatient;
  fc_child : option IPatient;
  fc_father : option IPatient;
  fc_mother : option IPatient;
  fc_informant : option IInformant;
  observations : option IObservation;
  officeLocation : option string;
  healthCenter : option string;
  eventDistrict : option string;
  eventState : option string;
  eventCity : option string
}.

(** [{}] *)
Definition emptyFullComposition : IFullComposition :=
  mkIFullComposition None None None None None None None None None None None None.

Definition set_event v (c : IFullComposition) :=
  mkIFullComposition (Some v) (fc_deceased c) (fc_child c) (fc_father c)
    (fc_mother c) (fc_informant c) (observations c) (officeLocation c)
    (healthCenter c) (eventDistrict c) (eventState c) (eventCity c).
Definition set_deceased v (c : IFullComposition) :=
  mkIFullComposition (event c) (Some v) (fc_child c) (fc_father c)
    (fc_mother c) (fc_informant c) (observations c) (officeLocation c)
    (healthCenter c) (eventDistrict c) (eventState c) (eventCity c).
Definition set_child v (c : IFullComposition) :=
  mkIFullComposition (event c) (fc_deceased c) (Some v) (fc_father c)
    (fc_mother c) (fc_informant c) (observations c) (officeLocation c)
    (healthCenter c) (eventDistrict c) (eventState c) (eventCity c).
Definition set_father v (c : IFullComposition) :=
  mkIFullComposition (event c) (fc_deceased c) (fc_child c) (Some v)
    (fc_mother c) (fc_informant c) (observations c) (officeLocation c)
    (healthCenter c) (eventDistrict c) (eventState c) (eventCity c).
Definition set_mother v (c : IFullComposition) :=
  mkIFullComposition (event c) (fc_deceased c) (fc_child c) (fc_father c)
    (Some v) (fc_informant c) (observations c) (officeLocation c)
    (healthCenter c) (eventDistrict c) (eventState c) (eventCity c).
Definition set_informant v (c : IFullComposition) :=
  mkIFullComposition (event c) (fc_deceased c) (fc_child c) (fc_father c)
    (fc_mother c) (Some v) (observations c) (officeLocation c)
    (healthCenter c) (eventDistrict c) (eventState c) (eventCity c).
Definition set_observations v (c : IFullComposition) :=
  mkIFullComposition (event c) (fc_deceased c) (fc_child c) (fc_father c)
    (fc_mother c) (fc_informant c) (Some v) (officeLocation c)
    (healthCenter c) (eventDistrict c) (eventState c) (eventCity c).
Definition set_officeLocation v (c : IFullComposition) :=
  mkIFullComposition (event c) (fc_deceased c) (fc_child c) (fc_father c)
    (fc_mother c) (fc_informant c) (observations c) (Some v)
    (healthCenter c) (eventDistrict c) (eventState c) (eventCity c).
Definition set_healthCenter v (c : IFullComposition) :=
  mkIFullComposition (event c) (fc_deceased c) (fc_child c) (fc_father c)
    (fc_mother c) (fc_informant c) (observations c) (officeLocation c)
    (Some v) (eventDistrict c) (eventState c) (eventCity c).
Definition set_eventDistrict v (c : IFullComposition) :=
  mkIFullComposition (event c) (fc_deceased c) (fc_child c) (fc_father c)
    (fc_mother c) (fc_informant c) (observations c) (officeLocation c)
    (healthCenter c) (Some v) (eventState c) (eventCity c).
Definition set_eventState v (c : IFullComposition) :=
  mkIFullComposition (event c) (fc_deceased c) (fc_child c) (fc_father c)
    (fc_mother c) (fc_informant c) (observations c) (officeLocation c)
    (healthCenter c) (eventDistrict c) (Some v) (eventCity c).
Definition set_eventCity v (c : IFullComposition) :=
  mkIFullComposition (event c) (fc_deceased c) (fc_child c) (fc_father c)
    (fc_mother c) (fc_informant c) (observations c) (officeLocation c)
    (healthCenter c) (eventDistrict c) (eventState c) (Some v).

(** [fullComposition[TITLE_MAP[title]] = v]; with a title outside the map
    the assignment lands on a key nothing reads. *)
Definition set_role (r : option Role) (v : IPatient) (c : IFullComposition)
    : IFullComposition :=
  match r with
  | Some child => set_child v c
  | Some deceased => set_deceased v c
  | Some mother => set_mother v c
  | Some father => set_father v c
  | Some informantRole => set_informant (mkIInformant None v) c
  | None => c
  end.

(** ** Sections and their references *)

(** [section.entry?.[0].reference] *)
Definition entryReference (section : Section) : Js (option string) :=
  e <- optFirst (sec_entry section) ;;
  ret (match e with Some r => reference r | None => None end).

(** [typeof section.entry?.[0].reference === 'string' &&
     section.entry[0].reference.startsWith(prefix)] *)
Definition referencesKind (prefix : string) (section : Section) : Js bool :=
  r <- entryReference section ;;
  ret (match r with Some s => startsWith prefix s | None => false end).

Fixpoint filterM {A} (p : A -> Js bool) (xs : list A) : Js (list A) :=
  match xs with
  | [] => ret []
  | x :: xs' =>
      b <- p x ;; ys <- filterM p xs' ;; ret (if b then x :: ys else ys)
  end.

(** [xs.find(p)] with a callback that may throw: the scan stops at the first
    hit, so a later ill-formed element is never looked at. *)
Fixpoint findM {A} (p : A -> Js bool) (xs : list A) : Js (option A) :=
  match xs with
  | [] => ret None
  | x :: xs' => b <- p x ;; if b then ret (Some x) else findM p xs'
  end.

(** [composition.section?.find(section => ... startsWith(prefix))] *)
Definition findSection (prefix : string) (composition : Composition)
    : Js (option Section) :=
  match comp_section composition with
  | None => ret None
  | Some section => findM (referencesKind prefix) section
  end.

(** [s?.entry?.[0].reference] of an optional section *)
Definition sectionReference (s : option Section) : Js (option string) :=
  match s with
  | None => ret None
  | Some s' => entryReference s'
  end.

(** The ids a reference list names, the prefix removed. *)
Definition refIds (prefix : string) (refs : list (option string)) : list string :=
  flat_map (fun r => match r with
                     | Some s => [replace prefix "" s]
                     | None => []
                     end) refs.

(** [setPatientsDetailsInComposition] *)
Definition setPatientsDetailsInComposition (st : Store)
    (composition : Composition) (fullComposition : IFullComposition)
    (locations : list Location) : Js IFullComposition :=
  patientList <-
    match comp_section composition with
    | None => ret None
    | Some section =>
        l <- filterM (referencesKind "Patient/") section ;; ret (Some l)
    end ;;
  patientIds <-
    match patientList with
    | None => ret None
    | Some l => refs <- mapM entryReference l ;; ret (Some (refIds "Patient/" refs))
    end ;;
  (* [ids.length] of [undefined] throws *)
  ids <- patientIds ;;
  let patients := getCollectionDocuments pat_id (PATIENT st) ids in
  patients <- setPatientsAddress patients locations ;;
  match comp_section composition with
  | None => ret fullComposition
  | Some section =>
      foldM (fun fc section =>
               isPatient <- referencesKind "Patient/" section ;;
               if isPatient then
                 r <- entryReference section ;;
                 let patientId := replace "Patient/" "" (toStr r) in
                 let patient :=
                   find (fun p => strictEq (pat_id p) (Some patientId)) patients in
                 match patient with
                 | Some patient' =>
                     if isTruthy (sec_title section) then
                       v <- makePatientObject patient' ;;
                       ret (set_role (TITLE_MAP (toStr (sec_title section))) v fc)
                     else ret fc
                 | None => ret fc
                 end
               else ret fc)
            fullComposition section
  end.

(** ** Event location *)

(** [c?.coding?.[0].code] *)
Definition codingCode0 (c : option CodeableConcept) : Js (option string) :=
  match c with
  | None => ret None
  | Some c' =>
      k <- optFirst (cc_coding c') ;;
      ret (match k with Some k' => coding_code k' | None => None end)
  end.

(** [r?.reference?.replace('Location/', '')] *)
Definition locationIdOf (r : option Reference) : option string :=
  match r with
  | Some r' => option_map (replace "Location/" "") (reference r')
  | None => None
  end.

(** Lines 327-355 of [setLocationInComposition]: from the Location the
    Encounter points to, to health center, district, state and city. *)
Definition setEventLocation (locationDoc : Location)
    (fullComposition : IFullComposition) (locations : list Location)
    : Js IFullComposition :=
  typeCode <- codingCode0 (loc_type locationDoc) ;;
  let isLocationHealthFacility := strictEq typeCode (Some "HEALTH_FACILITY") in
  let fullComposition :=
    if isLocationHealthFacility then
      let districtLocationId := toStr (locationIdOf (loc_partOf locationDoc)) in
      let districtLocationDoc := findLocation locations (Some districtLocationId) in
      let stateLocationId :=
        toStr (match districtLocationDoc with
               | Some d => locationIdOf (loc_partOf d)
               | None => None
               end) in
      let stateLocationDoc := findLocation locations (Some stateLocationId) in
      set_eventState (nameOf stateLocationDoc)
        (set_eventDistrict (nameOf districtLocationDoc)
           (set_healthCenter (nullish (loc_name locationDoc) "") fullComposition))
    else
      let districtLocation :=
        findLocation locations
          (match loc_address locationDoc with
           | Some a => addr_district a
           | None => None
           end) in
      let stateLocation :=
        findLocation locations
          (match loc_address locationDoc with
           | Some a => addr_state a
           | None => None
           end) in
      set_eventState (nameOf stateLocation)
        (set_eventDistrict (nameOf districtLocation) fullComposition) in
  ret (set_eventCity
         (nullish (match loc_address locationDoc with
                   | Some a => addr_city a
                   | None => None
                   end) "")
         fullComposition).

(** [task.extension?.find(obj => obj.url === officeLocationExtURL)
      ?.valueReference?.reference?.replace('Location/', '')] *)
Definition officeLocationIdOf (task : Task) : option string :=
  match task_extension task with
  | None => None
  | Some extension =>
      match find (fun obj => String.eqb (ext_url obj) officeLocationExtURL) extension with
      | Some e => locationIdOf (ext_valueReference e)
      | None => None
      end
  end.

(** [setLocationInComposition] *)
Definition setLocationInComposition (st : Store) (composition : Composition)
    (fullComposition : IFullComposition) (locations : list Location)
    (task : Task) : Js IFullComposition :=
  encounter <- findSection "Encounter/" composition ;;
  r <- sectionReference encounter ;;
  let encounterId := nullish (option_map (replace "Encounter/" "") r) "" in
  let encounterDoc := getCollectionDocuments enc_id (ENCOUNTER st) [encounterId] in
  e0 <- first encounterDoc ;;
  l0 <- optFirst (enc_location e0) ;;
  let locationId :=
    match l0 with
    | Some l => locationIdOf (Some (el_location l))
    | None => None
    end in
  (* [locationDoc.type] on a Location that was not found throws *)
  locationDoc <- findLocation locations locationId ;;
  fullComposition <- setEventLocation locationDoc fullComposition locations ;;
  let officeLocation := findLocation locations (officeLocationIdOf task) in
  ret (set_officeLocation (nameOf officeLocation) fullComposition).

(** ** Observations *)

(** [findCodeInObservation(observation, code)] *)
Definition findCodeInObservation (observation : Observation) (code : string)
    : Js (option Observation) :=
  c <- codingCode0 (Some (obs_code observation)) ;;
  ret (if strictEq c (Some code) then Some observation else None).

Definition emptyObservationObj : IObservation :=
  mkIObservation "" "" "" "" "" "" "" "" "" "" "".

Definition set_causeOfDeathMethod v (o : IObservation) :=
  mkIObservation v (birthPluralityOfPregnancy o) (bodyWeightMeasured o)
    (birthAttendantTitle o) (uncertifiedMannerOfDeath o)
    (verbalAutopsyDescription o) (causeOfDeathEstablished o) (causeOfDeath o)
    (numMaleDependentsOnDeceased o) (numFemaleDependentsOnDeceased o)
    (presentAtBirthReg o).
Definition set_birthPluralityOfPregnancy v (o : IObservation) :=
  mkIObservation (causeOfDeathMethod o) v (bodyWeightMeasured o)
    (birthAttendantTitle o) (uncertifiedMannerOfDeath o)
    (verbalAutopsyDescription o) (causeOfDeathEstablished o) (causeOfDeath o)
    (numMaleDependentsOnDeceased o) (numFemaleDependentsOnDeceased o)
    (presentAtBirthReg o).
Definition set_bodyWeightMeasured v (o : IObservation) :=
  mkIObservation (causeOfDeathMethod o) (birthPluralityOfPregnancy o) v
    (birthAttendantTitle o) (uncertifiedMannerOfDeath o)
    (verbalAutopsyDescription o) (causeOfDeathEstablished o) (causeOfDeath o)
    (numMaleDependentsOnDeceased o) (numFemaleDependentsOnDeceased o)
    (presentAtBirthReg o).
Definition set_birthAttendantTitle v (o : IObservation) :=
  mkIObservation (causeOfDeathMethod o) (birthPluralityOfPregnancy o)
    (bodyWeightMeasured o) v (uncertifiedMannerOfDeath o)
    (verbalAutopsyDescription o) (causeOfDeathEstablished o) (causeOfDeath o)
    (numMaleDependentsOnDeceased o) (numFemaleDependentsOnDeceased o)
    (presentAtBirthReg o).
Definition set_uncertifiedMannerOfDeath v (o : IObservation) :=
  mkIObservation (causeOfDeathMethod o) (birthPluralityOfPregnancy o)
    (bodyWeightMeasured o) (birthAttendantTitle o) v
    (verbalAutopsyDescription o) (causeOfDeathEstablished o) (causeOfDeath o)
    (numMaleDependentsOnDeceased o) (numFemaleDependentsOnDeceased o)
    (presentAtBirthReg o).
Definition set_verbalAutopsyDescription v (o : IObservation) :=
  mkIObservation (causeOfDeathMethod o) (birthPluralityOfPregnancy o)
    (bodyWeightMeasured o) (birthAttendantTitle o)
    (uncertifiedMannerOfDeath o) v (causeOfDeathEstablished o) (causeOfDeath o)
    (numMaleDependentsOnDeceased o) (numFemaleDependentsOnDeceased o)
    (presentAtBirthReg o).
Definition set_causeOfDeathEstablished v (o : IObservation) :=
  mkIObservation (causeOfDeathMethod o) (birthPluralityOfPregnancy o)
    (bodyWeightMeasured o) (birthAttendantTitle o)
    (uncertifiedMannerOfDeath o) (verbalAutopsyDescription o) v (causeOfDeath o)
    (numMaleDependentsOnDeceased o) (numFemaleDependentsOnDeceased o)
    (presentAtBirthReg o).
Definition set_causeOfDeath v (o : IObservation) :=
  mkIObservation (causeOfDeathMethod o) (birthPluralityOfPregnancy o)
    (bodyWeightMeasured o) (birthAttendantTitle o)
    (uncertifiedMannerOfDeath o) (verbalAutopsyDescription o)
    (causeOfDeathEstablished o) v
    (numMaleDependentsOnDeceased o) (numFemaleDependentsOnDeceased o)
    (presentAtBirthReg o).
Definition set_numMaleDependentsOnDeceased v (o : IObservation) :=
  mkIObservation (causeOfDeathMethod o) (birthPluralityOfPregnancy o)
    (bodyWeightMeasured o) (birthAttendantTitle o)
    (uncertifiedMannerOfDeath o) (verbalAutopsyDescription o)
    (causeOfDeathEstablished o) (causeOfDeath o)
    v (numFemaleDependentsOnDeceased o) (presentAtBirthReg o).
Definition set_numFemaleDependentsOnDeceased v (o : IObservation) :=
  mkIObservation (causeOfDeathMethod o) (birthPluralityOfPregnancy o)
    (bodyWeightMeasured o) (birthAttendantTitle o)
    (uncertifiedMannerOfDeath o) (verbalAutopsyDescription o)
    (causeOfDeathEstablished o) (causeOfDeath o)
    (numMaleDependentsOnDeceased o) v (presentAtBirthReg o).
Definition set_presentAtBirthReg v (o : IObservation) :=
  mkIObservation (causeOfDeathMethod o) (birthPluralityOfPregnancy o)
    (bodyWeightMeasured o) (birthAttendantTitle o)
    (uncertifiedMannerOfDeath o) (verbalAutopsyDescription o)
    (causeOfDeathEstablished o) (causeOfDeath o)
    (numMaleDependentsOnDeceased o) (numFemaleDependentsOnDeceased o) v.

(** The three value shapes the script reads off a matched Observation. *)

(** [o.valueCodeableConcept?.coding?.[0].code ?? ''] *)
Definition codedValue (o : Observation) : Js string :=
  c <- codingCode0 (obs_valueCodeableConcept o) ;; ret (nullish c "").

(** [o.valueQuantity?.value?.toString() ?? ''] *)
Definition quantityValue (o : Observation) : Js string :=
  ret (nullish (match obs_valueQuantity o with
                | Some q => q_value q
                | None => None
                end) "").

(** [`${o.valueQuantity?.value} ${o.valueQuantity?.unit}`] *)
Definition quantityWithUnit (o : Observation) : Js string :=
  ret (toStr (match obs_valueQuantity o with
              | Some q => q_value q
              | None => None
              end)
       ++ " " ++
       toStr (match obs_valueQuantity o with
              | Some q => q_unit q
              | None => None
              end)).

(** [o.valueString ?? ''] *)
Definition stringValue (o : Observation) : Js string :=
  ret (nullish (obs_valueString o) "").

(** [if (found) { observationObj[key] = rule(found) }] *)
Definition whenFound (found : option Observation)
    (rule : Observation -> Js string)
    (assign : string -> IObservation -> IObservation)
    (observationObj : IObservation) : Js IObservation :=
  match found with
  | Some m => v <- rule m ;; ret (assign v observationObj)
  | None => ret observationObj
  end.

(** The callback of [observations.forEach] in
    [setObservationDetailsInComposition]. *)
Definition observationStep (observationObj : IObservation)
    (observation : Observation) : Js IObservation :=
  causeOfDeathMethod <-
    findCodeInObservation observation OBSERVATION_CODE.CAUSE_OF_DEATH_METHOD ;;
  birthPluralityOfPregnancy <-
    findCodeInObservation observation OBSERVATION_CODE.BIRTH_PLURALITY_OF_PREGNANCY ;;
  bodyWeightMeasured <-
    findCodeInObservation observation OBSERVATION_CODE.BODY_WEIGHT_MEASURED ;;
  birthAttendantTitle <-
    findCodeInObservation observation OBSERVATION_CODE.BIRTH_ATTENDANT_TITLE ;;
  uncertifiedMannerOfDeath <-
    findCodeInObservation observation OBSERVATION_CODE.UNCERTIFIED_MANNER_OF_DEATH ;;
  verbalAutopsyDescription <-
    findCodeInObservation observation OBSERVATION_CODE.VERBAL_AUTOPSY_DESCRIPTION ;;
  causeOfDeathEstablished <-
    findCodeInObservation observation OBSERVATION_CODE.CAUSE_OF_DEATH_ESTABLISHED ;;
  causeOfDeath <-
    findCodeInObservation observation OBSERVATION_CODE.CAUSE_OF_DEATH ;;
  numMaleDependentsOnDeceased <-
    findCodeInObservation observation OBSERVATION_CODE.NUM_MALE_DEPENDENTS_ON_DECEASED ;;
  numFemaleDependentsOnDeceased <-
    findCodeInObservation observation OBSERVATION_CODE.NUM_FEMALE_DEPENDENTS_ON_DECEASED ;;
  presentAtBirthReg <-
    findCodeInObservation observation OBSERVATION_CODE.PRESENT_AT_BIRTH_REG ;;
  o <- whenFound causeOfDeathMethod codedValue set_causeOfDeathMethod observationObj ;;
  o <- whenFound birthPluralityOfPregnancy quantityValue set_birthPluralityOfPregnancy o ;;
  o <- whenFound bodyWeightMeasured quantityWithUnit set_bodyWeightMeasured o ;;
  o <- whenFound birthAttendantTitle stringValue set_birthAttendantTitle o ;;
  o <- whenFound uncertifiedMannerOfDeath codedValue set_uncertifiedMannerOfDeath o ;;
  o <- whenFound verbalAutopsyDescription stringValue set_verbalAutopsyDescription o ;;
  o <- whenFound causeOfDeathEstablished codedValue set_causeOfDeathEstablished o ;;
  o <- whenFound causeOfDeath codedValue set_causeOfDeath o ;;
  o <- whenFound numMaleDependentsOnDeceased stringValue set_numMaleDependentsOnDeceased o ;;
  o <- whenFound numFemaleDependentsOnDeceased stringValue set_numFemaleDependentsOnDeceased o ;;
  whenFound presentAtBirthReg stringValue set_presentAtBirthReg o.

(** The [observationObj] after the [forEach] over [observations]. *)
Definition extractObservationDetails (observations : list Observation)
    : Js IObservation :=
  foldM observationStep emptyObservationObj observations.

(** [setObservationDetailsInComposition] *)
Definition setObservationDetailsInComposition (st : Store)
    (composition : Composition) (fullComposition : IFullComposition)
    : Js IFullComposition :=
  encounter <- findSection "Encounter/" composition ;;
  r <- sectionReference encounter ;;
  let observations := getObservationDocByEncounterId st (toStr r) in
  observationObj <- extractObservationDetails observations ;;
  ret (set_observations observationObj fullComposition).

(** ** Informant *)

(** [setInformantDetailsInComposition] *)
Definition setInformantDetailsInComposition (st : Store)
    (composition : Composition) (fullComposition : IFullComposition)
    (locations : list Location) : Js IFullComposition :=
  informant <- findSection "RelatedPerson/" composition ;;
  r <- sectionReference informant ;;
  let informantId := nullish (option_map (replace "RelatedPerson/" "") r) "" in
  let relatedPerson :=
    getCollectionDocuments rp_id (RELATEDPERSON st) [informantId] in
  rp0 <- first relatedPerson ;;
  match rp_patient rp0 with
  | Some patientRef =>
      let patientId := option_map (replace "Patient/" "") (reference patientRef) in
      let patient := getCollectionDocuments pat_id (PATIENT st) [toStr patientId] in
      patient <- setPatientsAddress patient locations ;;
      relationship <- codingCode0 (rp_relationship rp0) ;;
      p0 <- first patient ;;
      snapshot <- makePatientObject p0 ;;
      ret (set_informant (mkIInformant (Some (nullish relationship "")) snapshot)
             fullComposition)
  | None => ret fullComposition
  end.

(** ** Rows *)

Inductive JSValue :=
| VString (s : string)
| VNumber (n : Z).

(** A row object: its own keys, in insertion order, and their values. *)
Definition Row := list (string * JSValue).

(** [row[key]] *)
Fixpoint get (key : string) (row : Row) : option JSValue :=
  match row with
  | [] => None
  | (k, v) :: row' => if String.eqb k key then Some v else get key row'
  end.

Fixpoint hasKey (key : string) (row : Row) : bool :=
  match row with
  | [] => false
  | (k, _) :: row' => String.eqb k key || hasKey key row'
  end.

Fixpoint overwrite (key : string) (v : JSValue) (row : Row) : Row :=
  match row with
  | [] => []
  | (k, w) :: row' =>
      if String.eqb k key then (k, v) :: row' else (k, w) :: overwrite key v row'
  end.

(** [row.key = v]: an existing key keeps its place, a new key goes last. *)
Definition assign (key : string) (v : JSValue) (row : Row) : Row :=
  if hasKey key row then overwrite key v row else (row ++ [(key, v)])%list.

Definition keys (row : Row) : list string := map fst row.

(** [x?.f ?? ''] for a slot of the aggregate *)
Definition field {A} (x : option A) (f : A -> string) : JSValue :=
  VString (nullish (option_map f x) "").

Definition emptyBirthRow : Row :=
  [ ("childGen", VString ""); ("childDOB", VString ""); ("childOrd", VNumber 0);
    ("birthCity", VString ""); ("birthState", VString "");
    ("birthDistrict", VString ""); ("healthCenter", VString "");
    ("officeLocation", VString ""); ("birthPluralityOfPregnancy", VString "");
    ("bodyWeightMeasured", VString ""); ("birthAttendantTitle", VString "");
    ("presentAtBirthReg", VString ""); ("motherDOB", VString "");
    ("motherMaritalStatus", VString ""); ("motherOccupation", VString "");
    ("motherEducationalAttainment", VString ""); ("motherCity", VString "");
    ("motherDistrict", VString ""); ("motherState", VString "");
    ("fatherDOB", VString ""); ("fatherMaritalStatus", VString "");
    ("fatherOccupation", VString ""); ("fatherEducationalAttainment", VString "");
    ("fatherCity", VString ""); ("fatherDistrict", VString "");
    ("fatherState", VString ""); ("informantDOB", VString "");
    ("informantMaritalStatus", VString ""); ("informantOccupation", VString "");
    ("informantEducationalAttainment", VString ""); ("informantCity", VString "");
    ("informantDistrict", VString ""); ("informantState", VString "");
    ("informantRelationship", VString "") ].

Definition informantField (c : IFullComposition) (f : IPatient -> string) : JSValue :=
  field (fc_informant c) (fun i => f (informantPatient i)).

Definition informantRelationship (c : IFullComposition) : JSValue :=
  VString (nullish (match fc_informant c with
                    | Some i => relationship i
                    | None => None
                    end) "").

(** The [Birth] branch of [makeCompositionAndExportCSVReport], up to the
    write: the defaulted row literal, then the assignments in source order. *)
Definition makeBirthRow (fullComposition : IFullComposition) : Row :=
  let c := fullComposition in
  let birthRow := emptyBirthRow in
  (* Address *)
  let birthRow := assign "birthDistrict" (VString (nullish (eventDistrict c) "")) birthRow in
  let birthRow := assign "birthState" (VString (nullish (eventState c) "")) birthRow in
  let birthRow := assign "birthCity" (VString (nullish (eventCity c) "")) birthRow in
  let birthRow := assign "healthCenter" (VString (nullish (healthCenter c) "")) birthRow in
  let birthRow := assign "officeLocation" (VString (nullish (officeLocation c) "")) birthRow in
  (* Child details *)
  let birthRow := assign "childGen" (field (fc_child c) gender) birthRow in
  let birthRow := assign "childDOB" (field (fc_child c) birthDate) birthRow in
  let birthRow :=
    assign "childOrd" (VNumber (nullish (option_map multipleBirth (fc_child c)) 0))
           birthRow in
  (* Mother details *)
  let birthRow := assign "motherDOB" (field (fc_mother c) birthDate) birthRow in
  let birthRow := assign "motherMaritalStatus" (field (fc_mother c) maritalStatus) birthRow in
  let birthRow := assign "motherOccupation" (field (fc_mother c) occupation) birthRow in
  let birthRow :=
    assign "motherEducationalAttainment" (field (fc_mother c) educational_attainment)
           birthRow in
  let birthRow := assign "motherCity" (field (fc_mother c) city) birthRow in
  let birthRow := assign "motherDistrict" (field (fc_mother c) district) birthRow in
  let birthRow := assign "motherState" (field (fc_mother c) state) birthRow in
  (* Father details *)
  let birthRow := assign "fatherDOB" (field (fc_father c) birthDate) birthRow in
  let birthRow := assign "fatherMaritalStatus" (field (fc_father c) maritalStatus) birthRow in
  let birthRow := assign "fatherOccupation" (field (fc_father c) occupation) birthRow in
  let birthRow :=
    assign "fatherEducationalAttainment" (field (fc_father c) educational_attainment)
           birthRow in
  let birthRow := assign "fatherCity" (field (fc_father c) city) birthRow in
  let birthRow := assign "fatherDistrict" (field (fc_father c) district) birthRow in
  let birthRow := assign "fatherState" (field (fc_father c) state) birthRow in
  (* Informant details *)
  let birthRow := assign "informantDOB" (informantField c birthDate) birthRow in
  let birthRow := assign "informantMaritalStatus" (informantField c maritalStatus) birthRow in
  let birthRow := assign "informantOccupation" (informantField c occupation) birthRow in
  let birthRow :=
    assign "informantEducationalAttainment" (informantField c educational_attainment)
           birthRow in
  let birthRow := assign "informantCity" (informantField c city) birthRow in
  let birthRow := assign "informantDistrict" (informantField c district) birthRow in
  let birthRow := assign "informantState" (informantField c state) birthRow in
  let birthRow := assign "informantRelationship" (informantRelationship c) birthRow in
  (* Observations *)
  let birthRow :=
    assign "birthPluralityOfPregnancy" (field (observations c) birthPluralityOfPregnancy)
           birthRow in
  let birthRow :=
    assign "bodyWeightMeasured" (field (observations c) bodyWeightMeasured) birthRow in
  let birthRow :=
    assign "birthAttendantTitle" (field (observations c) birthAttendantTitle) birthRow in
  let birthRow :=
    assign "presentAtBirthReg" (field (observations c) presentAtBirthReg) birthRow in
  birthRow.

Definition emptyDeathRow : Row :=
  [ ("deceasedGen", VString ""); ("deceasedDOB", VString "");
    ("deceasedMaritalStatus", VString ""); ("deceasedDate", VString "");
    ("deathCity", VString ""); ("deathState", VString "");
    ("deathDistrict", VString ""); ("healthCenter", VString "");
    ("officeLocation", VString ""); ("uncertifiedMannerOfDeath", VString "");
    ("verbalAutopsyDescription", VString ""); ("causeOfDeathMethod", VString "");
    ("causeOfDeathEstablished", VString ""); ("causeOfDeath", VString "");
    ("numMaleDependentsOnDeceased", VString "");
    ("numFemaleDependentsOnDeceased", VString ""); ("informantDOB", VString "");
    ("informantMaritalStatus", VString ""); ("informantOccupation", VString "");
    ("informantCity", VString ""); ("informantDistrict", VString "");
    ("informantState", VString ""); ("informantRelationship", VString "") ].

(** [fullComposition.observations?.causeOfDeathEstablished ? 'Yes' : 'No'] *)
Definition yesNo (c : IFullComposition) : JSValue :=
  VString (if isTruthy (option_map causeOfDeathEstablished (observations c))
           then "Yes" else "No").

(** The [Death] branch, up to the write. *)
Definition makeDeathRow (fullComposition : IFullComposition) : Row :=
  let c := fullComposition in
  let deathRow := emptyDeathRow in
  (* Address *)
  let deathRow := assign "healthCenter" (VString (nullish (healthCenter c) "")) deathRow in
  let deathRow := assign "officeLocation" (VString (nullish (officeLocation c) "")) deathRow in
  let deathRow := assign "deathDistrict" (field (fc_deceased c) district) deathRow in
  let deathRow := assign "deathState" (field (fc_deceased c) state) deathRow in
  let deathRow := assign "deathCity" (field (fc_deceased c) city) deathRow in
  (* Deceased details *)
  let deathRow := assign "deceasedGen" (field (fc_deceased c) gender) deathRow in
  let deathRow := assign "deceasedDOB" (field (fc_deceased c) birthDate) deathRow in
  let deathRow :=
    assign "deceasedMaritalStatus" (field (fc_deceased c) maritalStatus) deathRow in
  let deathRow := assign "deceasedDate" (field (fc_deceased c) deceasedDate) deathRow in
  (* Informant details *)
  let deathRow := assign "informantDOB" (informantField c birthDate) deathRow in
  let deathRow := assign "informantMaritalStatus" (informantField c maritalStatus) deathRow in
  let deathRow := assign "informantOccupation" (informantField c occupation) deathRow in
  let deathRow := assign "informantCity" (informantField c city) deathRow in
  let deathRow := assign "informantDistrict" (informantField c district) deathRow in
  let deathRow := assign "informantState" (informantField c state) deathRow in
  let deathRow := assign "informantRelationship" (informantRelationship c) deathRow in
  (* Observations *)
  let deathRow :=
    assign "uncertifiedMannerOfDeath" (field (observations c) uncertifiedMannerOfDeath)
           deathRow in
  let deathRow :=
    assign "verbalAutopsyDescription" (field (observations c) verbalAutopsyDescription)
           deathRow in
  let deathRow :=
    assign "causeOfDeathMethod" (field (observations c) causeOfDeathMethod) deathRow in
  let deathRow := assign "causeOfDeathEstablished" (yesNo c) deathRow in
  let deathRow := assign "causeOfDeath" (field (observations c) causeOfDeath) deathRow in
  let deathRow :=
    assign "numMaleDependentsOnDeceased"
           (field (observations c) numMaleDependentsOnDeceased) deathRow in
  let deathRow :=
    assign "numFemaleDependentsOnDeceased"
           (field (observations c) numFemaleDependentsOnDeceased) deathRow in
  deathRow.

(** ** CSV writers *)

(** A written line: one cell per header column. *)
Definition Line := list JSValue.

(** [writer.writeRecords(records)] of an object writer in append mode: each
    record gives one line, the header ids looked up in it in header order;
    a missing key gives an empty cell. *)
Definition writeRecords (header : list string) (file : list Line)
    (records : list Row) : list Line :=
  (file ++ map (fun record =>
                  map (fun id => nullish (get id record) (VString "")) header)
               records)%list.

Definition birthHeader : list string :=
  [ "childGen"; "childDOB"; "childOrd"; "birthCity"; "birthState";
    "birthDistrict"; "healthCenter"; "officeLocation";
    "birthPluralityOfPregnancy"; "bodyWeightMeasured"; "birthAttendantTitle";
    "presentAtBirthReg"; "motherDOB"; "motherMaritalStatus"; "motherOccupation";
    "motherEducationalAttainment"; "motherCity"; "motherDistrict"; "motherState";
    "fatherDOB"; "fatherMaritalStatus"; "fatherOccupation";
    "fatherEducationalAttainment"; "fatherCity"; "fatherDistrict"; "fatherState";
    "informantDOB"; "informantMaritalStatus"; "informantOccupation";
    "informantEducationalAttainment"; "informantCity"; "informantDistrict";
    "informantState"; "informantRelationship" ].

Definition birthCSVHeader : Row :=
  [ ("childGen", VString "CHILD GENDER"); ("childDOB", VString "CHILD DOB");
    ("childOrd", VString "CHILD ORDER"); ("birthCity", VString "BIRTH CITY");
    ("birthState", VString "BIRTH STATE");
    ("birthDistrict", VString "BIRTH DISTRICT");
    ("healthCenter", VString "HEALTH CENTER");
    ("officeLocation", VString "OFFICE LOCATION");
    ("birthPluralityOfPregnancy", VString "PLURALITY OF PREGNANCY");
    ("bodyWeightMeasured", VString "BODY WEIGHT MEASURED");
    ("birthAttendantTitle", VString "ATTENDANT TITLE");
    ("presentAtBirthReg", VString "PRESENT AT REG");
    ("motherDOB", VString "MOTHER DOB");
    ("motherMaritalStatus", VString "MOTHER MARITAL STATUS");
    ("motherOccupation", VString "MOTHER OCCUPATION");
    ("motherEducationalAttainment", VString "MOTHER EDUCATION");
    ("motherCity", VString "MOTHER CITY");
    ("motherDistrict", VString "MOTHER DISTRICT");
    ("motherState", VString "MOTHER STATE");
    ("fatherDOB", VString "FATHER DOB");
    ("fatherMaritalStatus", VString "FATHER MARITAL STATUS");
    ("fatherOccupation", VString "FATHER OCCUPATION");
    ("fatherEducationalAttainment", VString "FATHER EDUCATION");
    ("fatherCity", VString "FATHER CITY");
    ("fatherDistrict", VString "FATHER DISTRICT");
    ("fatherState", VString "FATHER STATE");
    ("informantDOB", VString "INFORMANT DOB");
    ("informantMaritalStatus", VString "INFORMANT MARITAL STATUS");
    ("informantOccupation", VString "INFORMANT OCCUPATION");
    ("informantEducationalAttainment", VString "INFORMANT EDUCATION");
    ("informantCity", VString "INFORMANT CITY");
    ("informantDistrict", VString "INFORMANT DISTRICT");
    ("informantState", VString "INFORMANT STATE");
    ("informantRelationship", VString "INFORMANT RELATIONSHIP") ].

(** [createBirthDeclarationCSVWriter]: the label record is the first write. *)
Definition createBirthDeclarationCSVWriter (file : list Line) : list Line :=
  writeRecords birthHeader file [birthCSVHeader].

Definition deathHeader : list string :=
  [ "deceasedGen"; "deceasedDOB"; "deceasedMaritalStatus"; "deceasedDate";
    "deathCity"; "deathState"; "deathDistrict"; "healthCenter"; "officeLocation";
    "uncertifiedMannerOfDeath"; "verbalAutopsyDescription"; "causeOfDeathMethod";
    "causeOfDeathEstablished"; "causeOfDeath"; "numMaleDependentsOnDeceased";
    "numFemaleDependentsOnDeceased"; "informantDOB"; "informantMaritalStatus";
    "informantOccupation"; "informantCity"; "informantDistrict"; "informantState";
    "informantRelationship" ].

Definition deathCSVHeader : Row :=
  [ ("deceasedGen", VString "DECEASED GENDER");
    ("deceasedDOB", VString "DECEASED DOB");
    ("deceasedMaritalStatus", VString "DECEASED MARITAL STATUS");
    ("deceasedDate", VString "DECEASED DATE");
    ("deathCity", VString "DEATH CITY"); ("deathState", VString "DEATH STATE");
    ("deathDistrict", VString "DEATH DISTRICT");
    ("healthCenter", VString "HEALTH CENTER");
    ("officeLocation", VString "OFFICE LOCATION");
    ("uncertifiedMannerOfDeath", VString "UNCERTIFIED MANNER OF DEATH");
    ("verbalAutopsyDescription", VString "VERBAL AUTOPSY DESCRIPTION");
    ("causeOfDeathMethod", VString "CAUSE OF DEATH METHOD");
    ("causeOfDeathEstablished", VString "CAUSE OF DEATH ESTABLISHED");
    ("causeOfDeath", VString "CAUSE OF DEATH");
    ("numMaleDependentsOnDeceased", VString "NUM MALE DEPENDENTS ON DECEASED");
    ("numFemaleDependentsOnDeceased", VString "NUM FEMALE DEPENDENTS ON DECEASED");
    ("informantDOB", VString "INFORMANT DOB");
    ("informantMaritalStatus", VString "INFORMANT MARITAL STATUS");
    ("informantOccupation", VString "INFORMANT OCCUPATION");
    ("informantCity", VString "INFORMANT CITY");
    ("informantDistrict", VString "INFORMANT DISTRICT");
    ("informantState", VString "INFORMANT STATE");
    ("informantRelationship", VString "INFORMANT RELATIONSHIP") ].

(** [createDeathDeclarationCSVWriter] *)
Definition createDeathDeclarationCSVWriter (file : list Line) : list Line :=
  writeRecords deathHeader file [deathCSVHeader].

(** ** One record, and the loop over the cursor *)

Record Files := mkFiles {
  birthFile : list Line;
  deathFile : list Line
}.

Inductive Outcome :=
| WriteBirth (birthRow : Row)
| WriteDeath (deathRow : Row)
| NoRow.

(** [sec.title && !['Certificates', 'Supporting Documents'].includes(sec.title)] *)
Definition isClinicalSection (sec : Section) : bool :=
  match sec_title sec with
  | Some title =>
      truthy title
      && negb (existsb (String.eqb title) ["Certificates"; "Supporting Documents"])
  | None => false
  end.

(** [composition.section = composition.section?.filter(...)] *)
Definition clinicalSections (composition : Composition) : Composition :=
  mkComposition (comp_id composition) (comp_title composition)
    (option_map (filter isClinicalSection) (comp_section composition)).

(** The four resolvers, in the order the script awaits them. *)
Definition buildFullComposition (st : Store) (locations : list Location)
    (composition : Composition) (task : Task) : Js IFullComposition :=
  let fullComposition :=
    set_event (if strictEq (comp_title composition) (Some "Birth Declaration")
               then Birth else Death)
              emptyFullComposition in
  fullComposition <-
    setPatientsDetailsInComposition st composition fullComposition locations ;;
  fullComposition <-
    setLocationInComposition st composition fullComposition locations task ;;
  fullComposition <-
    setObservationDetailsInComposition st composition fullComposition ;;
  setInformantDetailsInComposition st composition fullComposition locations.

(** The body of the [try] block for one composition of the cursor. *)
Definition resolveRecord (st : Store) (locations : list Location)
    (composition : Composition) : Js Outcome :=
  let tasks :=
    getTaskDocByCompositionId st ("Composition/" ++ toStr (comp_id composition)) in
  (* [const [task] = ...]: [task.businessStatus] throws when no Task matched *)
  task <- first tasks ;;
  businessStatus <- codingCode0 (task_businessStatus task) ;;
  if strictEq businessStatus (Some "CERTIFIED")
     || strictEq businessStatus (Some "REGISTERED")
  then
    let composition := clinicalSections composition in
    fullComposition <- buildFullComposition st locations composition task ;;
    match event fullComposition with
    | Some Birth => ret (WriteBirth (makeBirthRow fullComposition))
    | Some Death => ret (WriteDeath (makeDeathRow fullComposition))
    | None => ret NoRow
    end
  else ret NoRow.

(** One turn of the [while] loop: the [try] block, and the [catch] that logs
    and goes on. *)
Definition exportRecord (st : Store) (locations : list Location)
    (files : Files) (composition : Composition) : Files :=
  match resolveRecord st locations composition with
  | Some (WriteBirth birthRow) =>
      mkFiles (writeRecords birthHeader (birthFile files) [birthRow])
              (deathFile files)
  | Some (WriteDeath deathRow) =>
      mkFiles (birthFile files)
              (writeRecords deathHeader (deathFile files) [deathRow])
  | Some NoRow => files
  | None => files
  end.

(** [makeCompositionAndExportCSVReport]; [compositions] is what the cursor
    yields, in order. *)
Definition makeCompositionAndExportCSVReport (st : Store)
    (compositions : list Composition) (locations : list Location)
    (files : Files) : Files :=
  let totalCompositionCount := Z.of_nat (List.length compositions) in
  if 0 <? totalCompositionCount
  then fold_left (exportRecord st locations) compositions files
  else files.

(** ** Month windows *)

(** Calendar days, as the local-time getters of a JavaScript [Date] give
    them; months count from 1. *)
Module DateFNS.

Record Date := mkDate { year : Z; month : Z; day : Z }.

Definition isLeapYear (y : Z) : bool :=
  ((y mod 4 =? 0) && negb (y mod 100 =? 0)) || (y mod 400 =? 0).

Definition getDaysInMonth (d : Date) : Z :=
  if month d =? 2 then (if isLeapYear (year d) then 29 else 28)
  else if (month d =? 4) || (month d =? 6) || (month d =? 9) || (month d =? 11)
       then 30
       else 31.

Definition getDate (d : Date) : Z := day d.

Definition nextDay (d : Date) : Date :=
  if day d <? getDaysInMonth d then mkDate (year d) (month d) (day d + 1)
  else if month d <? 12 then mkDate (year d) (month d + 1) 1
       else mkDate (year d + 1) 1 1.

Definition prevDay (d : Date) : Date :=
  if 1 <? day d then mkDate (year d) (month d) (day d - 1)
  else if 1 <? month d
       then mkDate (year d) (month d - 1)
                   (getDaysInMonth (mkDate (year d) (month d - 1) 1))
       else mkDate (year d - 1) 12 31.

(** [addDays(date, amount)] *)
Definition addDays (d : Date) (amount : Z) : Date :=
  if 0 <=? amount then Nat.iter (Z.to_nat amount) nextDay d
  else Nat.iter (Z.to_nat (- amount)) prevDay d.

(** [differenceInCalendarMonths(dateLeft, dateRight)] *)
Definition differenceInCalendarMonths (dateLeft dateRight : Date) : Z :=
  (year dateLeft - year dateRight) * 12 + (month dateLeft - month dateRight).

(** A day of the calendar. *)
Definition valid (d : Date) : Prop :=
  1 <= month d <= 12 /\ 1 <= day d <= getDaysInMonth d.

Definition validb (d : Date) : bool :=
  (1 <=? month d) && (month d <=? 12) && (1 <=? day d)
  && (day d <=? getDaysInMonth d).

(** Chronological order. *)
Definition before (a b : Date) : Prop :=
  year a < year b
  \/ (year a = year b
      /\ (month a < month b \/ (month a = month b /\ day a < day b))).

Definition notAfter (a b : Date) : Prop := before a b \/ a = b.

End DateFNS.

Import DateFNS.

(** A window of the export: first and last day, both included. *)
Definition Window : Type := Date * Date.

Definition inWindow (x : Date) (w : Window) : Prop :=
  notAfter (fst w) x /\ notAfter x (snd w).

(** The [for] loop of [startScript], from iteration [month] on, with the
    pair of days each iteration queries. [fuel] bounds the iterations left. *)
Fixpoint monthLoop (fuel : nat) (month totalMonths : Z)
    (startDate endDate : Date) : list Window :=
  match fuel with
  | O => []
  | S fuel' =>
      if month <? totalMonths then
        let daysInMonths := getDaysInMonth startDate in
        let dayPassed := getDate startDate in
        let daysToMonth := daysInMonths - dayPassed in
        let lastOneMonth := addDays startDate daysToMonth in
        let lastOneMonth :=
          if month + 1 =? totalMonths then endDate else lastOneMonth in
        (startDate, lastOneMonth)
          :: monthLoop fuel' (month + 1) totalMonths
                       (addDays lastOneMonth 1) endDate
      else []
  end.

(** [new Date(arg)] for a date-only ISO argument [arg]: the instant of UTC
    midnight of that day.  The getters of date-fns ([getDate],
    [getDaysInMonth], [differenceInCalendarMonths], [format]) read a Date in
    local time; [offset arg] is the offset of the machine's zone from UTC at
    that instant, in minutes (negative west of UTC), so the day they see is
    the argument's day moved by the whole days of the offset. *)
Definition newDate (offset : Date -> Z) (arg : Date) : Date :=
  addDays arg (offset arg / 1440).

(** The windows [startScript] exports for the two dates of the command line,
    [process.argv[2]] and [process.argv[3]]. *)
Definition startScript (offset : Date -> Z) (arg2 arg3 : Date) : list Window :=
  let startDate := newDate offset arg2 in
  let endDate := newDate offset arg3 in
  let totalMonths := differenceInCalendarMonths endDate startDate + 1 in
  monthLoop (Z.to_nat totalMonths) 0 totalMonths startDate endDate.

(** * Vocabulary of the properties *)

(** ** Observation fields *)

(** The eleven fields of [IObservation], each with the code
    [observationStep] looks for, the value rule it applies and its getter. *)
Inductive ObservationField :=
| F_causeOfDeathMethod
| F_birthPluralityOfPregnancy
| F_bodyWeightMeasured
| F_birthAttendantTitle
| F_uncertifiedMannerOfDeath
| F_verbalAutopsyDescription
| F_causeOfDeathEstablished
| F_causeOfDeath
| F_numMaleDependentsOnDeceased
| F_numFemaleDependentsOnDeceased
| F_presentAtBirthReg.

Definition fieldCode (f : ObservationField) : string :=
  match f with
  | F_causeOfDeathMethod => OBSERVATION_CODE.CAUSE_OF_DEATH_METHOD
  | F_birthPluralityOfPregnancy => OBSERVATION_CODE.BIRTH_PLURALITY_OF_PREGNANCY
  | F_bodyWeightMeasured => OBSERVATION_CODE.BODY_WEIGHT_MEASURED
  | F_birthAttendantTitle => OBSERVATION_CODE.BIRTH_ATTENDANT_TITLE
  | F_uncertifiedMannerOfDeath => OBSERVATION_CODE.UNCERTIFIED_MANNER_OF_DEATH
  | F_verbalAutopsyDescription => OBSERVATION_CODE.VERBAL_AUTOPSY_DESCRIPTION
  | F_causeOfDeathEstablished => OBSERVATION_CODE.CAUSE_OF_DEATH_ESTABLISHED
  | F_causeOfDeath => OBSERVATION_CODE.CAUSE_OF_DEATH
  | F_numMaleDependentsOnDeceased => OBSERVATION_CODE.NUM_MALE_DEPENDENTS_ON_DECEASED
  | F_numFemaleDependentsOnDeceased => OBSERVATION_CODE.NUM_FEMALE_DEPENDENTS_ON_DECEASED
  | F_presentAtBirthReg => OBSERVATION_CODE.PRESENT_AT_BIRTH_REG
  end.

Definition fieldRule (f : ObservationField) : Observation -> Js string :=
  match f with
  | F_causeOfDeathMethod => codedValue
  | F_birthPluralityOfPregnancy => quantityValue
  | F_bodyWeightMeasured => quantityWithUnit
  | F_birthAttendantTitle => stringValue
  | F_uncertifiedMannerOfDeath => codedValue
  | F_verbalAutopsyDescription => stringValue
  | F_causeOfDeathEstablished => codedValue
  | F_causeOfDeath => codedValue
  | F_numMaleDependentsOnDeceased => stringValue
  | F_numFemaleDependentsOnDeceased => stringValue
  | F_presentAtBirthReg => stringValue
  end.

Definition getField (f : ObservationField) : IObservation -> string :=
  match f with
  | F_causeOfDeathMethod => causeOfDeathMethod
  | F_birthPluralityOfPregnancy => birthPluralityOfPregnancy
  | F_bodyWeightMeasured => bodyWeightMeasured
  | F_birthAttendantTitle => birthAttendantTitle
  | F_uncertifiedMannerOfDeath => uncertifiedMannerOfDeath
  | F_verbalAutopsyDescription => verbalAutopsyDescription
  | F_causeOfDeathEstablished => causeOfDeathEstablished
  | F_causeOfDeath => causeOfDeath
  | F_numMaleDependentsOnDeceased => numMaleDependentsOnDeceased
  | F_numFemaleDependentsOnDeceased => numFemaleDependentsOnDeceased
  | F_presentAtBirthReg => presentAtBirthReg
  end.

(** The primary (index-0) coding of the observation carries [code]. *)
Definition primaryCodeIs (code : string) (o : Observation) : bool :=
  match cc_coding (obs_code o) with
  | Some (k :: _) => strictEq (coding_code k) (Some code)
  | _ => false
  end.

Definition nonEmptyCoding (c : CodeableConcept) : bool :=
  match cc_coding c with
  | Some [] => false
  | _ => true
  end.

(** No [coding] array of the observation is empty, so that no [coding[0]]
    read throws. *)
Definition wellShaped (o : Observation) : bool :=
  nonEmptyCoding (obs_code o)
  && match obs_valueCodeableConcept o with
     | Some c => nonEmptyCoding c
     | None => true
     end.

(** The value the specification gives a field: that of the first observation
    of the list with the field's code, [''] when there is none. *)
Definition firstMatchValue (f : ObservationField) (observations : list Observation)
    : Js string :=
  match find (primaryCodeIs (fieldCode f)) observations with
  | Some o => fieldRule f o
  | None => ret ""
  end.

(** The same with the last such observation of the list. *)
Definition lastMatchValue (f : ObservationField) (observations : list Observation)
    : Js string :=
  match find (primaryCodeIs (fieldCode f)) (rev observations) with
  | Some o => fieldRule f o
  | None => ret ""
  end.

(** ** Header labels *)

Definition isUpperOrSpace (c : ascii) : bool :=
  let n := nat_of_ascii c in
  Nat.eqb n 32 || (Nat.leb 65 n && Nat.leb n 90).

Fixpoint allChars (p : ascii -> bool) (s : string) : bool :=
  match s with
  | EmptyString => true
  | String c s' => p c && allChars p s'
  end.

(** A key's label is a non-empty upper-case text other than the key. *)
Definition isLabelOf (kv : string * JSValue) : bool :=
  match snd kv with
  | VString s => truthy s && allChars isUpperOrSpace s && negb (String.eqb s (fst kv))
  | VNumber _ => false
  end.

(** ** Shape of the aggregate *)

Definition isSome {A} (x : option A) : bool :=
  match x with
  | Some _ => true
  | None => false
  end.

(** Every key of [IFullComposition] is present. *)
Definition fullyShaped (c : IFullComposition) : bool :=
  isSome (event c) && isSome (fc_deceased c) && isSome (fc_child c)
  && isSome (fc_father c) && isSome (fc_mother c) && isSome (fc_informant c)
  && isSome (observations c) && isSome (officeLocation c)
  && isSome (healthCenter c) && isSome (eventDistrict c)
  && isSome (eventState c) && isSome (eventCity c).

(** The keys every completed aggregation sets. *)
Definition coreShaped (c : IFullComposition) : bool :=
  isSome (event c) && isSome (observations c) && isSome (officeLocation c)
  && isSome (eventDistrict c) && isSome (eventState c) && isSome (eventCity c).

(** [c'] differs from [c] at most in the role slots (the four patients and
    the informant). *)
Definition sameButRoles (c c' : IFullComposition) : Prop :=
  event c' = event c /\ observations c' = observations c
  /\ officeLocation c' = officeLocation c /\ healthCenter c' = healthCenter c
  /\ eventDistrict c' = eventDistrict c /\ eventState c' = eventState c
  /\ eventCity c' = eventCity c.

(** [c'] differs from [c] at most in the location names. *)
Definition sameButLocation (c c' : IFullComposition) : Prop :=
  event c' = event c /\ observations c' = observations c
  /\ fc_deceased c' = fc_deceased c /\ fc_child c' = fc_child c
  /\ fc_father c' = fc_father c /\ fc_mother c' = fc_mother c
  /\ fc_informant c' = fc_informant c.

(** The address array of the patient, when present, has a first element. *)
Definition addressReadable (p : Patient) : bool :=
  match pat_address p with
  | Some [] => false
  | _ => true
  end.

(** ** Locations *)

Definition isHealthFacility (l : Location) : Prop :=
  codingCode0 (loc_type l) = Some (Some "HEALTH_FACILITY").

(** The type tag can be read and is another one, or none. *)
Definition isOtherLocation (l : Location) : Prop :=
  exists t, codingCode0 (loc_type l) = Some t /\ t <> Some "HEALTH_FACILITY".

Definition withPartOf (p : option Reference) (l : Location) : Location :=
  mkLocation (loc_id l) (loc_name l) (loc_type l) p (loc_address l).

Definition addressField (l : Location) (f : Address -> option string)
    : option string :=
  match loc_address l with
  | Some a => f a
  | None => None
  end.

(** The business status the export gate reads off a Task. *)
Definition businessStatusOf (task : Task) : Js (option string) :=
  codingCode0 (task_businessStatus task).

(** ** The calendar *)

(** The Gregorian leap years. *)
Definition leapYear (y : Z) : bool :=
  if y mod 400 =? 0 then true
  else if y mod 100 =? 0 then false
  else y mod 4 =? 0.

(** The number of days of month [m] of year [y]. *)
Definition monthLength (y m : Z) : Z :=
  match m with
  | 1 => 31
  | 2 => if leapYear y then 29 else 28
  | 3 => 31
  | 4 => 30
  | 5 => 31
  | 6 => 30
  | 7 => 31
  | 8 => 31
  | 9 => 30
  | 10 => 31
  | 11 => 30
  | 12 => 31
  | _ => 0
  end.

(** A day of the Gregorian calendar. *)
Definition civil (d : Date) : Prop :=
  1 <= month d <= 12 /\ 1 <= day d <= monthLength (year d) (month d).

(** [d] is the last day of its month. *)
Definition monthEnd (d : Date) : Prop :=
  day d = monthLength (year d) (month d).

(** [b] is the day after [a]: the earliest day of the calendar after [a]. *)
Definition dayAfter (a b : Date) : Prop :=
  civil a /\ civil b /\ before a b
  /\ forall x, civil x -> before a x -> notAfter b x.

(** A window from a day of the calendar to a day not before it. *)
Definition civilWindow (w : Window) : Prop :=
  civil (fst w) /\ civil (snd w) /\ notAfter (fst w) (snd w).

(** ** Windows *)

Definition lastDayOfMonth (d : Date) : Date :=
  mkDate (year d) (month d) (getDaysInMonth d).

(** [ws] tiles the days from [s] to [e] month by month: every window but the
    last runs to the end of its month and the next one starts the day after;
    the last one ends at [e]. *)
Inductive Tiling : Date -> Date -> list Window -> Prop :=
| Tiling_last s e :
    valid s -> valid e -> notAfter s e ->
    year s = year e -> month s = month e ->
    Tiling s e [(s, e)]
| Tiling_cons s e ws :
    valid s -> before (lastDayOfMonth s) e ->
    Tiling (nextDay (lastDayOfMonth s)) e ws ->
    Tiling s e ((s, lastDayOfMonth s) :: ws).

(** A window whose two ends are days of the calendar, in order. *)
Definition wellFormedWindow (w : Window) : Prop :=
  valid (fst w) /\ valid (snd w) /\ notAfter (fst w) (snd w).

(** An order-preserving numbering of the days of the calendar (with gaps). *)
Definition dayKey (d : Date) : Z := (year d * 13 + month d) * 32 + day d.

(** * A small store, used by the examples below *)

Module Example.

Definition coded (code : string) : CodeableConcept :=
  mkCodeableConcept (Some [mkCoding (Some code)]) None.

Definition ref (r : string) : Reference := mkReference (Some r).

Definition stateLoc : Location :=
  mkLocation (Some "s1") (Some "Central") (Some (coded "ADMIN_STRUCTURE")) None None.

Definition districtLoc : Location :=
  mkLocation (Some "d1") (Some "Ibombo") (Some (coded "ADMIN_STRUCTURE"))
    (Some (ref "Location/s1")) None.

Definition facilityLoc : Location :=
  mkLocation (Some "f1") (Some "Ibombo Clinic") (Some (coded "HEALTH_FACILITY"))
    (Some (ref "Location/d1"))
    (Some (mkAddress (Some "Ibombo Town") None None)).

Definition homeLoc : Location :=
  mkLocation (Some "h1") None (Some (coded "PRIVATE_HOME")) None
    (Some (mkAddress (Some "Chamakubi") (Some "d1") (Some "s1"))).

Definition officeLoc : Location :=
  mkLocation (Some "o1") (Some "Ibombo Office") (Some (coded "CRVS_OFFICE"))
    (Some (ref "Location/d1")) None.

Definition locations : list Location :=
  [stateLoc; districtLoc; facilityLoc; homeLoc; officeLoc].

Definition childPatient : Patient :=
  mkPatient (Some "p1") (Some "male") (Some "2022-02-01") None None (Some 1) None
    (Some [mkAddress (Some "Chamakubi") (Some "d1") (Some "s1")]).

Definition motherPatient : Patient :=
  mkPatient (Some "p2") (Some "female") (Some "1995-05-05") None
    (Some (mkCodeableConcept None (Some "MARRIED"))) None
    (Some [mkExtension patientOccupationExtURL (Some "Farmer") None])
    None.

Definition deceasedPatient : Patient :=
  mkPatient (Some "p3") (Some "male") (Some "1950-01-01") (Some "2022-03-03")
    None None None
    (Some [mkAddress (Some "Chamakubi") (Some "d1") (Some "s1")]).

Definition motherRelated : RelatedPerson :=
  mkRelatedPerson (Some "rp1") (Some (coded "MOTHER")) (Some (ref "Patient/p2")).

Definition homeEncounter : Encounter :=
  mkEncounter (Some "e1") (Some [mkEncounterLocation (ref "Location/h1")]).

Definition facilityEncounter : Encounter :=
  mkEncounter (Some "e2") (Some [mkEncounterLocation (ref "Location/f1")]).

Definition attendant (context title : string) : Observation :=
  mkObservation (coded OBSERVATION_CODE.BIRTH_ATTENDANT_TITLE)
    (Some (ref context)) None None (Some title).

(** Two observations of one encounter with the same code. *)
Definition attendants : list Observation :=
  [attendant "Encounter/e1" "PHYSICIAN"; attendant "Encounter/e1" "NURSE"].

Definition officeExtension : Extension :=
  mkExtension officeLocationExtURL None (Some (ref "Location/o1")).

Definition taskFor (compositionId status : string) : Task :=
  mkTask (Some (ref ("Composition/" ++ compositionId))) (Some (coded status))
    (Some [officeExtension]).

Definition store : Store :=
  mkStore [homeEncounter; facilityEncounter] attendants
    [childPatient; motherPatient; deceasedPatient] [motherRelated]
    [taskFor "c1" "REGISTERED"; taskFor "c2" "REGISTERED";
     taskFor "c3" "DECLARED"; taskFor "c4" "CERTIFIED"].

Definition childSection : Section :=
  mkSection (Some "Child details") (Some [ref "Patient/p1"]).
Definition deceasedSection : Section :=
  mkSection (Some "Deceased details") (Some [ref "Patient/p3"]).
Definition encounterSection : Section :=
  mkSection (Some "Birth encounter") (Some [ref "Encounter/e1"]).
Definition deathEncounterSection : Section :=
  mkSection (Some "Death encounter") (Some [ref "Encounter/e2"]).
Definition informantSection : Section :=
  mkSection (Some "Informant's details") (Some [ref "RelatedPerson/rp1"]).

(** A registered birth at home. *)
Definition birth : Composition :=
  mkComposition (Some "c1") (Some "Birth Declaration")
    (Some [childSection; encounterSection; informantSection]).

(** The same declaration without its Encounter section. *)
Definition birthNoEncounter : Composition :=
  mkComposition (Some "c2") (Some "Birth Declaration")
    (Some [childSection; informantSection]).

(** A declaration that is not registered yet. *)
Definition birthDeclared : Composition :=
  mkComposition (Some "c3") (Some "Birth Declaration")
    (Some [childSection; encounterSection; informantSection]).

(** A certified death in a health facility. *)
Definition death : Composition :=
  mkComposition (Some "c4") (Some "Death Declaration")
    (Some [deceasedSection; deathEncounterSection; informantSection]).

Definition noFiles : Files := mkFiles [] [].

End Example.

(** * The cursor query and the whole run *)

(** A Composition as the collection stores it: the projected document and
    its [date]. *)
Record CompositionDoc := mkCompositionDoc {
  doc_date : option string;
  doc_composition : Composition
}.

(** [{ date: { $gte: startDate, $lte: endDate } }] with string bounds: a
    [date] that is a string between the two in binary order. *)
Definition dateInRange (startDate endDate : string) (date : option string) : bool :=
  match date with
  | Some d => String.leb startDate d && String.leb d endDate
  | None => false
  end.

Definition selectedDocs (docs : list CompositionDoc) (startDate endDate : string)
    : list CompositionDoc :=
  filter (fun d => dateInRange startDate endDate (doc_date d)) docs.

(** [getCompositionCursor(startDate, endDate)]: what the cursor yields. *)
Definition getCompositionCursor (docs : list CompositionDoc)
    (startDate endDate : string) : list Composition :=
  map doc_composition (selectedDocs docs startDate endDate).

Section Script.

(** [DateFNS.format(date, 'yyyy-MM-dd')] *)
Variable format : Date -> string.

Definition formatedStartDate (startDate : Date) : string :=
  format startDate ++ "T00:00:00.000Z".

Definition formatedEndDate (lastOneMonth : Date) : string :=
  format lastOneMonth ++ "T23:59:59.000Z".

(** The part of one iteration of the [for] loop of [startScript] that
    queries and exports; [locations] is the Location collection. *)
Definition exportWindow (st : Store) (docs : list CompositionDoc)
    (locations : list Location) (files : Files) (w : Window) : Files :=
  let compositionsCursor :=
    getCompositionCursor docs (formatedStartDate (fst w)) (formatedEndDate (snd w)) in
  makeCompositionAndExportCSVReport st compositionsCursor locations files.

(** [startScript], from the two dates of the command line to the files it
    leaves. *)
Definition runStartScript (offset : Date -> Z) (st : Store)
    (docs : list CompositionDoc) (locations : list Location)
    (arg2 arg3 : Date) (files : Files) : Files :=
  let birthCSVWriter := createBirthDeclarationCSVWriter (birthFile files) in
  let deathCSVWriter := createDeathDeclarationCSVWriter (deathFile files) in
  fold_left (exportWindow st docs locations) (startScript offset arg2 arg3)
            (mkFiles birthCSVWriter deathCSVWriter).

End Script.

(** ** Vocabulary of the further properties *)

(** The line [writeRecords] makes of a record. *)
Definition lineOf (header : list string) (record : Row) : Line :=
  map (fun id => nullish (get id record) (VString "")) header.

(** The lines the records of a cursor add to the birth file, in order. *)
Definition birthLines (st : Store) (locations : list Location)
    (compositions : list Composition) : list Line :=
  flat_map (fun c => match resolveRecord st locations c with
                     | Some (WriteBirth birthRow) => [lineOf birthHeader birthRow]
                     | _ => []
                     end) compositions.

(** The lines they add to the death file. *)
Definition deathLines (st : Store) (locations : list Location)
    (compositions : list Composition) : list Line :=
  flat_map (fun c => match resolveRecord st locations c with
                     | Some (WriteDeath deathRow) => [lineOf deathHeader deathRow]
                     | _ => []
                     end) compositions.

(** The slot of the aggregate a role names. *)
Definition roleSlot (r : Role) (c : IFullComposition) : option IPatient :=
  match r with
  | child => fc_child c
  | deceased => fc_deceased c
  | mother => fc_mother c
  | father => fc_father c
  | informantRole => option_map informantPatient (fc_informant c)
  end.

(** A Task status that opens the export gate. *)
Definition eligible (task : Task) : Prop :=
  businessStatusOf task = Some (Some "CERTIFIED")
  \/ businessStatusOf task = Some (Some "REGISTERED").

(** No two observations of the list carry the code of one field. *)
Definition oneObservationPerCode (observations : list Observation) : Prop :=
  forall f o1 o2,
    In o1 observations -> In o2 observations ->
    primaryCodeIs (fieldCode f) o1 = true ->
    primaryCodeIs (fieldCode f) o2 = true ->
    o1 = o2.

(** [p'] is [p] but for the district and state of its first address. *)
Definition sameButDistrictState (p p' : Patient) : Prop :=
  pat_id p' = pat_id p /\ pat_gender p' = pat_gender p
  /\ pat_birthDate p' = pat_birthDate p
  /\ pat_deceasedDateTime p' = pat_deceasedDateTime p
  /\ pat_maritalStatus p' = pat_maritalStatus p
  /\ pat_multipleBirthInteger p' = pat_multipleBirthInteger p
  /\ pat_extension p' = pat_extension p
  /\ match pat_address p, pat_address p' with
     | None, None => True
     | Some (a :: rest), Some (a' :: rest') =>
         addr_city a' = addr_city a /\ rest' = rest
     | _, _ => False
     end.

(** ** Where the parts of the aggregate come from *)

(** Lines 308-325 of [setLocationInComposition]: the Location the Encounter
    of the composition points to. *)
Definition encounterLocation (st : Store) (locations : list Location)
    (composition : Composition) : Js Location :=
  encounter <- findSection "Encounter/" composition ;;
  r <- sectionReference encounter ;;
  let encounterId := nullish (option_map (replace "Encounter/" "") r) "" in
  e0 <- first (getCollectionDocuments enc_id (ENCOUNTER st) [encounterId]) ;;
  l0 <- optFirst (enc_location e0) ;;
  findLocation locations
    (match l0 with
     | Some l => locationIdOf (Some (el_location l))
     | None => None
     end).

(** The callback of the second [forEach] of
    [setPatientsDetailsInComposition] (lines 285-299), over the patients
    fetched. *)
Definition patientStep (patients : list Patient) (fc : IFullComposition)
    (section : Section) : Js IFullComposition :=
  isPatient <- referencesKind "Patient/" section ;;
  if isPatient then
    r <- entryReference section ;;
    let patientId := replace "Patient/" "" (toStr r) in
    let patient :=
      find (fun p => strictEq (pat_id p) (Some patientId)) patients in
    match patient with
    | Some patient' =>
        if isTruthy (sec_title section) then
          v <- makePatientObject patient' ;;
          ret (set_role (TITLE_MAP (toStr (sec_title section))) v fc)
        else ret fc
    | None => ret fc
    end
  else ret fc.

(** The snapshot [v] is that of a stored Patient, after the address
    substitution, whom a section of the composition titled for [role]
    references. *)
Definition filledBySection (st : Store) (locations : list Location)
    (composition : Composition) (role : Role) (v : IPatient) : Prop :=
  exists sections section title r p p',
    comp_section composition = Some sections /\ In section sections
    /\ sec_title section = Some title /\ TITLE_MAP title = Some role
    /\ entryReference section = Some (Some r) /\ startsWith "Patient/" r = true
    /\ In p (PATIENT st) /\ pat_id p = Some (replace "Patient/" "" r)
    /\ setPatientAddress locations p = Some p'
    /\ makePatientObject p' = Some v.

(** The informant [i] is the snapshot of the first stored Patient the first
    stored RelatedPerson of the RelatedPerson section names, with that
    RelatedPerson's relationship code. *)
Definition filledByRelatedPerson (st : Store) (locations : list Location)
    (composition : Composition) (i : IInformant) : Prop :=
  exists informant r rp patientRef p p' v rel,
    findSection "RelatedPerson/" composition = Some informant
    /\ sectionReference informant = Some r
    /\ first (getCollectionDocuments rp_id (RELATEDPERSON st)
                [nullish (option_map (replace "RelatedPerson/" "") r) ""])
       = Some rp
    /\ rp_patient rp = Some patientRef
    /\ first (getCollectionDocuments pat_id (PATIENT st)
                [toStr (option_map (replace "Patient/" "") (reference patientRef))])
       = Some p
    /\ setPatientAddress locations p = Some p'
    /\ makePatientObject p' = Some v
    /\ codingCode0 (rp_relationship rp) = Some rel
    /\ i = mkIInformant (Some (nullish rel "")) v.

(** The value of the first extension of the list with the URL. *)
Definition firstExtension (url : string) (extension : list Extension)
    (e : Extension) : Prop :=
  exists front back,
    extension = (front ++ e :: back)%list
    /\ ext_url e = url
    /\ forall x, In x front -> ext_url x <> url.

(** [x] is the first document of [xs] with the id. *)
Definition firstWithId {D} (getId : D -> option string) (xs : list D)
    (id : string) (x : D) : Prop :=
  exists front back,
    xs = (front ++ x :: back)%list
    /\ getId x = Some id
    /\ forall y, In y front -> getId y <> Some id.

(** The first entry of the section, if it has entries at all, is not a
    reference that starts with the prefix. *)
Definition pointsElsewhere (prefix : string) (s : Section) : Prop :=
  sec_entry s = None
  \/ exists r more,
       sec_entry s = Some (r :: more)
       /\ (reference r = None
           \/ exists x, reference r = Some x /\ startsWith prefix x = false).

(** [sec] is the first section of the list whose first entry is a reference
    that starts with the prefix, and what follows the prefix is [id]. *)
Definition firstSectionReferencing (prefix : string) (sections : list Section)
    (sec : Section) (id : string) : Prop :=
  exists front back more,
    sections = (front ++ sec :: back)%list
    /\ sec_entry sec = Some (mkReference (Some (prefix ++ id)) :: more)
    /\ forall s, In s front -> pointsElsewhere prefix s.

(** ** The columns of the two rows *)

(** [x?.f ?? ''] as a cell *)
Definition slotText {A} (x : option A) (f : A -> string) : JSValue :=
  match x with
  | Some a => VString (f a)
  | None => VString ""
  end.

Definition textOr (x : option string) : JSValue :=
  match x with
  | Some s => VString s
  | None => VString ""
  end.

(** The birth row, column by column: the slot of the aggregate each column
    reads (lines 763-819). *)
Definition birthRowColumns (c : IFullComposition) : Row :=
  let informantText f := slotText (fc_informant c) (fun i => f (informantPatient i)) in
  [ ("childGen", slotText (fc_child c) gender);
    ("childDOB", slotText (fc_child c) birthDate);
    ("childOrd", match fc_child c with
                 | Some p => VNumber (multipleBirth p)
                 | None => VNumber 0
                 end);
    ("birthCity", textOr (eventCity c));
    ("birthState", textOr (eventState c));
    ("birthDistrict", textOr (eventDistrict c));
    ("healthCenter", textOr (healthCenter c));
    ("officeLocation", textOr (officeLocation c));
    ("birthPluralityOfPregnancy", slotText (observations c) birthPluralityOfPregnancy);
    ("bodyWeightMeasured", slotText (observations c) bodyWeightMeasured);
    ("birthAttendantTitle", slotText (observations c) birthAttendantTitle);
    ("presentAtBirthReg", slotText (observations c) presentAtBirthReg);
    ("motherDOB", slotText (fc_mother c) birthDate);
    ("motherMaritalStatus", slotText (fc_mother c) maritalStatus);
    ("motherOccupation", slotText (fc_mother c) occupation);
    ("motherEducationalAttainment", slotText (fc_mother c) educational_attainment);
    ("motherCity", slotText (fc_mother c) city);
    ("motherDistrict", slotText (fc_mother c) district);
    ("motherState", slotText (fc_mother c) state);
    ("fatherDOB", slotText (fc_father c) birthDate);
    ("fatherMaritalStatus", slotText (fc_father c) maritalStatus);
    ("fatherOccupation", slotText (fc_father c) occupation);
    ("fatherEducationalAttainment", slotText (fc_father c) educational_attainment);
    ("fatherCity", slotText (fc_father c) city);
    ("fatherDistrict", slotText (fc_father c) district);
    ("fatherState", slotText (fc_father c) state);
    ("informantDOB", informantText birthDate);
    ("informantMaritalStatus", informantText maritalStatus);
    ("informantOccupation", informantText occupation);
    ("informantEducationalAttainment", informantText educational_attainment);
    ("informantCity", informantText city);
    ("informantDistrict", informantText district);
    ("informantState", informantText state);
    ("informantRelationship",
     match fc_informant c with
     | Some i => textOr (relationship i)
     | None => VString ""
     end) ].

(** The death row, column by column (lines 850-892). *)
Definition deathRowColumns (c : IFullComposition) : Row :=
  let informantText f := slotText (fc_informant c) (fun i => f (informantPatient i)) in
  [ ("deceasedGen", slotText (fc_deceased c) gender);
    ("deceasedDOB", slotText (fc_deceased c) birthDate);
    ("deceasedMaritalStatus", slotText (fc_deceased c) maritalStatus);
    ("deceasedDate", slotText (fc_deceased c) deceasedDate);
    ("deathCity", slotText (fc_deceased c) city);
    ("deathState", slotText (fc_deceased c) state);
    ("deathDistrict", slotText (fc_deceased c) district);
    ("healthCenter", textOr (healthCenter c));
    ("officeLocation", textOr (officeLocation c));
    ("uncertifiedMannerOfDeath", slotText (observations c) uncertifiedMannerOfDeath);
    ("verbalAutopsyDescription", slotText (observations c) verbalAutopsyDescription);
    ("causeOfDeathMethod", slotText (observations c) causeOfDeathMethod);
    ("causeOfDeathEstablished",
     match observations c with
     | Some o => if String.eqb (causeOfDeathEstablished o) ""
                 then VString "No" else VString "Yes"
     | None => VString "No"
     end);
    ("causeOfDeath", slotText (observations c) causeOfDeath);
    ("numMaleDependentsOnDeceased",
     slotText (observations c) numMaleDependentsOnDeceased);
    ("numFemaleDependentsOnDeceased",
     slotText (observations c) numFemaleDependentsOnDeceased);
    ("informantDOB", informantText birthDate);
    ("informantMaritalStatus", informantText maritalStatus);
    ("informantOccupation", informantText occupation);
    ("informantCity", informantText city);
    ("informantDistrict", informantText district);
    ("informantState", informantText state);
    ("informantRelationship",
     match fc_informant c with
     | Some i => textOr (relationship i)
     | None => VString ""
     end) ].

(** Every listed column of the row holds the empty string. *)
Definition allEmpty (columns : list string) (row : Row) : Prop :=
  forall key, In key columns -> get key row = Some (VString "").

(** ** A formatter for the examples *)

Definition digit (n : Z) : ascii := ascii_of_nat (48 + Z.to_nat (n mod 10)).

Definition pad2 (n : Z) : string :=
  String (digit (n / 10)) (String (digit n) "").

Definition pad4 (n : Z) : string :=
  String (digit (n / 1000)) (String (digit (n / 100)) (pad2 n)).

(** What [format(date, 'yyyy-MM-dd')] gives for the years 0 to 9999. *)
Definition formatDay (d : Date) : string :=
  pad4 (year d) ++ "-" ++ pad2 (month d) ++ "-" ++ pad2 (day d).

Definition exampleDocs : list CompositionDoc :=
  [ mkCompositionDoc (Some "2022-01-31T23:59:59.500Z") Example.birth;
    mkCompositionDoc (Some "2022-02-10T08:30:00.000Z") Example.birth;
    mkCompositionDoc (Some "2022-03-01T00:00:00.000Z") Example.death;
    mkCompositionDoc (Some "2022-03-15T12:00:00.000Z") Example.birthDeclared;
    mkCompositionDoc (Some "2022-03-16T00:00:00.000Z") Example.birth ].

(** * Properties *)

(** ** The error monad *)

Lemma bind_Some {A B} (m : Js A) (k : A -> Js B) (b : B) :
  bind m k = Some b -> exists a, m = Some a /\ k a = Some b.
Proof.
  destruct m as [a|]; simpl; intro H; [ exists a; auto | discriminate ].
Qed.

Lemma bind_None {A B} (m : Js A) (k : A -> Js B) :
  m = None -> bind m k = None.
Proof. intros ->; reflexivity. Qed.

Ltac inv_bind H :=
  let a := fresh "a" in
  let E := fresh "E" in
  apply bind_Some in H; destruct H as (a & E & H).

(** ** Headers and rows *)

(** C3, as the script has it: the birth writer has 34 columns, the death
    writer 23; each header record labels exactly the writer's columns, in the
    writer's order, with a non-empty upper-case label that differs from the
    key; and the first line each writer appends is that list of labels. *)
Theorem C3_headers :
  List.length birthHeader = 34%nat
  /\ List.length deathHeader = 23%nat
  /\ keys birthCSVHeader = birthHeader
  /\ keys deathCSVHeader = deathHeader
  /\ forallb isLabelOf birthCSVHeader = true
  /\ forallb isLabelOf deathCSVHeader = true
  /\ createBirthDeclarationCSVWriter [] = [map snd birthCSVHeader]
  /\ createDeathDeclarationCSVWriter [] = [map snd deathCSVHeader].
Proof. repeat split; vm_compute; reflexivity. Qed.

(** C3 as stated fails: the birth header does not have 32 columns. *)
Lemma C3_birth_header_is_not_32 : List.length birthHeader <> 32%nat.
Proof. vm_compute; discriminate. Qed.

Lemma birthRow_keys c : keys (makeBirthRow c) = birthHeader.
Proof. vm_compute; reflexivity. Qed.

Lemma deathRow_keys c : keys (makeDeathRow c) = deathHeader.
Proof. vm_compute; reflexivity. Qed.

Lemma get_in_keys key row : In key (keys row) -> get key row <> None.
Proof.
  induction row as [|[k v] row IH]; simpl; [ tauto | ].
  intros [->|H].
  - rewrite String.eqb_refl; discriminate.
  - destruct (String.eqb k key); [ discriminate | auto ].
Qed.

(** What the death row holds when nothing was resolved. *)
Lemma deathRow_of_empty :
  makeDeathRow emptyFullComposition
  = assign "causeOfDeathEstablished" (VString "No") emptyDeathRow.
Proof. vm_compute; reflexivity. Qed.


(** C9 as stated fails: in the death row of the empty aggregate the column
    causeOfDeathEstablished, for which nothing was resolved, is not ['']. *)
Lemma C9_empty_death_row_has_No :
  get "causeOfDeathEstablished" (makeDeathRow emptyFullComposition)
  = Some (VString "No")
  /\ get "causeOfDeathEstablished" (makeDeathRow emptyFullComposition)
     <> Some (VString "").
Proof. split; [ vm_compute; reflexivity | vm_compute; discriminate ]. Qed.

(** C6: the causeOfDeathEstablished column of a death row is ['Yes'] when the
    value extracted for the code is a non-empty string and ['No'] when it is
    empty or the observation bag is absent; it never holds anything else. *)
Theorem C6_causeOfDeathEstablished_yes_no (c : IFullComposition) :
  let extracted := nullish (option_map causeOfDeathEstablished (observations c)) "" in
  get "causeOfDeathEstablished" (makeDeathRow c)
  = Some (VString (if String.eqb extracted "" then "No" else "Yes"))
  /\ (get "causeOfDeathEstablished" (makeDeathRow c) = Some (VString "Yes")
      \/ get "causeOfDeathEstablished" (makeDeathRow c) = Some (VString "No")).
Proof.
  assert (E : get "causeOfDeathEstablished" (makeDeathRow c) = Some (yesNo c))
    by (vm_compute; reflexivity).
  rewrite E; unfold yesNo, isTruthy, truthy.
  destruct (observations c) as [o|]; simpl.
  - destruct (String.eqb (causeOfDeathEstablished o) ""); simpl; auto.
  - auto.
Qed.

(** ** What each resolver touches *)

Lemma foldM_invariant {A S} (f : S -> A -> Js S) (P : S -> Prop) :
  (forall s x s', P s -> f s x = Some s' -> P s') ->
  forall xs s s', P s -> foldM f s xs = Some s' -> P s'.
Proof.
  intros Hf; induction xs as [|x xs IH]; simpl; intros s s' Hs H.
  - injection H as <-; exact Hs.
  - inv_bind H; eauto.
Qed.

Lemma sameButRoles_refl c : sameButRoles c c.
Proof. repeat split. Qed.

Lemma sameButRoles_set_role r v c : sameButRoles c (set_role r v c).
Proof. destruct r as [[]|]; repeat split. Qed.

Lemma sameButRoles_trans c1 c2 c3 :
  sameButRoles c1 c2 -> sameButRoles c2 c3 -> sameButRoles c1 c3.
Proof.
  unfold sameButRoles; intros H1 H2.
  decompose [and] H1; decompose [and] H2; repeat split; congruence.
Qed.

Lemma setPatientsDetails_frame st composition c locations c' :
  setPatientsDetailsInComposition st composition c locations = Some c' ->
  sameButRoles c c'.
Proof.
  unfold setPatientsDetailsInComposition; intro H.
  do 4 inv_bind H.
  destruct (comp_section composition) as [section|].
  - revert H; apply foldM_invariant; [ | apply sameButRoles_refl ].
    clear; intros s x s' Hs H.
    inv_bind H; destruct a.
    + inv_bind H.
      destruct (find _ _); [ | injection H as <-; exact Hs ].
      destruct (isTruthy _); [ | injection H as <-; exact Hs ].
      inv_bind H; injection H as <-.
      eapply sameButRoles_trans; [ exact Hs | apply sameButRoles_set_role ].
    + injection H as <-; exact Hs.
  - injection H as <-; apply sameButRoles_refl.
Qed.

Lemma setEventLocation_sets leaf c locations c' :
  setEventLocation leaf c locations = Some c' ->
  sameButLocation c c'
  /\ officeLocation c' = officeLocation c
  /\ isSome (eventDistrict c') = true /\ isSome (eventState c') = true
  /\ isSome (eventCity c') = true.
Proof.
  unfold setEventLocation; intro H; inv_bind H.
  injection H as <-.
  destruct (strictEq a (Some "HEALTH_FACILITY")); repeat split.
Qed.

Lemma setLocation_sets st composition c locations task c' :
  setLocationInComposition st composition c locations task = Some c' ->
  sameButLocation c c'
  /\ isSome (officeLocation c') = true
  /\ isSome (eventDistrict c') = true /\ isSome (eventState c') = true
  /\ isSome (eventCity c') = true.
Proof.
  unfold setLocationInComposition; intro H.
  do 6 inv_bind H. injection H as <-.
  apply setEventLocation_sets in E4.
  destruct E4 as (F & _ & D & S & C).
  unfold sameButLocation in *; decompose [and] F.
  repeat split; assumption.
Qed.

Lemma setObservationDetails_sets st composition c c' :
  setObservationDetailsInComposition st composition c = Some c' ->
  exists section r observationObj,
    findSection "Encounter/" composition = Some section
    /\ sectionReference section = Some r
    /\ extractObservationDetails (getObservationDocByEncounterId st (toStr r))
       = Some observationObj
    /\ c' = set_observations observationObj c.
Proof.
  unfold setObservationDetailsInComposition; intro H.
  do 3 inv_bind H. injection H as <-.
  eauto 8.
Qed.

Lemma setInformantDetails_frame st composition c locations c' :
  setInformantDetailsInComposition st composition c locations = Some c' ->
  sameButRoles c c'.
Proof.
  unfold setInformantDetailsInComposition; intro H.
  do 3 inv_bind H.
  destruct (rp_patient _).
  - do 4 inv_bind H. injection H as <-; repeat split.
  - injection H as <-; apply sameButRoles_refl.
Qed.

(** The aggregate a completed aggregation returns: the resolvers leave the
    event type as classified, set the location names and the observation bag,
    and the bag is the one extracted from the observations of the record's
    Encounter reference. *)
Lemma buildFullComposition_core st locations composition task c :
  buildFullComposition st locations composition task = Some c ->
  coreShaped c = true
  /\ event c = Some (if strictEq (comp_title composition) (Some "Birth Declaration")
                     then Birth else Death)
  /\ exists section r observationObj,
       findSection "Encounter/" composition = Some section
       /\ sectionReference section = Some r
       /\ extractObservationDetails (getObservationDocByEncounterId st (toStr r))
          = Some observationObj
       /\ observations c = Some observationObj.
Proof.
  unfold buildFullComposition; intro H.
  inv_bind H. rename a into c1, E into H1.
  inv_bind H. rename a into c2, E into H2.
  inv_bind H. rename a into c3, E into H3.
  apply setPatientsDetails_frame in H1.
  apply setLocation_sets in H2.
  apply setObservationDetails_sets in H3.
  apply setInformantDetails_frame in H.
  destruct H3 as (section & r & o & Hs & Hr & Ho & ->).
  destruct H2 as (F2 & O2 & D2 & S2 & C2).
  unfold sameButRoles, sameButLocation in *.
  decompose [and] H1; decompose [and] F2; decompose [and] H; clear H1 F2 H.
  simpl in *.
  assert (Ev : event c = Some (if strictEq (comp_title composition)
                                    (Some "Birth Declaration")
                               then Birth else Death)) by congruence.
  repeat split.
  - unfold coreShaped.
    repeat match goal with
           | Heq : ?f c = _ |- context [?f c] => rewrite Heq
           end.
    simpl. rewrite O2, D2, S2, C2. reflexivity.
  - exact Ev.
  - exists section, r, o; repeat split; try assumption; congruence.
Qed.

(** ** Aggregation *)

(** C5 as stated fails: the aggregate of a registered birth at home, with a
    child and an informant only, is built without raising and lacks the
    keys of the other roles and of the health center. *)
Lemma C5_aggregate_not_fully_shaped :
  exists c,
    buildFullComposition Example.store Example.locations Example.birth
      (Example.taskFor "c1" "REGISTERED") = Some c
    /\ fc_mother c = None /\ fc_father c = None /\ fc_deceased c = None
    /\ healthCenter c = None
    /\ fullyShaped c = false.
Proof. eexists; split; [ vm_compute; reflexivity | ]; vm_compute; repeat split. Qed.


(** ** The export gate *)

(** C8: when the Task of a composition has a business status that is neither
    CERTIFIED nor REGISTERED (or none, or one that cannot be read), a turn of
    the export loop leaves both files as they were. *)
Theorem C8_unregistered_writes_nothing
    st locations files composition task
    (Htask : first (getTaskDocByCompositionId st
                      ("Composition/" ++ toStr (comp_id composition)))
             = Some task)
    (Hcertified : businessStatusOf task <> Some (Some "CERTIFIED"))
    (Hregistered : businessStatusOf task <> Some (Some "REGISTERED")) :
  exportRecord st locations files composition = files
  /\ birthFile (exportRecord st locations files composition) = birthFile files
  /\ deathFile (exportRecord st locations files composition) = deathFile files.
Proof.
  assert (E : exportRecord st locations files composition = files).
  { unfold exportRecord, resolveRecord.
    rewrite Htask; simpl.
    unfold businessStatusOf in *.
    destruct (codingCode0 (task_businessStatus task)) as [[s|]|]; simpl;
      try reflexivity.
    destruct (String.eqb_spec s "CERTIFIED") as [->|_];
      [ exfalso; apply Hcertified; reflexivity | ].
    destruct (String.eqb_spec s "REGISTERED") as [->|_];
      [ exfalso; apply Hregistered; reflexivity | ].
    reflexivity. }
  rewrite E; auto.
Qed.

Lemma C8_unregistered_writes_nothing_witness :
  exportRecord Example.store Example.locations Example.noFiles
    Example.birthDeclared = Example.noFiles.
Proof.
  refine (proj1 (C8_unregistered_writes_nothing
                   Example.store Example.locations Example.noFiles
                   Example.birthDeclared (Example.taskFor "c3" "DECLARED")
                   eq_refl _ _));
    vm_compute; discriminate.
Defined.

(** ** Location hierarchy *)

Lemma strictEq_true a b : strictEq a b = true <-> a = b.
Proof.
  destruct a as [x|], b as [y|]; simpl; split; intro H;
    try discriminate; try reflexivity.
  - apply String.eqb_eq in H; congruence.
  - injection H as ->; apply String.eqb_refl.
Qed.

Lemma findLocation_Some locations v l :
  findLocation locations v = Some l -> In l locations /\ loc_id l = v.
Proof.
  unfold findLocation, find; intro H.
  apply find_some in H; destruct H as [Hin Heq].
  split; [ exact Hin | apply strictEq_true; exact Heq ].
Qed.

Lemma findLocation_missing locations v :
  (forall l, In l locations -> loc_id l <> v) ->
  findLocation locations v = None.
Proof.
  intro H; destruct (findLocation locations v) as [l|] eqn:E; [ | reflexivity ].
  apply findLocation_Some in E; destruct E as [Hin Hid].
  exfalso; exact (H l Hin Hid).
Qed.

(** C7: for a leaf tagged HEALTH_FACILITY the district is the Location whose
    id is the leaf's partOf reference (less the [Location/] prefix) and the
    state the Location whose id is that district's partOf reference; for a
    leaf with another tag, or none, they are the Locations whose ids are the
    leaf's own address.district and address.state, whatever its partOf; the
    city is the leaf's own address.city in both cases; a Location found by id
    is a member of the set with that id, and an id no Location has gives the
    empty name. *)
Theorem C7_location_hierarchy
    (leaf : Location) (c : IFullComposition) (locations : list Location) :
  (isHealthFacility leaf ->
   let districtDoc :=
     findLocation locations (Some (toStr (locationIdOf (loc_partOf leaf)))) in
   let stateDoc :=
     findLocation locations
       (Some (toStr (match districtDoc with
                     | Some d => locationIdOf (loc_partOf d)
                     | None => None
                     end))) in
   exists c',
     setEventLocation leaf c locations = Some c'
     /\ healthCenter c' = Some (nullish (loc_name leaf) "")
     /\ eventDistrict c' = Some (nameOf districtDoc)
     /\ eventState c' = Some (nameOf stateDoc)
     /\ eventCity c' = Some (nullish (addressField leaf addr_city) ""))
  /\ (isOtherLocation leaf ->
      exists c',
        setEventLocation leaf c locations = Some c'
        /\ healthCenter c' = healthCenter c
        /\ eventDistrict c'
           = Some (nameOf (findLocation locations (addressField leaf addr_district)))
        /\ eventState c'
           = Some (nameOf (findLocation locations (addressField leaf addr_state)))
        /\ eventCity c' = Some (nullish (addressField leaf addr_city) "")
        /\ forall partOf,
             setEventLocation (withPartOf partOf leaf) c locations = Some c')
  /\ (forall v l, findLocation locations v = Some l ->
                  In l locations /\ loc_id l = v)
  /\ (forall v, (forall l, In l locations -> loc_id l <> v) ->
                nameOf (findLocation locations v) = "").
Proof.
  split; [ | split; [ | split ] ].
  - unfold isHealthFacility, setEventLocation; intros H; rewrite H; simpl.
    eexists; split; [ reflexivity | ]. repeat split.
  - unfold isOtherLocation, setEventLocation; intros (t & H & Ht).
    simpl; rewrite H; simpl.
    assert (E : strictEq t (Some "HEALTH_FACILITY") = false).
    { destruct (strictEq t (Some "HEALTH_FACILITY")) eqn:E; [ | reflexivity ].
      apply strictEq_true in E; contradiction. }
    rewrite E.
    eexists; split; [ reflexivity | ]. repeat split.
  - apply findLocation_Some.
  - intros v H; rewrite (findLocation_missing _ _ H); reflexivity.
Qed.

Lemma C7_location_hierarchy_witness :
  (exists c',
     setEventLocation Example.facilityLoc emptyFullComposition Example.locations
     = Some c'
     /\ healthCenter c' = Some "Ibombo Clinic"
     /\ eventDistrict c' = Some "Ibombo"
     /\ eventState c' = Some "Central"
     /\ eventCity c' = Some "Ibombo Town")
  /\ (exists c',
        setEventLocation Example.homeLoc emptyFullComposition Example.locations
        = Some c'
        /\ healthCenter c' = None
        /\ eventDistrict c' = Some "Ibombo"
        /\ eventState c' = Some "Central"
        /\ eventCity c' = Some "Chamakubi").
Proof.
  split.
  - destruct (proj1 (C7_location_hierarchy Example.facilityLoc
                       emptyFullComposition Example.locations) eq_refl)
      as (c' & H & H1 & H2 & H3 & H4).
    exists c'; repeat split; assumption.
  - assert (O : isOtherLocation Example.homeLoc).
    { exists (Some "PRIVATE_HOME"); split; [ reflexivity | discriminate ]. }
    destruct (proj1 (proj2 (C7_location_hierarchy Example.homeLoc
                              emptyFullComposition Example.locations)) O)
      as (c' & H & H1 & H2 & H3 & H4 & _).
    exists c'; repeat split; assumption.
Defined.

(** ** A composition without an Encounter section *)

Lemma findM_filter {A} (p : A -> Js bool) (q : A -> bool) (xs : list A) :
  findM p xs = Some None -> findM p (filter q xs) = Some None.
Proof.
  induction xs as [|x xs IH]; simpl; intro H; [ reflexivity | ].
  inv_bind H. destruct a; [ discriminate | ].
  destruct (q x); simpl; [ rewrite E; simpl | ]; auto.
Qed.

Lemma findSection_clinical prefix composition :
  findSection prefix composition = Some None ->
  findSection prefix (clinicalSections composition) = Some None.
Proof.
  unfold findSection, clinicalSections; simpl.
  destruct (comp_section composition); simpl; [ apply findM_filter | auto ].
Qed.

Lemma no_document_with_id {D} (getId : D -> option string) (docs : list D) i :
  (forall d, In d docs -> getId d <> Some i) ->
  getCollectionDocuments getId docs [i] = [].
Proof.
  intro H; unfold getCollectionDocuments; simpl.
  induction docs as [|d docs IH]; simpl; [ reflexivity | ].
  rewrite IH by (intros; apply H; right; assumption).
  assert (Hd := H d (or_introl eq_refl)).
  unfold idIn; destruct (getId d) as [j|]; simpl; [ | reflexivity ].
  destruct (String.eqb_spec j i); [ congruence | reflexivity ].
Qed.

Lemma setLocation_without_encounter st composition c locations task :
  findSection "Encounter/" composition = Some None ->
  (forall e, In e (ENCOUNTER st) -> enc_id e <> Some "") ->
  setLocationInComposition st composition c locations task = None.
Proof.
  intros Hs He; unfold setLocationInComposition.
  rewrite Hs; simpl.
  rewrite (no_document_with_id enc_id _ "" He); reflexivity.
Qed.

(** C1 does not hold of the script: for a composition none of whose sections
    references an Encounter (and a store with no Encounter of empty id),
    [setLocationInComposition] throws on the Encounter it did not find, the
    [catch] of the loop swallows the error, and no row is written to either
    file. *)
Theorem C1_no_encounter_section_no_row
    st locations files composition
    (Hsection : findSection "Encounter/" composition = Some None)
    (Hstore : forall e, In e (ENCOUNTER st) -> enc_id e <> Some "") :
  (forall row, resolveRecord st locations composition <> Some (WriteBirth row))
  /\ (forall row, resolveRecord st locations composition <> Some (WriteDeath row))
  /\ exportRecord st locations files composition = files.
Proof.
  assert (R : resolveRecord st locations composition = None
              \/ resolveRecord st locations composition = Some NoRow).
  { unfold resolveRecord.
    destruct (first _) as [task|]; simpl; [ | auto ].
    destruct (codingCode0 _) as [status|]; simpl; [ | auto ].
    destruct (_ || _); [ | auto ].
    left. apply bind_None.
    unfold buildFullComposition.
    destruct (setPatientsDetailsInComposition _ _ _ _) as [c1|]; simpl;
      [ | reflexivity ].
    rewrite setLocation_without_encounter;
      [ reflexivity | apply findSection_clinical; exact Hsection | exact Hstore ]. }
  unfold exportRecord.
  destruct R as [R|R]; rewrite R; repeat split; intros; discriminate.
Qed.

Lemma C1_no_encounter_section_no_row_witness :
  resolveRecord Example.store Example.locations Example.birthNoEncounter = None
  /\ exportRecord Example.store Example.locations Example.noFiles
       Example.birthNoEncounter = Example.noFiles.
Proof.
  split; [ vm_compute; reflexivity | ].
  refine (proj2 (proj2 (C1_no_encounter_section_no_row
                          Example.store Example.locations Example.noFiles
                          Example.birthNoEncounter eq_refl _))).
  intros e [<-|[<-|[]]]; discriminate.
Defined.

(** ** Observations: the last match wins *)

Lemma whenFound_if (b : bool) o rule assign x v :
  rule o = Some v ->
  whenFound (if b then Some o else None) rule assign x
  = Some ((if b then assign v else fun y => y) x).
Proof. intro H; destruct b; simpl; [ rewrite H | ]; reflexivity. Qed.

(** An assignment to another field can be skipped over. *)
Lemma peel f (b : bool) (s : IObservation -> IObservation) x :
  (forall y, getField f (s y) = getField f y) ->
  getField f ((if b then s else fun y => y) x) = getField f x.
Proof. intro H; destruct b; [ apply H | reflexivity ]. Qed.

Ltac peel_all := repeat (rewrite peel by (intro; reflexivity)).

Lemma codedValue_wellShaped o :
  wellShaped o = true -> exists v, codedValue o = Some v.
Proof.
  unfold wellShaped, codedValue, codingCode0, nonEmptyCoding.
  intro W; apply andb_prop in W; destruct W as [_ W].
  destruct (obs_valueCodeableConcept o) as [[[[|k ks]|] t]|]; simpl in *;
    try discriminate; eauto.
Qed.

Lemma fieldRule_wellShaped f o :
  wellShaped o = true -> exists v, fieldRule f o = Some v.
Proof.
  intro W; destruct (codedValue_wellShaped o W) as [v Hv].
  destruct f; simpl; eauto; unfold quantityValue, quantityWithUnit, stringValue;
    eauto.
Qed.

Lemma primaryCodeIs_codingCode0 o c :
  codingCode0 (Some (obs_code o)) = Some c ->
  forall code, primaryCodeIs code o = strictEq c (Some code).
Proof.
  intros Ec code; unfold primaryCodeIs; unfold codingCode0 in Ec.
  destruct (cc_coding (obs_code o)) as [[|k ks]|]; simpl in Ec;
    try discriminate; injection Ec as <-; reflexivity.
Qed.

(** One turn of the [forEach]: the field whose code the observation carries
    takes the observation's value, every other field keeps its own. *)
Lemma observationStep_field obj o :
  wellShaped o = true ->
  exists obj',
    observationStep obj o = Some obj'
    /\ forall f, Some (getField f obj')
                 = if primaryCodeIs (fieldCode f) o then fieldRule f o
                   else Some (getField f obj).
Proof.
  intro W.
  destruct (codedValue_wellShaped o W) as [vc Hc].
  assert (Hq : exists vq, quantityValue o = Some vq) by (eexists; reflexivity).
  assert (Hu : exists vu, quantityWithUnit o = Some vu) by (eexists; reflexivity).
  assert (Hs : exists vs, stringValue o = Some vs) by (eexists; reflexivity).
  destruct Hq as [vq Hq], Hu as [vu Hu], Hs as [vs Hs].
  unfold observationStep, findCodeInObservation.
  destruct (codingCode0 (Some (obs_code o))) as [c|] eqn:Ec.
  - cbn [bind ret].
    repeat (first [ rewrite (whenFound_if _ _ _ _ _ _ Hc)
                  | rewrite (whenFound_if _ _ _ _ _ _ Hq)
                  | rewrite (whenFound_if _ _ _ _ _ _ Hu)
                  | rewrite (whenFound_if _ _ _ _ _ _ Hs) ]; cbn [bind]).
    eexists; split; [ reflexivity | ].
    intro f; rewrite (primaryCodeIs_codingCode0 o c Ec).
    destruct f; cbn [fieldCode fieldRule]; peel_all;
      match goal with
      | |- context [if ?b then _ else _] => destruct b
      end;
      try (peel_all; reflexivity);
      first [ rewrite Hc | rewrite Hq | rewrite Hu | rewrite Hs ]; reflexivity.
  - exfalso. unfold wellShaped, nonEmptyCoding in W. unfold codingCode0 in Ec.
    destruct (cc_coding (obs_code o)) as [[|k ks]|]; simpl in *; discriminate.
Qed.

Lemma find_snoc {A} (p : A -> bool) (l : list A) (x : A) :
  find p (l ++ [x])
  = match find p l with
    | Some y => Some y
    | None => if p x then Some x else None
    end.
Proof.
  unfold find; induction l as [|y l IH]; simpl; [ reflexivity | ].
  destruct (p y); [ reflexivity | exact IH ].
Qed.

Lemma foldM_observationStep observations :
  forallb wellShaped observations = true ->
  forall obj,
  exists r,
    foldM observationStep obj observations = Some r
    /\ forall f,
         Some (getField f r)
         = match find (primaryCodeIs (fieldCode f)) (rev observations) with
           | Some o => fieldRule f o
           | None => Some (getField f obj)
           end.
Proof.
  induction observations as [|o os IH]; simpl; intros W obj.
  - exists obj; split; [ reflexivity | intro f; reflexivity ].
  - apply andb_prop in W; destruct W as [Wo Wos].
    destruct (observationStep_field obj o Wo) as (obj1 & E1 & F1).
    destruct (IH Wos obj1) as (r & Er & Fr).
    exists r; split; [ rewrite E1; exact Er | ].
    intro f; rewrite find_snoc, Fr.
    destruct (find _ (rev os)); [ reflexivity | ].
    rewrite F1; destruct (primaryCodeIs (fieldCode f) o); reflexivity.
Qed.

(** C2, as the script has it: for observations none of whose [coding] arrays
    is empty the extraction returns, and each field holds the value of the
    last observation of the list whose primary coding is the field's code;
    a field whose code no observation carries stays ['']. *)
Theorem C2_last_match_wins (observations : list Observation)
    (W : forallb wellShaped observations = true) :
  exists r,
    extractObservationDetails observations = Some r
    /\ (forall f, Some (getField f r) = lastMatchValue f observations)
    /\ (forall f,
          (forall o, In o observations ->
                     primaryCodeIs (fieldCode f) o = false) ->
          getField f r = "").
Proof.
  destruct (foldM_observationStep observations W emptyObservationObj)
    as (r & Er & Fr).
  exists r; split; [ exact Er | ].
  assert (L : forall f, Some (getField f r) = lastMatchValue f observations).
  { intro f; rewrite Fr; unfold lastMatchValue.
    destruct (find _ _); [ reflexivity | destruct f; reflexivity ]. }
  split; [ exact L | ].
  intros f Hno.
  specialize (L f); unfold lastMatchValue in L.
  destruct (find _ (rev observations)) as [o|] eqn:E.
  - apply find_some in E; destruct E as [Hin Hp].
    apply in_rev in Hin. rewrite (Hno o Hin) in Hp; discriminate.
  - injection L as ->; reflexivity.
Qed.

Lemma C2_last_match_wins_witness :
  exists r,
    extractObservationDetails Example.attendants = Some r
    /\ getField F_birthAttendantTitle r = "NURSE"
    /\ getField F_causeOfDeath r = "".
Proof.
  destruct (C2_last_match_wins Example.attendants eq_refl) as (r & E & L & N).
  exists r; split; [ exact E | ].
  split.
  - assert (H : Some (getField F_birthAttendantTitle r) = Some "NURSE")
      by (rewrite L; reflexivity).
    injection H as H; exact H.
  - apply N; intros o [<-|[<-|[]]]; reflexivity.
Defined.

(** C2 as stated fails: of two observations of one encounter with the code of
    the birth attendant, the first being PHYSICIAN and the second NURSE, the
    extracted value is the second's; the second observation changed what the
    first alone gives. *)
Lemma C2_first_match_does_not_win :
  firstMatchValue F_birthAttendantTitle Example.attendants = Some "PHYSICIAN"
  /\ option_map (getField F_birthAttendantTitle)
       (extractObservationDetails Example.attendants) = Some "NURSE"
  /\ option_map (getField F_birthAttendantTitle)
       (extractObservationDetails (firstn 1 Example.attendants))
     = Some "PHYSICIAN".
Proof. repeat split; vm_compute; reflexivity. Qed.

(** ** Month windows *)

Lemma getDaysInMonth_bounds d : 28 <= getDaysInMonth d <= 31.
Proof.
  unfold getDaysInMonth.
  destruct (month d =? 2); [ destruct (isLeapYear (year d)); lia | ].
  destruct (_ || _); lia.
Qed.

Lemma getDaysInMonth_day y m d1 d2 :
  getDaysInMonth (mkDate y m d1) = getDaysInMonth (mkDate y m d2).
Proof. reflexivity. Qed.

Lemma before_dayKey a b :
  valid a -> valid b -> (before a b <-> dayKey a < dayKey b).
Proof.
  intros Ha Hb.
  pose proof (getDaysInMonth_bounds a); pose proof (getDaysInMonth_bounds b).
  unfold valid, before, dayKey in *. lia.
Qed.

Lemma notAfter_dayKey a b :
  valid a -> valid b -> (notAfter a b <-> dayKey a <= dayKey b).
Proof.
  intros Ha Hb. unfold notAfter. rewrite (before_dayKey a b Ha Hb).
  split.
  - intros [H| ->]; lia.
  - intro H. destruct (Z.eq_dec (dayKey a) (dayKey b)) as [E|E]; [ right | left; lia ].
    pose proof (getDaysInMonth_bounds a); pose proof (getDaysInMonth_bounds b).
    destruct a as [y m d], b as [y' m' d']; unfold valid, dayKey in *; simpl in *.
    f_equal; lia.
Qed.

Lemma nextDay_valid d : valid d -> valid (nextDay d).
Proof.
  intros [Hm Hd]. unfold nextDay.
  destruct (Z.ltb_spec (day d) (getDaysInMonth d)).
  - unfold valid; simpl. rewrite (getDaysInMonth_day _ _ _ (day d)).
    destruct d; simpl in *; lia.
  - destruct (Z.ltb_spec (month d) 12); unfold valid; simpl.
    + pose proof (getDaysInMonth_bounds (mkDate (year d) (month d + 1) 1)). lia.
    + pose proof (getDaysInMonth_bounds (mkDate (year d + 1) 1 1)). lia.
Qed.

Lemma nextDay_dayKey d : valid d -> dayKey d < dayKey (nextDay d).
Proof.
  intros [Hm Hd]. pose proof (getDaysInMonth_bounds d).
  unfold nextDay.
  destruct (Z.ltb_spec (day d) (getDaysInMonth d)); [ unfold dayKey; simpl; lia | ].
  destruct (Z.ltb_spec (month d) 12); unfold dayKey; simpl; lia.
Qed.

Lemma nextDay_least d x :
  valid d -> valid x -> dayKey d < dayKey x -> dayKey (nextDay d) <= dayKey x.
Proof.
  intros [Hm Hd] [Hxm Hxd] H.
  pose proof (getDaysInMonth_bounds d). pose proof (getDaysInMonth_bounds x).
  destruct d as [y m dd], x as [yx mx dx].
  unfold nextDay, dayKey in *; cbn [year month day] in *.
  destruct (Z.eq_dec yx y) as [->|], (Z.eq_dec mx m) as [->|];
    try rewrite (getDaysInMonth_day y m dx dd) in *;
    destruct (Z.ltb_spec dd (getDaysInMonth (mkDate y m dd)));
    try (destruct (Z.ltb_spec m 12)); cbn [year month day]; lia.
Qed.

Lemma iter_nextDay_in_month n d :
  day d + Z.of_nat n <= getDaysInMonth d ->
  Nat.iter n nextDay d = mkDate (year d) (month d) (day d + Z.of_nat n).
Proof.
  induction n as [|n IH]; intro H.
  - simpl. rewrite Z.add_0_r. destruct d; reflexivity.
  - rewrite Nat.iter_succ, IH by lia.
    unfold nextDay; cbn [year month day].
    rewrite (getDaysInMonth_day _ _ _ (day d)).
    replace (getDaysInMonth (mkDate (year d) (month d) (day d)))
      with (getDaysInMonth d) by (destruct d; reflexivity).
    destruct (Z.ltb_spec (day d + Z.of_nat n) (getDaysInMonth d)); [ | lia ].
    f_equal; lia.
Qed.

Lemma addDays_to_month_end d :
  valid d ->
  addDays d (getDaysInMonth d - getDate d) = lastDayOfMonth d.
Proof.
  intros [Hm Hd]. unfold addDays, getDate, lastDayOfMonth.
  destruct (Z.leb_spec 0 (getDaysInMonth d - day d)); [ | lia ].
  rewrite iter_nextDay_in_month by lia.
  f_equal; lia.
Qed.

Lemma addDays_one d : addDays d 1 = nextDay d.
Proof. reflexivity. Qed.

Lemma lastDayOfMonth_valid d : valid d -> valid (lastDayOfMonth d).
Proof.
  intros [Hm Hd]. pose proof (getDaysInMonth_bounds d).
  unfold valid, lastDayOfMonth; cbn [year month day].
  rewrite (getDaysInMonth_day _ _ _ (day d)).
  replace (getDaysInMonth (mkDate (year d) (month d) (day d)))
    with (getDaysInMonth d) by (destruct d; reflexivity).
  lia.
Qed.

Lemma lastDayOfMonth_dayKey d :
  valid d -> dayKey d <= dayKey (lastDayOfMonth d).
Proof. intros [Hm Hd]. unfold dayKey, lastDayOfMonth; simpl; lia. Qed.

(** The day after the end of a month is the first of the next one. *)
Lemma nextDay_lastDayOfMonth d :
  valid d ->
  let d' := nextDay (lastDayOfMonth d) in
  day d' = 1
  /\ year d' * 12 + month d' = year d * 12 + month d + 1
  /\ 1 <= month d' <= 12.
Proof.
  intros [Hm Hd]. unfold nextDay, lastDayOfMonth; cbn [year month day].
  rewrite (getDaysInMonth_day _ _ _ (day d)).
  replace (getDaysInMonth (mkDate (year d) (month d) (day d)))
    with (getDaysInMonth d) by (destruct d; reflexivity).
  rewrite Z.ltb_irrefl.
  destruct (Z.ltb_spec (month d) 12); cbn [year month day]; lia.
Qed.

Lemma monthLoop_tiling n :
  forall month totalMonths s e,
    valid s -> valid e -> notAfter s e ->
    differenceInCalendarMonths e s = Z.of_nat n ->
    totalMonths - month = Z.of_nat (S n) ->
    Tiling s e (monthLoop (S n) month totalMonths s e)
    /\ List.length (monthLoop (S n) month totalMonths s e) = S n.
Proof.
  induction n as [|n IH]; intros month totalMonths s e Hs He Hle Hdiff Htot.
  - cbn [monthLoop].
    destruct (Z.ltb_spec month totalMonths); [ | lia ].
    destruct (Z.eqb_spec (month + 1) totalMonths); [ | lia ].
    split; [ | reflexivity ].
    unfold differenceInCalendarMonths in Hdiff.
    pose proof Hs as [Hsm _]; pose proof He as [Hem _].
    apply Tiling_last; try assumption; lia.
  - remember (S n) as k. cbn [monthLoop].
    destruct (Z.ltb_spec month totalMonths); [ | lia ].
    destruct (Z.eqb_spec (month + 1) totalMonths); [ lia | ].
    rewrite (addDays_to_month_end s Hs), addDays_one.
    destruct (nextDay_lastDayOfMonth s Hs) as (D1 & D2 & D3).
    set (s' := nextDay (lastDayOfMonth s)) in *.
    assert (Hs' : valid s') by (apply nextDay_valid, lastDayOfMonth_valid, Hs).
    assert (Hdiff' : differenceInCalendarMonths e s' = Z.of_nat n).
    { unfold differenceInCalendarMonths in *. lia. }
    assert (Hle' : notAfter s' e).
    { apply notAfter_dayKey; try assumption.
      pose proof (getDaysInMonth_bounds e).
      destruct He as [Hem Hed]. unfold differenceInCalendarMonths, dayKey in *. lia. }
    assert (Hlast : before (lastDayOfMonth s) e).
    { apply before_dayKey; [ apply lastDayOfMonth_valid, Hs | assumption | ].
      pose proof (nextDay_dayKey _ (lastDayOfMonth_valid s Hs)) as Hn.
      apply notAfter_dayKey in Hle'; try assumption. fold s' in Hn. lia. }
    subst k.
    destruct (IH (month + 1) totalMonths s' e Hs' He Hle' Hdiff') as [T L]; [ lia | ].
    split; [ apply Tiling_cons; assumption | ].
    cbn [List.length]. rewrite L. reflexivity.
Qed.

Lemma Tiling_ends s e ws :
  Tiling s e ws -> valid s /\ valid e /\ dayKey s <= dayKey e.
Proof.
  induction 1 as [s e Hs He Hle Hy Hm | s e ws Hs Hlast T IH].
  - split; [ assumption | split; [ assumption | ] ].
    apply notAfter_dayKey; assumption.
  - destruct IH as (Hs' & He & Hle).
    split; [ assumption | split; [ assumption | ] ].
    pose proof (lastDayOfMonth_dayKey s Hs).
    pose proof (nextDay_dayKey _ (lastDayOfMonth_valid s Hs)). lia.
Qed.

Lemma Tiling_first s e ws :
  Tiling s e ws -> exists b rest, ws = (s, b) :: rest.
Proof. destruct 1; eauto. Qed.

Lemma Tiling_final s e ws :
  Tiling s e ws -> exists front a, ws = (front ++ [(a, e)])%list.
Proof.
  induction 1 as [s e | s e ws Hs Hlast T (front & a & ->)].
  - exists [], s; reflexivity.
  - exists ((s, lastDayOfMonth s) :: front), a; reflexivity.
Qed.

Lemma Tiling_wellFormed s e ws : Tiling s e ws -> Forall wellFormedWindow ws.
Proof.
  induction 1 as [s e Hs He Hle Hy Hm | s e ws Hs Hlast T IH].
  - constructor; [ | constructor ].
    split; [ assumption | split; assumption ].
  - constructor; [ | exact IH ].
    split; [ assumption | split ]; cbn [fst snd].
    + apply lastDayOfMonth_valid, Hs.
    + apply notAfter_dayKey; try assumption;
        [ apply lastDayOfMonth_valid, Hs | apply lastDayOfMonth_dayKey, Hs ].
Qed.

Lemma Tiling_from s e ws :
  Tiling s e ws -> forall w, In w ws -> dayKey s <= dayKey (fst w).
Proof.
  induction 1 as [s e Hs He Hle Hy Hm | s e ws Hs Hlast T IH]; intros w Hin.
  - destruct Hin as [<-|[]]; simpl; lia.
  - destruct Hin as [<-|Hin]; [ simpl; lia | ].
    specialize (IH w Hin).
    pose proof (lastDayOfMonth_dayKey s Hs).
    pose proof (nextDay_dayKey _ (lastDayOfMonth_valid s Hs)). lia.
Qed.

Lemma Tiling_adjacent s e ws :
  Tiling s e ws ->
  forall front w1 w2 rest,
    ws = (front ++ w1 :: w2 :: rest)%list ->
    snd w1 = lastDayOfMonth (fst w1) /\ fst w2 = nextDay (snd w1).
Proof.
  induction 1 as [s e Hs He Hle Hy Hm | s e ws Hs Hlast T IH];
    intros front w1 w2 rest E.
  - destruct front as [|? [|? ?]]; discriminate.
  - destruct front as [|w front]; simpl in E.
    + injection E as E1 E2; subst w1.
      destruct (Tiling_first _ _ _ T) as (b & rest' & E').
      rewrite E' in E2. injection E2 as E2 _; subst w2.
      split; reflexivity.
    + injection E as _ E. eapply IH; exact E.
Qed.

Lemma Tiling_apart s e ws :
  Tiling s e ws ->
  forall front w1 middle w2 rest,
    ws = (front ++ w1 :: middle ++ w2 :: rest)%list ->
    before (snd w1) (fst w2).
Proof.
  induction 1 as [s e Hs He Hle Hy Hm | s e ws Hs Hlast T IH];
    intros front w1 middle w2 rest E.
  - destruct front as [|? [|? ?]]; try discriminate.
    destruct middle; discriminate.
  - destruct front as [|w front]; simpl in E.
    + injection E as E1 E; subst w1.
      assert (Hin : In w2 ws) by (rewrite E; apply in_or_app; right; left; reflexivity).
      pose proof (Tiling_from _ _ _ T w2 Hin) as Hfrom.
      pose proof (Tiling_wellFormed _ _ _ T) as W.
      rewrite Forall_forall in W. destruct (W w2 Hin) as (V2 & _ & _).
      cbn [snd]. apply before_dayKey; [ apply lastDayOfMonth_valid, Hs | exact V2 | ].
      pose proof (nextDay_dayKey _ (lastDayOfMonth_valid s Hs)). lia.
    + injection E as _ E. eapply IH; exact E.
Qed.

Lemma Tiling_covers s e ws :
  Tiling s e ws ->
  forall x, valid x ->
    (notAfter s x /\ notAfter x e <-> exists w, In w ws /\ inWindow x w).
Proof.
  induction 1 as [s e Hs He Hle Hy Hm | s e ws Hs Hlast T IH]; intros x Hx.
  - split.
    + intro H; exists (s, e); split; [ left; reflexivity | exact H ].
    + intros (w & [<-|[]] & H); exact H.
  - destruct (Tiling_ends _ _ _ T) as (Hs' & He & Hle').
    pose proof (lastDayOfMonth_valid s Hs) as HL.
    pose proof (lastDayOfMonth_dayKey s Hs) as HsL.
    pose proof (nextDay_dayKey _ HL) as HLs'.
    specialize (IH x Hx).
    rewrite (notAfter_dayKey s x Hs Hx), (notAfter_dayKey x e Hx He).
    rewrite (notAfter_dayKey _ x Hs' Hx), (notAfter_dayKey x e Hx He) in IH.
    split.
    + intros [H1 H2].
      destruct (Z_le_gt_dec (dayKey x) (dayKey (lastDayOfMonth s))) as [Hin|Hout].
      * exists (s, lastDayOfMonth s); split; [ left; reflexivity | ].
        split; cbn [fst snd]; apply notAfter_dayKey; assumption.
      * assert (Hge : dayKey (nextDay (lastDayOfMonth s)) <= dayKey x)
          by (apply nextDay_least; try assumption; lia).
        destruct (proj1 IH (conj Hge H2)) as (w & Hw & Hxw).
        exists w; split; [ right; exact Hw | exact Hxw ].
    + intros (w & [<-|Hw] & Hxw).
      * destruct Hxw as [H1 H2]; cbn [fst snd] in *.
        apply notAfter_dayKey in H1; try assumption.
        apply notAfter_dayKey in H2; try assumption. lia.
      * destruct (proj2 IH (ex_intro _ w (conj Hw Hxw))) as [H1 H2]. lia.
Qed.


(** * Further properties of the script *)

(** ** Patients *)

(** X1: [makePatientObject] throws exactly when the patient has an address
    array that is empty; a patient without the array, or with a first
    address, always gets a snapshot. *)
Theorem X1_makePatientObject_throws_iff (p : Patient) :
  makePatientObject p = None <-> pat_address p = Some [].
Proof.
  unfold makePatientObject, address0.
  destruct (pat_address p) as [[|a rest]|]; simpl; split; intro H;
    try discriminate; reflexivity.
Qed.

Lemma setPatientAddress_throws_iff locations p :
  setPatientAddress locations p = None <-> pat_address p = Some [].
Proof.
  unfold setPatientAddress.
  destruct (pat_address p) as [[|a rest]|]; simpl; split; intro H;
    try discriminate; reflexivity.
Qed.

Lemma setPatientAddress_same locations p p' :
  setPatientAddress locations p = Some p' -> sameButDistrictState p p'.
Proof.
  unfold setPatientAddress, sameButDistrictState.
  destruct (pat_address p) as [[|a rest]|] eqn:E; simpl; intro H;
    try discriminate; injection H as <-; simpl; rewrite ?E;
    repeat split.
  destruct (isTruthy (addr_district a)); simpl;
    destruct (isTruthy (addr_state a)); reflexivity.
Qed.

Lemma mapM_None {A B} (f : A -> Js B) (xs : list A) :
  mapM f xs = None <-> exists x, In x xs /\ f x = None.
Proof.
  induction xs as [|x xs IH]; simpl.
  - split; [ discriminate | intros (x & [] & _) ].
  - destruct (f x) as [y|] eqn:E; simpl.
    + destruct (mapM f xs) as [ys|]; simpl.
      * split; [ discriminate | ].
        intros (z & [<-|Hin] & Hz); [ congruence | ].
        assert (C : Some ys = None) by (apply IH; eauto). discriminate.
      * split; [ | reflexivity ].
        intros _. destruct (proj1 IH eq_refl) as (z & Hin & Hz); eauto.
    + split; [ eauto | reflexivity ].
Qed.

Lemma mapM_Forall2 {A B} (f : A -> Js B) (xs : list A) (ys : list B) :
  mapM f xs = Some ys -> Forall2 (fun x y => f x = Some y) xs ys.
Proof.
  revert ys; induction xs as [|x xs IH]; simpl; intros ys H.
  - injection H as <-; constructor.
  - apply bind_Some in H; destruct H as (y & Ey & H).
    apply bind_Some in H; destruct H as (ys' & Eys & H).
    injection H as <-. constructor; auto.
Qed.

Lemma setPatientsAddress_None_iff patients locations :
  setPatientsAddress patients locations = None
  <-> exists p, In p patients /\ pat_address p = Some [].
Proof.
  unfold setPatientsAddress. rewrite mapM_None.
  split; intros (p & Hin & H); exists p; split; auto;
    apply (setPatientAddress_throws_iff locations); exact H.
Qed.

Lemma setPatientsAddress_isSome patients locations :
  isSome (setPatientsAddress patients locations)
  = forallb addressReadable patients.
Proof.
  unfold setPatientsAddress.
  induction patients as [|p ps IH]; simpl; [ reflexivity | ].
  rewrite <- IH. unfold setPatientAddress, addressReadable.
  destruct (pat_address p) as [[|a rest]|]; simpl; try reflexivity;
    destruct (mapM _ ps); reflexivity.
Qed.

(** X2: [setPatientsAddress] throws exactly when one of the patients has an
    address array that is empty; when it returns, it returns the patients in
    order, each with the same id, demographics, extensions, city and further
    addresses: only the district and state of the first address can differ. *)
Theorem X2_setPatientsAddress (patients : list Patient) (locations : list Location) :
  (setPatientsAddress patients locations = None
   <-> exists p, In p patients /\ pat_address p = Some [])
  /\ (forall patients',
        setPatientsAddress patients locations = Some patients' ->
        Forall2 sameButDistrictState patients patients').
Proof.
  split; [ apply setPatientsAddress_None_iff | ].
  unfold setPatientsAddress.
  intros patients' H. apply mapM_Forall2 in H.
  induction H as [|p p' ps ps' Hp _ IH]; constructor;
    [ eapply setPatientAddress_same; exact Hp | exact IH ].
Qed.

Lemma filterM_none {A} (p : A -> Js bool) (xs : list A) :
  (forall x, In x xs -> p x = Some false) -> filterM p xs = Some [].
Proof.
  induction xs as [|x xs IH]; simpl; intro H; [ reflexivity | ].
  rewrite (H x (or_introl eq_refl)); simpl.
  rewrite IH by (intros; apply H; right; assumption). reflexivity.
Qed.

Lemma foldM_unchanged {A S} (f : S -> A -> Js S) (xs : list A) (s : S) :
  (forall x, In x xs -> f s x = Some s) -> foldM f s xs = Some s.
Proof.
  induction xs as [|x xs IH]; simpl; intro H; [ reflexivity | ].
  rewrite (H x (or_introl eq_refl)); simpl.
  apply IH; intros; apply H; right; assumption.
Qed.

(** X3: for a composition none of whose sections references a Patient, the
    id list of the batch fetch is empty, so the whole Patient collection is
    fetched and run through [setPatientsAddress]: the resolver returns the
    aggregate unchanged when every stored patient's address array can be
    read, and throws as soon as any stored patient has an empty one. *)
Theorem X3_no_patient_section_reads_all_patients
    st composition fc locations sections
    (Hsections : comp_section composition = Some sections)
    (Hnone : forall s, In s sections -> referencesKind "Patient/" s = Some false) :
  setPatientsDetailsInComposition st composition fc locations
  = (if forallb addressReadable (PATIENT st) then Some fc else None).
Proof.
  unfold setPatientsDetailsInComposition. rewrite Hsections.
  rewrite (filterM_none _ _ Hnone). cbn [bind ret mapM refIds flat_map].
  unfold getCollectionDocuments; cbn [List.length Z.of_nat Z.ltb Z.compare].
  rewrite <- (setPatientsAddress_isSome (PATIENT st) locations).
  destruct (setPatientsAddress (PATIENT st) locations) as [ps|]; simpl;
    [ | reflexivity ].
  apply foldM_unchanged. intros s Hs. rewrite (Hnone s Hs). reflexivity.
Qed.

Lemma X3_no_patient_section_reads_all_patients_witness :
  setPatientsDetailsInComposition Example.store
    (mkComposition (Some "c9") (Some "Birth Declaration")
       (Some [Example.encounterSection]))
    emptyFullComposition Example.locations
  = Some emptyFullComposition.
Proof.
  refine (X3_no_patient_section_reads_all_patients
            Example.store
            (mkComposition (Some "c9") (Some "Birth Declaration")
               (Some [Example.encounterSection]))
            emptyFullComposition Example.locations
            [Example.encounterSection] eq_refl _).
  intros s [<-|[]]; reflexivity.
Defined.

(** X4: a composition with no [section] array never gives a row: when its
    Task opens the gate, the patient resolver throws on the id list it could
    not build, and the loop goes on with both files as they were. *)
Theorem X4_no_section_array_no_row st locations files composition
    (Hnone : comp_section composition = None) :
  (forall fc, setPatientsDetailsInComposition st composition fc locations = None)
  /\ exportRecord st locations files composition = files.
Proof.
  assert (P : forall c fc, comp_section c = None ->
                setPatientsDetailsInComposition st c fc locations = None).
  { intros c fc H. unfold setPatientsDetailsInComposition. rewrite H. reflexivity. }
  split; [ intro fc; apply P; exact Hnone | ].
  unfold exportRecord, resolveRecord.
  destruct (first _) as [task|]; simpl; [ | reflexivity ].
  destruct (codingCode0 _) as [status|]; simpl; [ | reflexivity ].
  destruct (_ || _); [ | reflexivity ].
  unfold buildFullComposition.
  rewrite P by (unfold clinicalSections; simpl; rewrite Hnone; reflexivity).
  reflexivity.
Qed.

Lemma X4_no_section_array_no_row_witness :
  exportRecord Example.store Example.locations Example.noFiles
    (mkComposition (Some "c1") (Some "Birth Declaration") None)
  = Example.noFiles.
Proof.
  exact (proj2 (X4_no_section_array_no_row Example.store Example.locations
                  Example.noFiles
                  (mkComposition (Some "c1") (Some "Birth Declaration") None)
                  eq_refl)).
Defined.

(** ** A Patient section and the slot it fills *)

Lemma replace_unfold pat rep s :
  replace pat rep s
  = if String.prefix pat s
    then rep ++ String.substring (String.length pat)
                  (String.length s - String.length pat) s
    else match s with
         | EmptyString => EmptyString
         | String c s' => String c (replace pat rep s')
         end.
Proof. destruct s; reflexivity. Qed.

Lemma prefix_append p s : String.prefix p (p ++ s) = true.
Proof.
  induction p as [|c p IH]; simpl; [ destruct s; reflexivity | ].
  destruct (ascii_dec c c); [ exact IH | congruence ].
Qed.

Lemma substring_all s : String.substring 0 (String.length s) s = s.
Proof. induction s as [|c s IH]; simpl; [ reflexivity | rewrite IH; reflexivity ]. Qed.

Lemma substring_skip p s n :
  String.substring (String.length p) n (p ++ s) = String.substring 0 n s.
Proof. induction p as [|c p IH]; simpl; [ reflexivity | exact IH ]. Qed.

Lemma length_append p s :
  String.length (p ++ s) = (String.length p + String.length s)%nat.
Proof. induction p as [|c p IH]; simpl; [ reflexivity | rewrite IH; reflexivity ]. Qed.

(** Removing a prefix gives back what follows it. *)
Lemma replace_prefix p s : replace p "" (p ++ s) = s.
Proof.
  rewrite replace_unfold, prefix_append, substring_skip, length_append.
  replace (String.length p + String.length s - String.length p)%nat
    with (String.length s) by lia.
  apply substring_all.
Qed.

Lemma filterM_keeps {A} (p : A -> Js bool) (xs l : list A) x :
  filterM p xs = Some l -> In x xs -> p x = Some true -> In x l.
Proof.
  revert l; induction xs as [|y xs IH]; simpl; intros l H Hin Hp; [ contradiction | ].
  apply bind_Some in H; destruct H as (b & Eb & H).
  apply bind_Some in H; destruct H as (ys & Eys & H).
  injection H as <-.
  destruct Hin as [->|Hin].
  - rewrite Hp in Eb; injection Eb as <-; left; reflexivity.
  - destruct b; [ right | ]; eauto.
Qed.

Lemma Forall2_In_l {A B} (R : A -> B -> Prop) xs ys x :
  Forall2 R xs ys -> In x xs -> exists y, In y ys /\ R x y.
Proof.
  induction 1 as [|a b xs ys HR _ IH]; intros Hin; [ contradiction | ].
  destruct Hin as [->|Hin]; [ exists b; split; [ left | ]; auto | ].
  destruct (IH Hin) as (y & Hy & Hxy); exists y; split; [ right | ]; auto.
Qed.

Lemma Forall2_In_r {A B} (R : A -> B -> Prop) xs ys y :
  Forall2 R xs ys -> In y ys -> exists x, In x xs /\ R x y.
Proof.
  induction 1 as [|a b xs ys HR _ IH]; intros Hin; [ contradiction | ].
  destruct Hin as [->|Hin]; [ exists a; split; [ left | ]; auto | ].
  destruct (IH Hin) as (x & Hx & Hxy); exists x; split; [ right | ]; auto.
Qed.

Lemma foldM_snoc {A S} (f : S -> A -> Js S) (xs : list A) (x : A) (s c : S) :
  foldM f s (xs ++ [x]) = Some c ->
  exists c1, foldM f s xs = Some c1 /\ f c1 x = Some c.
Proof.
  revert s; induction xs as [|y xs IH]; simpl; intros s H.
  - apply bind_Some in H; destruct H as (c1 & E & H).
    injection H as <-. exists s; auto.
  - apply bind_Some in H; destruct H as (s1 & E & H).
    rewrite E; simpl; auto.
Qed.

Lemma setPatientAddress_id locations p p' :
  setPatientAddress locations p = Some p' -> pat_id p' = pat_id p.
Proof.
  unfold setPatientAddress.
  destruct (pat_address p) as [[|a rest]|]; simpl; intro H;
    try discriminate; injection H as <-; reflexivity.
Qed.

Lemma roleSlot_set_role role v c : roleSlot role (set_role (Some role) v c) = Some v.
Proof. destruct role; reflexivity. Qed.

(** X5: when the last section of a composition references [Patient/pid],
    has a title of the role map, and a Patient with that id is stored, the
    resolver, if it returns, leaves in the slot of that role the snapshot of
    a stored Patient with id [pid], taken after the address substitution. *)
Theorem X5_patient_section_fills_role
    st composition fc locations c front s title pid role
    (Hsections : comp_section composition = Some (front ++ [s])%list)
    (Href : entryReference s = Some (Some ("Patient/" ++ pid)))
    (Htitle : sec_title s = Some title)
    (Hrole : TITLE_MAP title = Some role)
    (Hstored : exists p, In p (PATIENT st) /\ pat_id p = Some pid)
    (Hc : setPatientsDetailsInComposition st composition fc locations = Some c) :
  exists p p' v,
    In p (PATIENT st) /\ pat_id p = Some pid
    /\ setPatientAddress locations p = Some p'
    /\ makePatientObject p' = Some v
    /\ roleSlot role c = Some v.
Proof.
  assert (Hkind : referencesKind "Patient/" s = Some true).
  { unfold referencesKind, bind, ret; rewrite Href.
    unfold startsWith. rewrite (prefix_append "Patient/" pid). reflexivity. }
  assert (Htruthy : isTruthy (sec_title s) = true).
  { rewrite Htitle; simpl. unfold truthy.
    destruct (String.eqb_spec title ""); [ subst; discriminate | reflexivity ]. }
  unfold setPatientsDetailsInComposition in Hc. rewrite Hsections in Hc.
  apply bind_Some in Hc; destruct Hc as (patientList & E1 & Hc).
  apply bind_Some in E1; destruct E1 as (l & El & E1). injection E1 as <-.
  apply bind_Some in Hc; destruct Hc as (patientIds & E2 & Hc).
  apply bind_Some in E2; destruct E2 as (refs & Erefs & E2). injection E2 as <-.
  cbn [bind] in Hc.
  apply bind_Some in Hc; destruct Hc as (patients & Epatients & Hc).
  (* the id is among those fetched *)
  assert (Hin_l : In s l).
  { eapply filterM_keeps; [ exact El | apply in_or_app; right; left; reflexivity | exact Hkind ]. }
  assert (Hid : In pid (refIds "Patient/" refs)).
  { destruct (Forall2_In_l _ _ _ _ (mapM_Forall2 _ _ _ Erefs) Hin_l) as (r & Hr & Hsr).
    rewrite Href in Hsr; injection Hsr as <-.
    unfold refIds. apply in_flat_map. eexists; split; [ exact Hr | ].
    left. exact (replace_prefix "Patient/" pid). }
  set (ids := refIds "Patient/" refs) in *.
  assert (Hdocs : getCollectionDocuments pat_id (PATIENT st) ids
                  = filter (fun d => idIn (pat_id d) ids) (PATIENT st)).
  { unfold getCollectionDocuments. destruct ids; [ contradiction | reflexivity ]. }
  rewrite Hdocs in Epatients.
  unfold setPatientsAddress in Epatients. apply mapM_Forall2 in Epatients.
  destruct Hstored as (p0 & Hp0 & Hp0id).
  assert (Hp0docs : In p0 (filter (fun d => idIn (pat_id d) ids) (PATIENT st))).
  { apply filter_In; split; [ exact Hp0 | ].
    rewrite Hp0id; simpl. apply existsb_exists. exists pid; split; [ exact Hid | ].
    apply String.eqb_refl. }
  destruct (Forall2_In_l _ _ _ _ Epatients Hp0docs) as (p0' & Hp0' & Hset0).
  (* the last turn of the loop *)
  apply foldM_snoc in Hc; destruct Hc as (c1 & _ & Hstep).
  rewrite Hkind in Hstep; cbn [bind] in Hstep.
  rewrite Href in Hstep; cbn [bind toStr nullish] in Hstep.
  rewrite (replace_prefix "Patient/" pid) in Hstep.
  destruct (find (fun p => strictEq (pat_id p) (Some pid)) patients) as [q'|] eqn:Ef.
  - rewrite Htruthy in Hstep.
    apply bind_Some in Hstep; destruct Hstep as (v & Ev & Hstep).
    injection Hstep as <-.
    apply find_some in Ef; destruct Ef as [Hq' Hq'id].
    apply strictEq_true in Hq'id.
    destruct (Forall2_In_r _ _ _ _ Epatients Hq') as (q & Hq & Hset).
    apply filter_In in Hq; destruct Hq as [Hq _].
    exists q, q', v. repeat split; try assumption.
    + rewrite <- (setPatientAddress_id _ _ _ Hset); exact Hq'id.
    + rewrite Htitle; cbn [toStr nullish]. rewrite Hrole. apply roleSlot_set_role.
  - exfalso. unfold find in Ef.
    pose proof (find_none _ _ Ef p0' Hp0') as N. cbn beta in N.
    rewrite (setPatientAddress_id _ _ _ Hset0), Hp0id in N.
    simpl in N. rewrite String.eqb_refl in N. discriminate.
Qed.

Lemma X5_patient_section_fills_role_witness :
  exists c v,
    setPatientsDetailsInComposition Example.store
      (mkComposition (Some "c2") (Some "Birth Declaration")
         (Some [Example.informantSection; Example.childSection]))
      emptyFullComposition Example.locations = Some c
    /\ roleSlot child c = Some v.
Proof.
  destruct (setPatientsDetailsInComposition Example.store
              (mkComposition (Some "c2") (Some "Birth Declaration")
                 (Some [Example.informantSection; Example.childSection]))
              emptyFullComposition Example.locations) as [c|] eqn:E;
    [ | vm_compute in E; discriminate ].
  destruct (X5_patient_section_fills_role
              Example.store
              (mkComposition (Some "c2") (Some "Birth Declaration")
                 (Some [Example.informantSection; Example.childSection]))
              emptyFullComposition Example.locations c
              [Example.informantSection] Example.childSection
              "Child details" "p1" child
              eq_refl eq_refl eq_refl eq_refl
              (ex_intro _ Example.childPatient
                 (conj (or_introl eq_refl) eq_refl))
              E)
    as (p & p' & v & _ & _ & _ & _ & Hv).
  exists c, v; split; [ reflexivity | exact Hv ].
Defined.

From Stdlib Require Permutation.

(** ** The informant *)

(** X6: the informant resolver throws when no section references a
    RelatedPerson (no stored RelatedPerson having the empty id), and when the
    RelatedPerson names a Patient that is not stored; it returns the
    aggregate unchanged when the RelatedPerson has no patient reference. *)
Theorem X6_informant_edges st composition fc locations :
  (findSection "RelatedPerson/" composition = Some None ->
   (forall rp, In rp (RELATEDPERSON st) -> rp_id rp <> Some "") ->
   setInformantDetailsInComposition st composition fc locations = None)
  /\ (forall section r rp,
        findSection "RelatedPerson/" composition = Some (Some section) ->
        entryReference section = Some (Some r) ->
        first (getCollectionDocuments rp_id (RELATEDPERSON st)
                 [replace "RelatedPerson/" "" r]) = Some rp ->
        (rp_patient rp = None ->
         setInformantDetailsInComposition st composition fc locations = Some fc)
        /\ (forall patientRef,
              rp_patient rp = Some patientRef ->
              (forall p, In p (PATIENT st) ->
                 pat_id p <> Some (toStr (option_map (replace "Patient/" "")
                                                     (reference patientRef)))) ->
              setInformantDetailsInComposition st composition fc locations = None)).
Proof.
  split.
  - intros Hs Hrp. unfold setInformantDetailsInComposition.
    rewrite Hs; simpl.
    rewrite (no_document_with_id rp_id _ "" Hrp). reflexivity.
  - intros section r rp Hs Hr Hfirst.
    unfold setInformantDetailsInComposition.
    rewrite Hs; cbn [bind sectionReference]. rewrite Hr; cbn [bind option_map nullish].
    rewrite Hfirst; cbn [bind].
    split.
    + intros ->. reflexivity.
    + intros patientRef -> Hmissing.
      rewrite (no_document_with_id pat_id _ _ Hmissing).
      cbn [setPatientsAddress mapM bind ret].
      destruct (codingCode0 (rp_relationship rp)); reflexivity.
Qed.

Lemma X6_informant_edges_witness :
  setInformantDetailsInComposition Example.store
    (mkComposition (Some "c1") (Some "Birth Declaration")
       (Some [Example.childSection; Example.encounterSection]))
    emptyFullComposition Example.locations = None.
Proof.
  refine (proj1 (X6_informant_edges Example.store
                   (mkComposition (Some "c1") (Some "Birth Declaration")
                      (Some [Example.childSection; Example.encounterSection]))
                   emptyFullComposition Example.locations) eq_refl _).
  intros rp [<-|[]]; discriminate.
Defined.

(** ** Observations: further edges *)

Lemma foldM_throws {A S} (f : S -> A -> Js S) (xs : list A) (x : A) :
  In x xs -> (forall s, f s x = None) -> forall s, foldM f s xs = None.
Proof.
  intros Hin Hx; induction xs as [|y xs IH]; intro s; [ contradiction | ].
  simpl. destruct Hin as [->|Hin]; [ rewrite Hx; reflexivity | ].
  destruct (f s y); simpl; auto.
Qed.

(** X7: one observation whose [code.coding] array is empty makes the
    extraction throw, whatever the other observations of the encounter. *)
Theorem X7_empty_coding_aborts_extraction (observations : list Observation)
    (o : Observation)
    (Hin : In o observations)
    (Hempty : cc_coding (obs_code o) = Some []) :
  extractObservationDetails observations = None.
Proof.
  unfold extractObservationDetails.
  apply foldM_throws with (x := o); [ exact Hin | ].
  intro s. unfold observationStep, findCodeInObservation, codingCode0.
  rewrite Hempty. reflexivity.
Qed.

Lemma X7_empty_coding_aborts_extraction_witness :
  extractObservationDetails
    (Example.attendants
     ++ [mkObservation (mkCodeableConcept (Some []) None) None None None None])%list
  = None.
Proof.
  refine (X7_empty_coding_aborts_extraction _
            (mkObservation (mkCodeableConcept (Some []) None) None None None None)
            _ eq_refl).
  right; right; left; reflexivity.
Defined.

(** X8: when the last observation carrying the body-weight code has no
    [valueQuantity], the field is the text "undefined undefined", not the
    empty string, and so is the bodyWeightMeasured column of the birth row;
    for the plurality code the same lack gives the empty string. *)
Theorem X8_missing_quantity (obs : list Observation) (o : Observation)
    (W : forallb wellShaped obs = true)
    (Hquantity : obs_valueQuantity o = None) :
  exists r,
    extractObservationDetails obs = Some r
    /\ (find (primaryCodeIs OBSERVATION_CODE.BODY_WEIGHT_MEASURED) (rev obs)
        = Some o ->
        bodyWeightMeasured r = "undefined undefined"
        /\ forall c, observations c = Some r ->
                     get "bodyWeightMeasured" (makeBirthRow c)
                     = Some (VString "undefined undefined"))
    /\ (find (primaryCodeIs OBSERVATION_CODE.BIRTH_PLURALITY_OF_PREGNANCY)
             (rev obs) = Some o ->
        birthPluralityOfPregnancy r = "").
Proof.
  destruct (foldM_observationStep obs W emptyObservationObj)
    as (r & Er & Fr).
  exists r; split; [ exact Er | ]. split.
  - intro Hf. specialize (Fr F_bodyWeightMeasured).
    cbn [fieldCode fieldRule getField] in Fr. rewrite Hf in Fr.
    unfold quantityWithUnit in Fr. rewrite Hquantity in Fr.
    injection Fr as Fr. split; [ exact Fr | ].
    intros c Hc.
    assert (E : get "bodyWeightMeasured" (makeBirthRow c)
                = Some (field (observations c) bodyWeightMeasured))
      by (vm_compute; reflexivity).
    rewrite E, Hc. unfold field; cbn [option_map nullish]. rewrite Fr. reflexivity.
  - intro Hf. specialize (Fr F_birthPluralityOfPregnancy).
    cbn [fieldCode fieldRule getField] in Fr. rewrite Hf in Fr.
    unfold quantityValue in Fr. rewrite Hquantity in Fr.
    injection Fr as Fr. exact Fr.
Qed.

Lemma X8_missing_quantity_witness :
  exists r,
    extractObservationDetails
      [mkObservation (Example.coded OBSERVATION_CODE.BODY_WEIGHT_MEASURED)
         None None None None] = Some r
    /\ bodyWeightMeasured r = "undefined undefined".
Proof.
  destruct (X8_missing_quantity
              [mkObservation (Example.coded OBSERVATION_CODE.BODY_WEIGHT_MEASURED)
                 None None None None]
              (mkObservation (Example.coded OBSERVATION_CODE.BODY_WEIGHT_MEASURED)
                 None None None None)
              eq_refl eq_refl) as (r & E & H & _).
  exists r; split; [ exact E | ].
  exact (proj1 (H eq_refl)).
Defined.

Lemma find_unique_Permutation {A} (p : A -> bool) (l l' : list A) :
  (forall a b, In a l -> In b l -> p a = true -> p b = true -> a = b) ->
  Permutation.Permutation l l' -> find p l = find p l'.
Proof.
  intros U P. unfold find.
  destruct (List.find p l) as [a|] eqn:E, (List.find p l') as [b|] eqn:E';
    try reflexivity.
  - apply find_some in E, E'. destruct E as [Ha Hpa], E' as [Hb Hpb].
    f_equal. apply U; try assumption.
    apply (Permutation.Permutation_in _ (Permutation.Permutation_sym P)); exact Hb.
  - apply find_some in E. destruct E as [Ha Hpa].
    pose proof (find_none _ _ E' a (Permutation.Permutation_in _ P Ha)) as N. congruence.
  - apply find_some in E'. destruct E' as [Hb Hpb].
    pose proof (find_none _ _ E b (Permutation.Permutation_in _ (Permutation.Permutation_sym P) Hb)) as N.
    congruence.
Qed.

Lemma forallb_Permutation {A} (p : A -> bool) (l l' : list A) :
  Permutation.Permutation l l' -> forallb p l = true -> forallb p l' = true.
Proof.
  intros P H. rewrite forallb_forall in *.
  intros x Hx. apply H. apply (Permutation.Permutation_in _ (Permutation.Permutation_sym P)); exact Hx.
Qed.

Lemma IObservation_ext (r r' : IObservation) :
  (forall f, getField f r = getField f r') -> r = r'.
Proof.
  intro H. destruct r, r'.
  pose proof (H F_causeOfDeathMethod). pose proof (H F_birthPluralityOfPregnancy).
  pose proof (H F_bodyWeightMeasured). pose proof (H F_birthAttendantTitle).
  pose proof (H F_uncertifiedMannerOfDeath). pose proof (H F_verbalAutopsyDescription).
  pose proof (H F_causeOfDeathEstablished). pose proof (H F_causeOfDeath).
  pose proof (H F_numMaleDependentsOnDeceased).
  pose proof (H F_numFemaleDependentsOnDeceased). pose proof (H F_presentAtBirthReg).
  simpl in *. congruence.
Qed.

(** X9: when no two observations of the list carry the code of one field
    (and no [coding] array is empty), the extracted bag does not depend on
    the order in which the store returns the observations. *)
Theorem X9_order_independent (obs obs' : list Observation)
    (W : forallb wellShaped obs = true)
    (U : oneObservationPerCode obs)
    (P : Permutation.Permutation obs obs') :
  extractObservationDetails obs = extractObservationDetails obs'.
Proof.
  pose proof (forallb_Permutation _ _ _ P W) as W'.
  destruct (foldM_observationStep obs W emptyObservationObj)
    as (r & Er & Fr).
  destruct (foldM_observationStep obs' W' emptyObservationObj)
    as (r' & Er' & Fr').
  unfold extractObservationDetails. rewrite Er, Er'. f_equal.
  apply IObservation_ext. intro f.
  assert (E : Some (getField f r) = Some (getField f r')).
  { rewrite Fr, Fr'.
    rewrite (find_unique_Permutation (primaryCodeIs (fieldCode f))
               (rev obs) (rev obs')); [ reflexivity | | ].
    - intros a b Ha Hb. apply in_rev in Ha, Hb. apply U; assumption.
    - eapply Permutation.Permutation_trans; [ apply Permutation.Permutation_sym, Permutation.Permutation_rev | ].
      eapply Permutation.Permutation_trans; [ exact P | apply Permutation.Permutation_rev ]. }
  injection E as E; exact E.
Qed.

Lemma X9_order_independent_witness :
  extractObservationDetails
    [Example.attendant "Encounter/e1" "NURSE";
     mkObservation (Example.coded OBSERVATION_CODE.CAUSE_OF_DEATH) None
       (Some (Example.coded "I21")) None None]
  = extractObservationDetails
      [mkObservation (Example.coded OBSERVATION_CODE.CAUSE_OF_DEATH) None
         (Some (Example.coded "I21")) None None;
       Example.attendant "Encounter/e1" "NURSE"].
Proof.
  apply X9_order_independent; [ reflexivity | | apply Permutation.perm_swap ].
  intros f o1 o2 [<-|[<-|[]]] [<-|[<-|[]]] H1 H2; try reflexivity;
    destruct f; vm_compute in H1, H2; discriminate.
Defined.

(** ** When a row is written *)

Lemma gate_eligible task status :
  codingCode0 (task_businessStatus task) = Some status ->
  strictEq status (Some "CERTIFIED") || strictEq status (Some "REGISTERED") = true ->
  eligible task.
Proof.
  intros E H. unfold eligible, businessStatusOf. rewrite E.
  apply orb_true_iff in H. destruct H as [H|H]; apply strictEq_true in H; subst; auto.
Qed.

Lemma resolveRecord_row st locations composition outcome :
  resolveRecord st locations composition = Some outcome ->
  outcome <> NoRow ->
  exists task c,
    first (getTaskDocByCompositionId st
             ("Composition/" ++ toStr (comp_id composition))) = Some task
    /\ eligible task
    /\ buildFullComposition st locations (clinicalSections composition) task = Some c
    /\ outcome = (if strictEq (comp_title composition) (Some "Birth Declaration")
                  then WriteBirth (makeBirthRow c)
                  else WriteDeath (makeDeathRow c)).
Proof.
  unfold resolveRecord. intros H Hrow.
  apply bind_Some in H; destruct H as (task & Etask & H).
  apply bind_Some in H; destruct H as (status & Estatus & H).
  destruct (_ || _) eqn:G; [ | injection H as <-; contradiction ].
  apply bind_Some in H; destruct H as (c & Ec & H).
  exists task, c. split; [ exact Etask | ].
  split; [ eapply gate_eligible; eassumption | ].
  split; [ exact Ec | ].
  destruct (buildFullComposition_core _ _ _ _ _ Ec) as (_ & Ev & _).
  rewrite Ev in H. cbn [clinicalSections comp_title] in H.
  destruct (strictEq (comp_title composition) (Some "Birth Declaration"));
    injection H as <-; reflexivity.
Qed.

Lemma WriteBirth_inj a b : WriteBirth a = WriteBirth b -> a = b.
Proof.
  intro H.
  exact (f_equal (fun o => match o with WriteBirth r => r | _ => a end) H).
Qed.

Lemma WriteDeath_inj a b : WriteDeath a = WriteDeath b -> a = b.
Proof.
  intro H.
  exact (f_equal (fun o => match o with WriteDeath r => r | _ => a end) H).
Qed.

(** X10: a birth row is written only for a composition titled exactly
    "Birth Declaration" and a death row only for one with any other title or
    none; either is written only when the Task of the composition has status
    CERTIFIED or REGISTERED, and is the row built from the aggregate of the
    composition's clinical sections. *)
Theorem X10_row_needs_gate_and_title st locations composition :
  (forall birthRow,
     resolveRecord st locations composition = Some (WriteBirth birthRow) ->
     comp_title composition = Some "Birth Declaration"
     /\ exists task c,
          first (getTaskDocByCompositionId st
                   ("Composition/" ++ toStr (comp_id composition))) = Some task
          /\ eligible task
          /\ buildFullComposition st locations (clinicalSections composition) task
             = Some c
          /\ birthRow = makeBirthRow c)
  /\ (forall deathRow,
        resolveRecord st locations composition = Some (WriteDeath deathRow) ->
        comp_title composition <> Some "Birth Declaration"
        /\ exists task c,
             first (getTaskDocByCompositionId st
                      ("Composition/" ++ toStr (comp_id composition))) = Some task
             /\ eligible task
             /\ buildFullComposition st locations (clinicalSections composition) task
                = Some c
             /\ deathRow = makeDeathRow c).
Proof.
  split; intros row H;
    destruct (resolveRecord_row _ _ _ _ H ltac:(discriminate))
      as (task & c & Etask & Eg & Ec & Eo);
    destruct (strictEq (comp_title composition) (Some "Birth Declaration")) eqn:T.
  - apply WriteBirth_inj in Eo.
    split; [ apply strictEq_true; exact T | eauto 8 ].
  - discriminate Eo.
  - discriminate Eo.
  - apply WriteDeath_inj in Eo.
    split; [ | eauto 8 ].
    intro E. apply strictEq_true in E. congruence.
Qed.

Lemma X10_row_needs_gate_and_title_witness :
  exists deathRow,
    resolveRecord Example.store Example.locations Example.death
    = Some (WriteDeath deathRow)
    /\ comp_title Example.death <> Some "Birth Declaration".
Proof.
  destruct (resolveRecord Example.store Example.locations Example.death)
    as [[r|r|]|] eqn:E;
    [ vm_compute in E; discriminate E | | vm_compute in E; discriminate E
    | vm_compute in E; discriminate E ].
  exists r; split; [ reflexivity | ].
  exact (proj1 (proj2 (X10_row_needs_gate_and_title Example.store
                         Example.locations Example.death) r E)).
Defined.

(** ** The loop over the cursor *)

Lemma writeRecords_one header file record :
  writeRecords header file [record] = (file ++ [lineOf header record])%list.
Proof. reflexivity. Qed.

Lemma exportRecord_appends st locations files c :
  birthFile (exportRecord st locations files c)
  = (birthFile files ++ birthLines st locations [c])%list
  /\ deathFile (exportRecord st locations files c)
     = (deathFile files ++ deathLines st locations [c])%list.
Proof.
  unfold exportRecord, birthLines, deathLines; cbn [flat_map].
  destruct (resolveRecord st locations c) as [[r|r|]|]; cbn [birthFile deathFile];
    rewrite ?writeRecords_one, ?app_nil_r; split; reflexivity.
Qed.

Lemma export_appends st locations compositions :
  forall files,
    birthFile (fold_left (exportRecord st locations) compositions files)
    = (birthFile files ++ birthLines st locations compositions)%list
    /\ deathFile (fold_left (exportRecord st locations) compositions files)
       = (deathFile files ++ deathLines st locations compositions)%list.
Proof.
  induction compositions as [|c cs IH]; intro files; cbn [fold_left].
  - unfold birthLines, deathLines; cbn [flat_map]. rewrite !app_nil_r. auto.
  - destruct (IH (exportRecord st locations files c)) as [B D].
    destruct (exportRecord_appends st locations files c) as [B1 D1].
    rewrite B, D, B1, D1.
    unfold birthLines, deathLines; cbn [flat_map].
    rewrite !app_nil_r, <- !app_assoc. auto.
Qed.

Lemma report_appends st locations compositions files :
  birthFile (makeCompositionAndExportCSVReport st compositions locations files)
  = (birthFile files ++ birthLines st locations compositions)%list
  /\ deathFile (makeCompositionAndExportCSVReport st compositions locations files)
     = (deathFile files ++ deathLines st locations compositions)%list.
Proof.
  unfold makeCompositionAndExportCSVReport.
  destruct compositions as [|c cs].
  - cbn. rewrite !app_nil_r. auto.
  - replace (0 <? Z.of_nat (List.length (c :: cs))) with true
      by (symmetry; apply Z.ltb_lt; cbn [List.length]; lia).
    apply export_appends.
Qed.

Lemma lineOf_length header record :
  List.length (lineOf header record) = List.length header.
Proof. unfold lineOf. apply length_map. Qed.

Lemma birthLines_shape st locations compositions :
  Forall (fun l => List.length l = 34%nat) (birthLines st locations compositions).
Proof.
  unfold birthLines. induction compositions as [|c cs IH]; cbn [flat_map];
    [ constructor | ].
  destruct (resolveRecord st locations c) as [[r|r|]|]; cbn [app]; try exact IH.
  constructor; [ apply lineOf_length | exact IH ].
Qed.

Lemma deathLines_shape st locations compositions :
  Forall (fun l => List.length l = 23%nat) (deathLines st locations compositions).
Proof.
  unfold deathLines. induction compositions as [|c cs IH]; cbn [flat_map];
    [ constructor | ].
  destruct (resolveRecord st locations c) as [[r|r|]|]; cbn [app]; try exact IH.
  constructor; [ apply lineOf_length | exact IH ].
Qed.

Lemma lines_bound st locations compositions :
  (List.length (birthLines st locations compositions)
   + List.length (deathLines st locations compositions)
   <= List.length compositions)%nat.
Proof.
  unfold birthLines, deathLines.
  induction compositions as [|c cs IH]; cbn [flat_map List.length]; [ lia | ].
  destruct (resolveRecord st locations c) as [[r|r|]|];
    cbn [app List.length]; lia.
Qed.

(** X11: the loop over a cursor only appends: each file keeps its content
    and receives, in cursor order, one line for every composition that
    resolves to a row of its kind; a composition that throws or is gated
    contributes nothing and stops nothing; birth lines have 34 cells, death
    lines 23, and no more lines are added than the cursor has records. *)
Theorem X11_export_appends_resolved_rows st compositions locations files :
  birthFile (makeCompositionAndExportCSVReport st compositions locations files)
  = (birthFile files ++ birthLines st locations compositions)%list
  /\ deathFile (makeCompositionAndExportCSVReport st compositions locations files)
     = (deathFile files ++ deathLines st locations compositions)%list
  /\ Forall (fun l => List.length l = 34%nat) (birthLines st locations compositions)
  /\ Forall (fun l => List.length l = 23%nat) (deathLines st locations compositions)
  /\ (List.length (birthLines st locations compositions)
      + List.length (deathLines st locations compositions)
      <= List.length compositions)%nat.
Proof.
  destruct (report_appends st locations compositions files) as [B D].
  split; [ exact B | ]. split; [ exact D | ].
  split; [ apply birthLines_shape | ].
  split; [ apply deathLines_shape | apply lines_bound ].
Qed.


(** ** The date query *)

Lemma ascii_compare_refl c : Ascii.compare c c = Eq.
Proof. unfold Ascii.compare. apply N.compare_refl. Qed.

Lemma compare_append p a b :
  String.compare (p ++ a) (p ++ b) = String.compare a b.
Proof.
  induction p as [|c p IH]; simpl; [ reflexivity | ].
  rewrite ascii_compare_refl. exact IH.
Qed.

Lemma leb_refl s : String.leb s s = true.
Proof.
  unfold String.leb.
  replace (String.compare s s) with Eq; [ reflexivity | ].
  symmetry. induction s as [|c s IH]; simpl; [ reflexivity | ].
  rewrite ascii_compare_refl. exact IH.
Qed.

(** X14: the query of a window takes a composition dated exactly at its
    upper bound, the last day at 23:59:59.000, and leaves out every
    composition of that day whose time part is later in string order, such
    as 23:59:59.500: the rest of the last second is not exported by the
    window. *)
Theorem X14_last_second_left_out
    (format : Date -> string) (docs : list CompositionDoc) (s e : Date)
    (doc : CompositionDoc) (time : string)
    (Hdoc : In doc docs)
    (Hdate : doc_date doc = Some (format e ++ time)) :
  (String.ltb "T23:59:59.000Z" time = true ->
   ~ In doc (selectedDocs docs (formatedStartDate format s)
                          (formatedEndDate format e)))
  /\ (time = "T23:59:59.000Z" ->
      String.leb (formatedStartDate format s) (formatedEndDate format e) = true ->
      In doc (selectedDocs docs (formatedStartDate format s)
                           (formatedEndDate format e))).
Proof.
  unfold selectedDocs, formatedEndDate, dateInRange. split.
  - intros Hlt Hin. apply filter_In in Hin. destruct Hin as [_ Hin].
    rewrite Hdate in Hin. apply andb_prop in Hin. destruct Hin as [_ Hin].
    unfold String.leb in Hin. rewrite compare_append in Hin.
    unfold String.ltb in Hlt. rewrite String.compare_antisym in Hlt.
    destruct (String.compare time "T23:59:59.000Z"); simpl in *; discriminate.
  - intros -> Hle. apply filter_In. split; [ exact Hdoc | ].
    rewrite Hdate. rewrite Hle, leb_refl. reflexivity.
Qed.

Lemma X14_last_second_left_out_witness :
  ~ In (mkCompositionDoc (Some "2022-01-31T23:59:59.500Z") Example.birth)
       (selectedDocs exampleDocs
          (formatedStartDate formatDay (mkDate 2022 1 1))
          (formatedEndDate formatDay (mkDate 2022 1 31))).
Proof.
  refine (proj1 (X14_last_second_left_out formatDay exampleDocs
                   (mkDate 2022 1 1) (mkDate 2022 1 31)
                   (mkCompositionDoc (Some "2022-01-31T23:59:59.500Z") Example.birth)
                   "T23:59:59.500Z" (or_introl eq_refl) eq_refl) eq_refl).
Defined.

(** ** The whole run *)

Lemma createBirthDeclarationCSVWriter_appends file :
  createBirthDeclarationCSVWriter file = (file ++ [map snd birthCSVHeader])%list.
Proof.
  unfold createBirthDeclarationCSVWriter. rewrite writeRecords_one.
  f_equal; vm_compute; reflexivity.
Qed.

Lemma createDeathDeclarationCSVWriter_appends file :
  createDeathDeclarationCSVWriter file = (file ++ [map snd deathCSVHeader])%list.
Proof.
  unfold createDeathDeclarationCSVWriter. rewrite writeRecords_one.
  f_equal; vm_compute; reflexivity.
Qed.

Lemma windows_append format st docs locations windows :
  forall files,
    birthFile (fold_left (exportWindow format st docs locations) windows files)
    = (birthFile files
       ++ flat_map (fun w => birthLines st locations
                               (getCompositionCursor docs
                                  (formatedStartDate format (fst w))
                                  (formatedEndDate format (snd w))))
                   windows)%list
    /\ deathFile (fold_left (exportWindow format st docs locations) windows files)
       = (deathFile files
          ++ flat_map (fun w => deathLines st locations
                                  (getCompositionCursor docs
                                     (formatedStartDate format (fst w))
                                     (formatedEndDate format (snd w))))
                      windows)%list.
Proof.
  induction windows as [|w ws IH]; intro files; cbn [fold_left flat_map].
  - rewrite !app_nil_r. auto.
  - destruct (IH (exportWindow format st docs locations files w)) as [B D].
    rewrite B, D. unfold exportWindow.
    destruct (report_appends st locations
                (getCompositionCursor docs (formatedStartDate format (fst w))
                   (formatedEndDate format (snd w))) files) as [B1 D1].
    rewrite B1, D1, <- !app_assoc. auto.
Qed.


(** * The dates of a run, the columns of a row, the documents behind a slot *)

(** ** The calendar of the month loop *)

Lemma isLeapYear_leapYear y : isLeapYear y = leapYear y.
Proof.
  unfold isLeapYear, leapYear.
  destruct (y mod 400 =? 0), (y mod 100 =? 0), (y mod 4 =? 0); reflexivity.
Qed.

Lemma getDaysInMonth_monthLength d :
  1 <= month d <= 12 -> getDaysInMonth d = monthLength (year d) (month d).
Proof.
  intro H. unfold getDaysInMonth. rewrite isLeapYear_leapYear.
  assert (C : month d = 1 \/ month d = 2 \/ month d = 3 \/ month d = 4
              \/ month d = 5 \/ month d = 6 \/ month d = 7 \/ month d = 8
              \/ month d = 9 \/ month d = 10 \/ month d = 11 \/ month d = 12)
    by lia.
  repeat (destruct C as [C|C]; [ rewrite C; reflexivity | ]).
  rewrite C; reflexivity.
Qed.

Lemma valid_civil d : valid d <-> civil d.
Proof.
  unfold valid, civil. split; intros [Hm Hd]; split; try assumption;
    rewrite (getDaysInMonth_monthLength d Hm) in *; assumption.
Qed.

Lemma before_total a b : civil a -> civil b -> before a b \/ notAfter b a.
Proof.
  intros Ha Hb. apply valid_civil in Ha, Hb.
  destruct (Z_lt_ge_dec (dayKey a) (dayKey b)).
  - left. apply before_dayKey; assumption.
  - right. apply notAfter_dayKey; try assumption. lia.
Qed.

Lemma nextDay_dayAfter d : civil d -> dayAfter d (nextDay d).
Proof.
  intro Hd. pose proof (proj2 (valid_civil d) Hd) as V.
  pose proof (nextDay_valid d V) as V'.
  split; [ exact Hd | ]. split; [ apply valid_civil; exact V' | ].
  split.
  - apply before_dayKey; try assumption. apply nextDay_dayKey; exact V.
  - intros x Hx Hlt. apply valid_civil in Hx.
    apply notAfter_dayKey; try assumption.
    apply nextDay_least; try assumption.
    apply before_dayKey; assumption.
Qed.

Lemma lastDayOfMonth_monthEnd d :
  civil d ->
  year (lastDayOfMonth d) = year d /\ month (lastDayOfMonth d) = month d
  /\ monthEnd (lastDayOfMonth d).
Proof.
  intros [Hm _]. unfold lastDayOfMonth, monthEnd; cbn [year month day].
  split; [ reflexivity | ]. split; [ reflexivity | ].
  apply getDaysInMonth_monthLength; exact Hm.
Qed.

(** The day before a day of the calendar. *)
Lemma prevDay_valid d : valid d -> valid (prevDay d).
Proof.
  intros [Hm Hd]. unfold prevDay.
  destruct (Z.ltb_spec 1 (day d)).
  - unfold valid; cbn [year month day].
    rewrite (getDaysInMonth_day _ _ _ (day d)).
    replace (getDaysInMonth (mkDate (year d) (month d) (day d)))
      with (getDaysInMonth d) by (destruct d; reflexivity).
    lia.
  - destruct (Z.ltb_spec 1 (month d)); unfold valid; cbn [year month day].
    + set (D := getDaysInMonth (mkDate (year d) (month d - 1) 1)).
      change (getDaysInMonth (mkDate (year d) (month d - 1) D)) with D.
      pose proof (getDaysInMonth_bounds (mkDate (year d) (month d - 1) 1)).
      fold D in H1. lia.
    + change (getDaysInMonth (mkDate (year d - 1) 12 31)) with 31. lia.
Qed.

Lemma nextDay_prevDay d : valid d -> nextDay (prevDay d) = d.
Proof.
  intros [Hm Hd]. unfold prevDay.
  destruct (Z.ltb_spec 1 (day d)).
  - unfold nextDay; cbn [year month day].
    rewrite (getDaysInMonth_day _ _ _ (day d)).
    replace (getDaysInMonth (mkDate (year d) (month d) (day d)))
      with (getDaysInMonth d) by (destruct d; reflexivity).
    destruct (Z.ltb_spec (day d - 1) (getDaysInMonth d)); [ | lia ].
    destruct d; cbn [year month day]; f_equal; lia.
  - destruct (Z.ltb_spec 1 (month d)); unfold nextDay; cbn [year month day].
    + set (D := getDaysInMonth (mkDate (year d) (month d - 1) 1)).
      change (getDaysInMonth (mkDate (year d) (month d - 1) D)) with D.
      rewrite Z.ltb_irrefl.
      destruct (Z.ltb_spec (month d - 1) 12); [ | lia ].
      destruct d; cbn [year month day] in *; f_equal; lia.
    + change (getDaysInMonth (mkDate (year d - 1) 12 31)) with 31.
      rewrite Z.ltb_irrefl. cbn.
      destruct d; cbn [year month day] in *; f_equal; lia.
Qed.

Lemma prevDay_dayAfter d : civil d -> dayAfter (prevDay d) d.
Proof.
  intro Hd. pose proof (proj2 (valid_civil d) Hd) as V.
  pose proof (prevDay_valid d V) as V'.
  pose proof (nextDay_dayAfter (prevDay d) (proj1 (valid_civil _) V')) as H.
  rewrite (nextDay_prevDay d V) in H. exact H.
Qed.

(** The day the script reads off an argument: the argument's own day at or
    east of UTC, the day before it west of UTC. *)
Lemma newDate_east offset arg :
  0 <= offset arg < 1440 -> newDate offset arg = arg.
Proof.
  intro H. unfold newDate.
  replace (offset arg / 1440) with 0 by (symmetry; apply Z.div_small; lia).
  reflexivity.
Qed.

Lemma newDate_west offset arg :
  -1440 <= offset arg < 0 -> newDate offset arg = prevDay arg.
Proof.
  intro H. unfold newDate.
  replace (offset arg / 1440) with (-1).
  - reflexivity.
  - apply Z.div_unique with (r := offset arg + 1440); lia.
Qed.

Lemma newDate_civil offset arg :
  civil arg -> -1440 <= offset arg < 1440 -> civil (newDate offset arg).
Proof.
  intros Hc H. destruct (Z_lt_ge_dec (offset arg) 0).
  - rewrite newDate_west by lia.
    apply valid_civil, prevDay_valid, valid_civil, Hc.
  - rewrite newDate_east by lia. exact Hc.
Qed.

Lemma validb_valid d : validb d = true -> valid d.
Proof. unfold validb, valid; intro H. lia. Qed.

Lemma monthWindows_tile (s e : Date) :
  civil s -> civil e -> notAfter s e ->
  let totalMonths := differenceInCalendarMonths e s + 1 in
  Tiling s e (monthLoop (Z.to_nat totalMonths) 0 totalMonths s e)
  /\ List.length (monthLoop (Z.to_nat totalMonths) 0 totalMonths s e)
     = Z.to_nat totalMonths.
Proof.
  intros Hs He Hle. apply valid_civil in Hs, He.
  assert (Hdiff : 0 <= differenceInCalendarMonths e s).
  { apply notAfter_dayKey in Hle; try assumption.
    pose proof (getDaysInMonth_bounds s); pose proof (getDaysInMonth_bounds e).
    destruct Hs as [? ?], He as [? ?].
    unfold differenceInCalendarMonths, dayKey in *. lia. }
  cbv zeta.
  replace (Z.to_nat (differenceInCalendarMonths e s + 1))
    with (S (Z.to_nat (differenceInCalendarMonths e s))) by lia.
  apply monthLoop_tiling; try assumption; lia.
Qed.

Lemma Tiling_civil s e ws : Tiling s e ws -> Forall civilWindow ws.
Proof.
  intro T. apply Tiling_wellFormed in T.
  eapply Forall_impl; [ | exact T ].
  intros w (A & B & C). split; [ apply valid_civil, A | ].
  split; [ apply valid_civil, B | exact C ].
Qed.

Lemma Tiling_month_ends s e ws :
  Tiling s e ws ->
  forall front w1 w2 rest,
    ws = (front ++ w1 :: w2 :: rest)%list ->
    year (snd w1) = year (fst w1) /\ month (snd w1) = month (fst w1)
    /\ monthEnd (snd w1) /\ dayAfter (snd w1) (fst w2).
Proof.
  intros T front w1 w2 rest E.
  destruct (Tiling_adjacent _ _ _ T _ _ _ _ E) as [E1 E2].
  pose proof (Tiling_civil _ _ _ T) as W. rewrite Forall_forall in W.
  assert (H1 : civilWindow w1)
    by (apply W; rewrite E; apply in_or_app; right; left; reflexivity).
  destruct H1 as (C1 & C1' & _).
  destruct (lastDayOfMonth_monthEnd (fst w1) C1) as (Y & M & ME).
  rewrite E1. split; [ exact Y | ]. split; [ exact M | ]. split; [ exact ME | ].
  rewrite E2, E1. apply nextDay_dayAfter. rewrite <- E1. exact C1'.
Qed.

Lemma Tiling_covers_civil s e ws :
  Tiling s e ws ->
  forall x, civil x ->
    (notAfter s x /\ notAfter x e <-> exists w, In w ws /\ inWindow x w).
Proof.
  intros T x Hx. apply Tiling_covers; [ exact T | apply valid_civil, Hx ].
Qed.

(** C4: the script reads each of its two arguments as the instant of UTC
    midnight and looks at it in local time: at or east of UTC it sees the
    argument's own day, west of UTC the day before.  For the two days so
    read, the first not after the second, it exports as many windows as
    the calendar months between them plus one; the first window starts at
    the first day read and the last ends at the last day read; every
    window but the last ends on the last day of the month it starts in,
    and the next one starts the day after; a later window starts after an
    earlier one ends; and a day of the calendar lies between the two days
    read exactly when it lies in one of the windows.  So at or east of UTC
    the windows cover the range of the command line, and west of UTC they
    cover the range moved one day back: the end date of the command line
    is then in no window. *)
Theorem C4_month_windows (offset : Date -> Z) (arg2 arg3 : Date)
    (H2 : civil arg2) (H3 : civil arg3)
    (Hzone2 : -1440 <= offset arg2 < 1440)
    (Hzone3 : -1440 <= offset arg3 < 1440)
    (Hle : notAfter (newDate offset arg2) (newDate offset arg3)) :
  let s := newDate offset arg2 in
  let e := newDate offset arg3 in
  let ws := startScript offset arg2 arg3 in
  (0 <= offset arg2 -> s = arg2)
  /\ (0 <= offset arg3 -> e = arg3)
  /\ (offset arg2 < 0 -> dayAfter s arg2)
  /\ (offset arg3 < 0 -> dayAfter e arg3)
  /\ List.length ws = Z.to_nat (differenceInCalendarMonths e s + 1)
  /\ (exists b rest, ws = (s, b) :: rest)
  /\ (exists front a, ws = (front ++ [(a, e)])%list)
  /\ Forall civilWindow ws
  /\ (forall front w1 w2 rest,
        ws = (front ++ w1 :: w2 :: rest)%list ->
        year (snd w1) = year (fst w1) /\ month (snd w1) = month (fst w1)
        /\ monthEnd (snd w1) /\ dayAfter (snd w1) (fst w2))
  /\ (forall front w1 middle w2 rest,
        ws = (front ++ w1 :: middle ++ w2 :: rest)%list ->
        before (snd w1) (fst w2))
  /\ (forall x, civil x ->
        (notAfter s x /\ notAfter x e <-> exists w, In w ws /\ inWindow x w))
  /\ (offset arg3 < 0 -> forall w, In w ws -> ~ inWindow arg3 w).
Proof.
  cbv zeta.
  pose proof (newDate_civil offset arg2 H2 Hzone2) as Cs.
  pose proof (newDate_civil offset arg3 H3 Hzone3) as Ce.
  destruct (monthWindows_tile _ _ Cs Ce Hle) as [T L].
  assert (W2 : offset arg2 < 0 -> dayAfter (newDate offset arg2) arg2)
    by (intro H; rewrite newDate_west by lia; apply prevDay_dayAfter, H2).
  assert (W3 : offset arg3 < 0 -> dayAfter (newDate offset arg3) arg3)
    by (intro H; rewrite newDate_west by lia; apply prevDay_dayAfter, H3).
  unfold startScript.
  split; [ intro H; apply newDate_east; lia | ].
  split; [ intro H; apply newDate_east; lia | ].
  split; [ exact W2 | ].
  split; [ exact W3 | ].
  split; [ exact L | ].
  split; [ eapply Tiling_first; exact T | ].
  split; [ eapply Tiling_final; exact T | ].
  split; [ eapply Tiling_civil; exact T | ].
  split; [ eapply Tiling_month_ends; exact T | ].
  split; [ eapply Tiling_apart; exact T | ].
  split; [ eapply Tiling_covers_civil; exact T | ].
  intros Hwest w Hw Hin.
  destruct (W3 Hwest) as (_ & _ & Hlt & _).
  assert (Hr : notAfter (newDate offset arg2) arg3 /\ notAfter arg3 (newDate offset arg3))
    by (apply (Tiling_covers_civil _ _ _ T arg3 H3); exists w; auto).
  destruct Hr as [_ Hr].
  apply before_dayKey in Hlt; [ | apply valid_civil; assumption .. ].
  apply notAfter_dayKey in Hr; [ | apply valid_civil; assumption .. ].
  lia.
Qed.

(** West of UTC (five hours behind), the range 2022-01-01 to 2022-03-15 of
    the command line is exported as four windows, from 2021-12-31 to
    2022-03-14. *)
Lemma C4_month_windows_witness :
  startScript (fun _ => -300) (mkDate 2022 1 1) (mkDate 2022 3 15)
  = [ (mkDate 2021 12 31, mkDate 2021 12 31);
      (mkDate 2022 1 1, mkDate 2022 1 31);
      (mkDate 2022 2 1, mkDate 2022 2 28);
      (mkDate 2022 3 1, mkDate 2022 3 14) ]
  /\ List.length (startScript (fun _ => -300) (mkDate 2022 1 1) (mkDate 2022 3 15))
     = 4%nat
  /\ forall w,
       In w (startScript (fun _ => -300) (mkDate 2022 1 1) (mkDate 2022 3 15)) ->
       ~ inWindow (mkDate 2022 3 15) w.
Proof.
  split; [ vm_compute; reflexivity | ].
  assert (H2 : civil (mkDate 2022 1 1))
    by (apply valid_civil, validb_valid; reflexivity).
  assert (H3 : civil (mkDate 2022 3 15))
    by (apply valid_civil, validb_valid; reflexivity).
  assert (Hle : notAfter (newDate (fun _ => -300) (mkDate 2022 1 1))
                         (newDate (fun _ => -300) (mkDate 2022 3 15)))
    by (left; vm_compute; left; reflexivity).
  destruct (C4_month_windows (fun _ => -300) (mkDate 2022 1 1) (mkDate 2022 3 15)
              H2 H3 ltac:(lia) ltac:(lia) Hle)
    as (_ & _ & _ & _ & L & _ & _ & _ & _ & _ & _ & N).
  split; [ exact L | ].
  apply N. lia.
Defined.

(** ** Ranges given in reverse, and the whole run *)

(** X13: with the two arguments read as the script reads them (the
    argument's own day at or east of UTC, the day before west of UTC), when
    the end day lies in an earlier calendar month than the start day the
    script exports no window at all; when both lie in the same month it
    exports the single window from the start day to the end day, whatever
    their order; and a window whose end is before its start contains no
    day. *)
Theorem X13_reversed_range (offset : Date -> Z) (arg2 arg3 : Date) :
  let s := newDate offset arg2 in
  let e := newDate offset arg3 in
  (differenceInCalendarMonths e s < 0 -> startScript offset arg2 arg3 = [])
  /\ (differenceInCalendarMonths e s = 0 ->
      startScript offset arg2 arg3 = [(s, e)])
  /\ (before e s -> forall x, ~ inWindow x (s, e))
  /\ (0 <= offset arg2 < 1440 -> s = arg2)
  /\ (0 <= offset arg3 < 1440 -> e = arg3)
  /\ (civil arg2 -> -1440 <= offset arg2 < 0 -> dayAfter s arg2)
  /\ (civil arg3 -> -1440 <= offset arg3 < 0 -> dayAfter e arg3).
Proof.
  cbv zeta.
  split; [ | split; [ | split; [ | split; [ | split; [ | split ] ] ] ] ].
  - intro H. unfold startScript.
    replace (Z.to_nat (differenceInCalendarMonths (newDate offset arg3)
                         (newDate offset arg2) + 1)) with 0%nat by lia.
    reflexivity.
  - intro H. unfold startScript. rewrite H. reflexivity.
  - generalize (newDate offset arg2) (newDate offset arg3).
    intros s e Hes x [H1 H2]. cbn [fst snd] in *.
    unfold notAfter, before in *.
    destruct H1 as [H1| <-], H2 as [H2| ->]; lia.
  - apply newDate_east.
  - apply newDate_east.
  - intros Hc H. rewrite newDate_west by exact H. apply prevDay_dayAfter, Hc.
  - intros Hc H. rewrite newDate_west by exact H. apply prevDay_dayAfter, Hc.
Qed.

Lemma X13_reversed_range_witness :
  startScript (fun _ => 0) (mkDate 2022 3 15) (mkDate 2022 2 20) = []
  /\ startScript (fun _ => 0) (mkDate 2022 3 15) (mkDate 2022 3 1)
     = [(mkDate 2022 3 15, mkDate 2022 3 1)]
  /\ ~ inWindow (mkDate 2022 3 10) (mkDate 2022 3 15, mkDate 2022 3 1)
  /\ dayAfter (newDate (fun _ => -300) (mkDate 2022 3 1)) (mkDate 2022 3 1)
  /\ startScript (fun _ => -300) (mkDate 2022 3 1) (mkDate 2022 3 20)
     = [ (mkDate 2022 2 28, mkDate 2022 2 28);
         (mkDate 2022 3 1, mkDate 2022 3 19) ].
Proof.
  destruct (X13_reversed_range (fun _ => 0) (mkDate 2022 3 15) (mkDate 2022 2 20))
    as (A & _).
  destruct (X13_reversed_range (fun _ => 0) (mkDate 2022 3 15) (mkDate 2022 3 1))
    as (_ & B & C & _).
  destruct (X13_reversed_range (fun _ => -300) (mkDate 2022 3 1) (mkDate 2022 3 1))
    as (_ & _ & _ & _ & _ & D & _).
  split; [ apply A; reflexivity | ].
  split; [ apply B; reflexivity | ].
  split; [ apply C; unfold before; simpl; lia | ].
  split; [ apply D; [ apply valid_civil, validb_valid; reflexivity | lia ] | ].
  vm_compute. reflexivity.
Defined.

(** X15: a run of the script leaves what the two files held, appends the
    line of column labels to each, and then the lines of the windows in
    order, each window giving the lines of the compositions its query
    selects; so a second run adds a second line of labels after the rows of
    the first, and a range whose end, as the script reads it, is in an
    earlier month than its start adds the labels alone. *)
Theorem X15_run_appends_labels_then_rows
    (format : Date -> string) (offset : Date -> Z) st docs locations
    (arg2 arg3 : Date) files :
  let out := runStartScript format offset st docs locations arg2 arg3 files in
  let birthRows :=
    flat_map (fun w => birthLines st locations
                         (getCompositionCursor docs
                            (formatedStartDate format (fst w))
                            (formatedEndDate format (snd w))))
             (startScript offset arg2 arg3) in
  let deathRows :=
    flat_map (fun w => deathLines st locations
                         (getCompositionCursor docs
                            (formatedStartDate format (fst w))
                            (formatedEndDate format (snd w))))
             (startScript offset arg2 arg3) in
  birthFile out = (birthFile files ++ map snd birthCSVHeader :: birthRows)%list
  /\ deathFile out = (deathFile files ++ map snd deathCSVHeader :: deathRows)%list
  /\ (differenceInCalendarMonths (newDate offset arg3) (newDate offset arg2) < 0 ->
      birthRows = [] /\ deathRows = []).
Proof.
  cbv zeta. unfold runStartScript.
  destruct (windows_append format st docs locations (startScript offset arg2 arg3)
              (mkFiles (createBirthDeclarationCSVWriter (birthFile files))
                       (createDeathDeclarationCSVWriter (deathFile files))))
    as [B D].
  rewrite B, D. cbn [birthFile deathFile].
  rewrite createBirthDeclarationCSVWriter_appends,
          createDeathDeclarationCSVWriter_appends, <- !app_assoc.
  split; [ reflexivity | ]. split; [ reflexivity | ].
  intro H. unfold startScript.
  replace (Z.to_nat (differenceInCalendarMonths (newDate offset arg3)
                       (newDate offset arg2) + 1)) with 0%nat by lia.
  split; reflexivity.
Qed.

Lemma X15_run_appends_labels_then_rows_witness :
  birthFile (runStartScript formatDay (fun _ => 0) Example.store exampleDocs
               Example.locations (mkDate 2022 3 15) (mkDate 2022 2 20)
               Example.noFiles)
  = [map snd birthCSVHeader].
Proof.
  destruct (X15_run_appends_labels_then_rows formatDay (fun _ => 0) Example.store
              exampleDocs Example.locations (mkDate 2022 3 15) (mkDate 2022 2 20)
              Example.noFiles) as (B & _ & E).
  rewrite B. destruct (E eq_refl) as [-> _]. reflexivity.
Defined.

(** ** The columns of the rows *)

Ltac cell :=
  repeat match goal with
         | |- context [match ?x with _ => _ end] => is_var x; destruct x
         end;
  reflexivity.

Ltac cells :=
  repeat (apply f_equal2; [ apply f_equal; cell | ]); reflexivity.

Lemma birthRow_columns c : makeBirthRow c = birthRowColumns c.
Proof.
  destruct c as [ev dec chi fat mot inf obs off hc di sta cit].
  vm_compute. cells.
Qed.

Lemma yesNo_cell c :
  yesNo c
  = match observations c with
    | Some o => if String.eqb (causeOfDeathEstablished o) ""
                then VString "No" else VString "Yes"
    | None => VString "No"
    end.
Proof.
  unfold yesNo, isTruthy, truthy.
  destruct (observations c) as [o|]; simpl; [ | reflexivity ].
  destruct (String.eqb (causeOfDeathEstablished o) ""); reflexivity.
Qed.

Lemma deathRow_columns c : makeDeathRow c = deathRowColumns c.
Proof.
  unfold makeDeathRow, deathRowColumns. rewrite yesNo_cell.
  set (v := match observations c with
            | Some o => if String.eqb (causeOfDeathEstablished o) ""
                        then VString "No" else VString "Yes"
            | None => VString "No"
            end).
  clearbody v.
  destruct c as [ev dec chi fat mot inf obs off hc di sta cit].
  vm_compute. cells.
Qed.

Lemma textOr_None : textOr None = VString "".
Proof. reflexivity. Qed.

Ltac empty_columns E H :=
  let key := fresh "key" in
  let Hin := fresh "Hin" in
  intros key Hin; rewrite E;
  cbn [In] in Hin;
  repeat (destruct Hin as [<-|Hin];
          [ unfold birthRowColumns, deathRowColumns; rewrite H;
            vm_compute; reflexivity | ]);
  contradiction.

(** C9, as the script has it: whatever the aggregate, the birth row has
    exactly the columns of the birth writer and the death row those of the
    death writer, in the writer's order, each with a value, and the line
    written is the row's values in that order; each column holds the text
    (the number, for childOrd) of the slot of the aggregate it reads, so
    that, for every aggregate, the columns of an absent slot hold ['']
    ([0] for childOrd), except causeOfDeathEstablished of the death row,
    which holds ['No'] when the observation bag is absent or its value is
    empty. *)
Theorem C9_rows_complete (c : IFullComposition) :
  keys (makeBirthRow c) = birthHeader
  /\ keys (makeDeathRow c) = deathHeader
  /\ (forall key, In key birthHeader -> get key (makeBirthRow c) <> None)
  /\ (forall key, In key deathHeader -> get key (makeDeathRow c) <> None)
  /\ writeRecords birthHeader [] [makeBirthRow c] = [map snd (makeBirthRow c)]
  /\ writeRecords deathHeader [] [makeDeathRow c] = [map snd (makeDeathRow c)]
  /\ makeBirthRow emptyFullComposition = emptyBirthRow
  /\ makeDeathRow emptyFullComposition
     = assign "causeOfDeathEstablished" (VString "No") emptyDeathRow
  /\ makeBirthRow c = birthRowColumns c
  /\ makeDeathRow c = deathRowColumns c
  (* the birth row *)
  /\ (fc_child c = None ->
      allEmpty ["childGen"; "childDOB"] (makeBirthRow c)
      /\ get "childOrd" (makeBirthRow c) = Some (VNumber 0))
  /\ (fc_mother c = None ->
      allEmpty ["motherDOB"; "motherMaritalStatus"; "motherOccupation";
                "motherEducationalAttainment"; "motherCity"; "motherDistrict";
                "motherState"] (makeBirthRow c))
  /\ (fc_father c = None ->
      allEmpty ["fatherDOB"; "fatherMaritalStatus"; "fatherOccupation";
                "fatherEducationalAttainment"; "fatherCity"; "fatherDistrict";
                "fatherState"] (makeBirthRow c))
  /\ (fc_informant c = None ->
      allEmpty ["informantDOB"; "informantMaritalStatus"; "informantOccupation";
                "informantEducationalAttainment"; "informantCity";
                "informantDistrict"; "informantState"; "informantRelationship"]
               (makeBirthRow c))
  /\ (observations c = None ->
      allEmpty ["birthPluralityOfPregnancy"; "bodyWeightMeasured";
                "birthAttendantTitle"; "presentAtBirthReg"] (makeBirthRow c))
  /\ (eventCity c = None -> allEmpty ["birthCity"] (makeBirthRow c))
  /\ (eventState c = None -> allEmpty ["birthState"] (makeBirthRow c))
  /\ (eventDistrict c = None -> allEmpty ["birthDistrict"] (makeBirthRow c))
  /\ (healthCenter c = None -> allEmpty ["healthCenter"] (makeBirthRow c))
  /\ (officeLocation c = None -> allEmpty ["officeLocation"] (makeBirthRow c))
  (* the death row *)
  /\ (fc_deceased c = None ->
      allEmpty ["deceasedGen"; "deceasedDOB"; "deceasedMaritalStatus";
                "deceasedDate"; "deathCity"; "deathState"; "deathDistrict"]
               (makeDeathRow c))
  /\ (fc_informant c = None ->
      allEmpty ["informantDOB"; "informantMaritalStatus"; "informantOccupation";
                "informantCity"; "informantDistrict"; "informantState";
                "informantRelationship"] (makeDeathRow c))
  /\ (observations c = None ->
      allEmpty ["uncertifiedMannerOfDeath"; "verbalAutopsyDescription";
                "causeOfDeathMethod"; "causeOfDeath";
                "numMaleDependentsOnDeceased"; "numFemaleDependentsOnDeceased"]
               (makeDeathRow c)
      /\ get "causeOfDeathEstablished" (makeDeathRow c) = Some (VString "No"))
  /\ (healthCenter c = None -> allEmpty ["healthCenter"] (makeDeathRow c))
  /\ (officeLocation c = None -> allEmpty ["officeLocation"] (makeDeathRow c)).
Proof.
  pose proof (birthRow_columns c) as B.
  pose proof (deathRow_columns c) as D.
  split; [ apply birthRow_keys | ].
  split; [ apply deathRow_keys | ].
  split; [ intros key H; apply get_in_keys; rewrite birthRow_keys; exact H | ].
  split; [ intros key H; apply get_in_keys; rewrite deathRow_keys; exact H | ].
  split; [ vm_compute; reflexivity | ].
  split; [ vm_compute; reflexivity | ].
  split; [ vm_compute; reflexivity | ].
  split; [ vm_compute; reflexivity | ].
  split; [ exact B | ].
  split; [ exact D | ].
  split; [ intro H; split;
           [ empty_columns B H
           | rewrite B; unfold birthRowColumns; rewrite H; vm_compute; reflexivity ]
         | ].
  split; [ intro H; empty_columns B H | ].
  split; [ intro H; empty_columns B H | ].
  split; [ intro H; empty_columns B H | ].
  split; [ intro H; empty_columns B H | ].
  split; [ intro H; empty_columns B H | ].
  split; [ intro H; empty_columns B H | ].
  split; [ intro H; empty_columns B H | ].
  split; [ intro H; empty_columns B H | ].
  split; [ intro H; empty_columns B H | ].
  split; [ intro H; empty_columns D H | ].
  split; [ intro H; empty_columns D H | ].
  split; [ intro H; split;
           [ empty_columns D H
           | rewrite D; unfold deathRowColumns; rewrite H; vm_compute; reflexivity ]
         | ].
  split; [ intro H; empty_columns D H | ].
  intro H; empty_columns D H.
Qed.

(** ** Where the slots of the aggregate come from *)

Lemma foldM_app {A S} (f : S -> A -> Js S) (xs ys : list A) (s c : S) :
  foldM f s (xs ++ ys) = Some c ->
  exists c1, foldM f s xs = Some c1 /\ foldM f c1 ys = Some c.
Proof.
  revert s; induction xs as [|x xs IH]; simpl; intros s H.
  - exists s; auto.
  - apply bind_Some in H; destruct H as (s1 & E & H).
    rewrite E; simpl; auto.
Qed.

Lemma foldM_invariant_In {A S} (f : S -> A -> Js S) (P : S -> Prop) (xs : list A) :
  (forall s x s', In x xs -> P s -> f s x = Some s' -> P s') ->
  forall s s', P s -> foldM f s xs = Some s' -> P s'.
Proof.
  induction xs as [|x xs IH]; simpl; intros Hf s s' Hs H.
  - injection H as <-; exact Hs.
  - apply bind_Some in H; destruct H as (s1 & E & H).
    apply (IH (fun s0 y s0' Hy => Hf s0 y s0' (or_intror Hy)) s1 s');
      [ | exact H ].
    eapply Hf; [ left; reflexivity | exact Hs | exact E ].
Qed.

Lemma getCollectionDocuments_In {D} (getId : D -> option string) docs ids d :
  In d (getCollectionDocuments getId docs ids) -> In d docs.
Proof.
  unfold getCollectionDocuments.
  destruct (0 <? Z.of_nat (List.length ids)); [ | auto ].
  intro H. apply filter_In in H. tauto.
Qed.

Lemma fetched_patient st ids locations patients q' :
  setPatientsAddress (getCollectionDocuments pat_id (PATIENT st) ids) locations
  = Some patients ->
  In q' patients ->
  exists q, In q (PATIENT st) /\ setPatientAddress locations q = Some q'.
Proof.
  unfold setPatientsAddress. intros H Hin.
  apply mapM_Forall2 in H.
  destruct (Forall2_In_r _ _ _ _ H Hin) as (q & Hq & Hset).
  exists q. split; [ eapply getCollectionDocuments_In; exact Hq | exact Hset ].
Qed.

(** One turn either leaves the aggregate or files the snapshot of a fetched
    patient, of the id the section references, under the title's role. *)
Lemma patientStep_cases patients fc section fc' :
  patientStep patients fc section = Some fc' ->
  fc' = fc
  \/ exists title r q' v,
       sec_title section = Some title
       /\ entryReference section = Some (Some r)
       /\ startsWith "Patient/" r = true
       /\ In q' patients
       /\ pat_id q' = Some (replace "Patient/" "" r)
       /\ makePatientObject q' = Some v
       /\ fc' = set_role (TITLE_MAP title) v fc.
Proof.
  unfold patientStep. intro H.
  apply bind_Some in H; destruct H as (isPatient & Ek & H).
  destruct isPatient; [ | injection H as <-; auto ].
  apply bind_Some in H; destruct H as (r & Er & H).
  unfold referencesKind in Ek. rewrite Er in Ek. cbn [bind ret] in Ek.
  destruct r as [r|]; [ | discriminate ].
  injection Ek as Ek.
  cbn [toStr nullish] in H.
  destruct (find _ patients) as [q'|] eqn:Ef; [ | injection H as <-; auto ].
  destruct (sec_title section) as [title|] eqn:Et; cbn [isTruthy] in H;
    [ | injection H as <-; auto ].
  destruct (truthy title); [ | injection H as <-; auto ].
  apply bind_Some in H; destruct H as (v & Ev & H). injection H as <-.
  apply find_some in Ef. destruct Ef as [Hin Hid]. apply strictEq_true in Hid.
  right. exists title, r, q', v. cbn [toStr nullish]. repeat split; assumption.
Qed.

Lemma roleSlot_set_role_cases r v c role :
  (r = Some role /\ roleSlot role (set_role r v c) = Some v)
  \/ (r <> Some role /\ roleSlot role (set_role r v c) = roleSlot role c).
Proof.
  destruct r as [[]|], role;
    first [ left; split; reflexivity
          | right; split; [ discriminate | reflexivity ] ].
Qed.

(** Whatever slot the patient resolver leaves filled, of an aggregate that
    had none, was filled by a section of the composition. *)
Lemma setPatientsDetails_slots st composition fc locations c :
  (forall role, roleSlot role fc = None) ->
  setPatientsDetailsInComposition st composition fc locations = Some c ->
  forall role v,
    roleSlot role c = Some v ->
    filledBySection st locations composition role v.
Proof.
  intros Hnone H.
  unfold setPatientsDetailsInComposition in H.
  apply bind_Some in H; destruct H as (patientList & _ & H).
  apply bind_Some in H; destruct H as (patientIds & _ & H).
  apply bind_Some in H; destruct H as (ids & _ & H).
  apply bind_Some in H; destruct H as (patients & Ep & H).
  destruct (comp_section composition) as [sections|] eqn:Es.
  - refine (foldM_invariant_In _
              (fun c0 => forall role v,
                   roleSlot role c0 = Some v ->
                   filledBySection st locations composition role v)
              sections _ fc c _ H).
    + intros s x s' Hx Ps Hstep role v Hv.
      apply patientStep_cases in Hstep.
      destruct Hstep as [->|(title & r & q' & w & Et & Er & Ek & Hq' & Hid & Ew & ->)];
        [ apply Ps; exact Hv | ].
      destruct (roleSlot_set_role_cases (TITLE_MAP title) w s role)
        as [[Erole Eslot]|[_ Eslot]]; rewrite Eslot in Hv.
      * injection Hv as <-.
        destruct (fetched_patient _ _ _ _ _ Ep Hq') as (q & Hq & Hset).
        exists sections, x, title, r, q, q'.
        repeat split; try assumption.
        rewrite <- (setPatientAddress_id _ _ _ Hset). exact Hid.
      * apply Ps; exact Hv.
    + intros role v Hv. rewrite Hnone in Hv. discriminate.
  - injection H as <-. intros role v Hv. rewrite Hnone in Hv. discriminate.
Qed.

Lemma setLocation_leaf st composition c locations task c' :
  setLocationInComposition st composition c locations task = Some c' ->
  exists leaf c1,
    encounterLocation st locations composition = Some leaf
    /\ setEventLocation leaf c locations = Some c1
    /\ c' = set_officeLocation
              (nameOf (findLocation locations (officeLocationIdOf task))) c1.
Proof.
  unfold setLocationInComposition, encounterLocation. intro H.
  apply bind_Some in H; destruct H as (encounter & E1 & H). rewrite E1.
  apply bind_Some in H; destruct H as (r & E2 & H). cbn [bind]. rewrite E2.
  apply bind_Some in H; destruct H as (e0 & E3 & H). cbn [bind]. rewrite E3.
  apply bind_Some in H; destruct H as (l0 & E4 & H). cbn [bind]. rewrite E4.
  apply bind_Some in H; destruct H as (leaf & E5 & H). cbn [bind].
  apply bind_Some in H; destruct H as (c1 & E6 & H). injection H as <-.
  exists leaf, c1. auto.
Qed.

Lemma setEventLocation_leaf leaf c locations c' :
  setEventLocation leaf c locations = Some c' ->
  eventCity c' = Some (nullish (addressField leaf addr_city) "")
  /\ sameButLocation c c'
  /\ officeLocation c' = officeLocation c
  /\ ((isHealthFacility leaf /\ healthCenter c' = Some (nullish (loc_name leaf) ""))
      \/ (isOtherLocation leaf /\ healthCenter c' = healthCenter c)).
Proof.
  unfold setEventLocation, isHealthFacility, isOtherLocation. intro H.
  apply bind_Some in H; destruct H as (t & Et & H). injection H as <-.
  split; [ reflexivity | ].
  destruct (strictEq t (Some "HEALTH_FACILITY")) eqn:E.
  - split; [ repeat split | ]. split; [ reflexivity | ].
    left. apply strictEq_true in E. subst t. split; [ exact Et | reflexivity ].
  - split; [ repeat split | ]. split; [ reflexivity | ].
    right. split; [ | reflexivity ].
    exists t. split; [ exact Et | ].
    intro F. subst t. simpl in E. discriminate.
Qed.

(** The informant resolver leaves the aggregate or sets the informant it
    resolved through the RelatedPerson. *)
Lemma setInformantDetails_cases st composition c locations c' :
  setInformantDetailsInComposition st composition c locations = Some c' ->
  c' = c
  \/ exists i, filledByRelatedPerson st locations composition i
               /\ c' = set_informant i c.
Proof.
  unfold setInformantDetailsInComposition. intro H.
  apply bind_Some in H; destruct H as (informant & E1 & H).
  apply bind_Some in H; destruct H as (r & E2 & H).
  apply bind_Some in H; destruct H as (rp & E3 & H).
  destruct (rp_patient rp) as [patientRef|] eqn:E4; [ | injection H as <-; auto ].
  apply bind_Some in H; destruct H as (patients & E5 & H).
  apply bind_Some in H; destruct H as (rel & E6 & H).
  apply bind_Some in H; destruct H as (p0 & E7 & H).
  apply bind_Some in H; destruct H as (v & E8 & H). injection H as <-.
  right.
  unfold setPatientsAddress in E5. apply mapM_Forall2 in E5.
  remember (getCollectionDocuments pat_id (PATIENT st)
              [toStr (option_map (replace "Patient/" "") (reference patientRef))])
    as docs eqn:G.
  destruct E5 as [|p p' ps ps' Hset _]; [ discriminate | ].
  injection E7 as <-.
  eexists. split; [ | reflexivity ].
  exists informant, r, rp, patientRef, p, p', v, rel.
  repeat split; try assumption.
  rewrite <- G. reflexivity.
Qed.

Lemma roleSlot_frame (c c' : IFullComposition) :
  fc_deceased c' = fc_deceased c -> fc_child c' = fc_child c ->
  fc_father c' = fc_father c -> fc_mother c' = fc_mother c ->
  fc_informant c' = fc_informant c ->
  forall role, roleSlot role c' = roleSlot role c.
Proof.
  intros D C F M I role. destruct role; simpl; congruence.
Qed.

(** The stages of a completed aggregation. *)
Lemma buildFullComposition_stages st locations composition task c :
  buildFullComposition st locations composition task = Some c ->
  exists c1 leaf c2 o,
    let c0 := set_event (if strictEq (comp_title composition)
                                     (Some "Birth Declaration")
                         then Birth else Death) emptyFullComposition in
    let c3 := set_observations o
                (set_officeLocation
                   (nameOf (findLocation locations (officeLocationIdOf task))) c2) in
    setPatientsDetailsInComposition st composition c0 locations = Some c1
    /\ encounterLocation st locations composition = Some leaf
    /\ setEventLocation leaf c1 locations = Some c2
    /\ (c = c3
        \/ exists i, filledByRelatedPerson st locations composition i
                     /\ c = set_informant i c3).
Proof.
  unfold buildFullComposition. intro H.
  apply bind_Some in H; destruct H as (c1 & H1 & H).
  apply bind_Some in H; destruct H as (c2' & H2 & H).
  apply bind_Some in H; destruct H as (c3 & H3 & H4).
  apply setLocation_leaf in H2. destruct H2 as (leaf & c2 & El & Ee & ->).
  apply setObservationDetails_sets in H3.
  destruct H3 as (section & r & o & _ & _ & _ & ->).
  apply setInformantDetails_cases in H4.
  exists c1, leaf, c2, o. cbv zeta. auto.
Qed.

Lemma find_firstExtension url extension e :
  firstExtension url extension e ->
  find (fun obj => String.eqb (ext_url obj) url) extension = Some e.
Proof.
  intros (front & back & -> & Hu & Hfront). unfold find.
  induction front as [|x front IH]; simpl.
  - rewrite Hu, String.eqb_refl. reflexivity.
  - destruct (String.eqb_spec (ext_url x) url) as [E|_].
    + exfalso. apply (Hfront x); [ left; reflexivity | exact E ].
    + apply IH. intros y Hy. apply Hfront. right; exact Hy.
Qed.

Lemma find_noExtension url (extension : list Extension) :
  (forall x, In x extension -> ext_url x <> url) ->
  find (fun obj => String.eqb (ext_url obj) url) extension = None.
Proof.
  intro H. unfold find.
  induction extension as [|x l IH]; simpl; [ reflexivity | ].
  destruct (String.eqb_spec (ext_url x) url) as [E|_].
  - exfalso. apply (H x); [ left; reflexivity | exact E ].
  - apply IH. intros y Hy. apply H. right; exact Hy.
Qed.

(** What [getValueFromExt(patient, url) ?? ''] gives. *)
Lemma getValueFromExt_cases p url :
  (pat_extension p = None -> nullish (getValueFromExt p url) "" = "")
  /\ (forall extension,
        pat_extension p = Some extension ->
        (forall x, In x extension -> ext_url x <> url) ->
        nullish (getValueFromExt p url) "" = "")
  /\ (forall extension e,
        pat_extension p = Some extension ->
        firstExtension url extension e ->
        nullish (getValueFromExt p url) "" = nullish (ext_valueString e) "").
Proof.
  unfold getValueFromExt. split; [ | split ].
  - intros ->. reflexivity.
  - intros extension -> H. rewrite (find_noExtension url extension H). reflexivity.
  - intros extension e -> H. rewrite (find_firstExtension url extension e H).
    reflexivity.
Qed.

(** C5, as the script has it: an aggregation that completes returns a
    partial object.  The event type, the observation bag, the office
    location and the district, state and city of the event are always set.
    A role slot is present only when a section of the composition titled for
    the role references a stored Patient, whose snapshot after the address
    substitution it holds; the informant is present only when resolved
    through the RelatedPerson, or through such a section (then without a
    relationship); the health center is present exactly when the Location
    the Encounter points to is tagged HEALTH_FACILITY.  And the snapshot of
    a patient whose address array can be read is built without raising and
    holds each property of the patient, with [''] for a missing property,
    address component or extension (no extension of the URL, or one without
    a value) and [0] for a missing birth order. *)
Theorem C5_partial_aggregate_defaulted_snapshots
    st locations composition task c (p : Patient)
    (Hc : buildFullComposition st locations composition task = Some c)
    (Hp : addressReadable p = true) :
  coreShaped c = true
  /\ (forall role v,
        role <> informantRole -> roleSlot role c = Some v ->
        filledBySection st locations composition role v)
  /\ (forall i,
        fc_informant c = Some i ->
        filledByRelatedPerson st locations composition i
        \/ (relationship i = None
            /\ filledBySection st locations composition informantRole
                 (informantPatient i)))
  /\ (exists leaf,
        encounterLocation st locations composition = Some leaf
        /\ ((isHealthFacility leaf
             /\ healthCenter c = Some (nullish (loc_name leaf) ""))
            \/ (isOtherLocation leaf /\ healthCenter c = None)))
  /\ exists s,
       makePatientObject p = Some s
       /\ gender s = nullish (pat_gender p) ""
       /\ birthDate s = nullish (pat_birthDate p) ""
       /\ deceasedDate s = nullish (pat_deceasedDateTime p) ""
       /\ maritalStatus s = match pat_maritalStatus p with
                            | Some m => nullish (cc_text m) ""
                            | None => ""
                            end
       /\ multipleBirth s = nullish (pat_multipleBirthInteger p) 0
       /\ (pat_extension p = None ->
           occupation s = "" /\ educational_attainment s = "")
       /\ (forall extension,
             pat_extension p = Some extension ->
             ((forall x, In x extension -> ext_url x <> patientOccupationExtURL) ->
              occupation s = "")
             /\ ((forall x, In x extension ->
                            ext_url x <> patientEduAttainmentExtURL) ->
                 educational_attainment s = "")
             /\ (forall e, firstExtension patientOccupationExtURL extension e ->
                           occupation s = nullish (ext_valueString e) "")
             /\ (forall e, firstExtension patientEduAttainmentExtURL extension e ->
                           educational_attainment s
                           = nullish (ext_valueString e) ""))
       /\ (pat_address p = None -> city s = "" /\ district s = "" /\ state s = "")
       /\ (forall a rest,
             pat_address p = Some (a :: rest) ->
             city s = nullish (addr_city a) ""
             /\ district s = nullish (addr_district a) ""
             /\ state s = nullish (addr_state a) "").
Proof.
  split; [ apply buildFullComposition_core in Hc; tauto | ].
  destruct (buildFullComposition_stages _ _ _ _ _ Hc)
    as (c1 & leaf & c2 & o & H1 & Hleaf & H2 & H4).
  assert (Slots := fun N => setPatientsDetails_slots _ _ _ _ _ N H1).
  specialize (Slots ltac:(intros []; reflexivity)).
  pose proof (setPatientsDetails_frame _ _ _ _ _ H1) as F1.
  destruct (setEventLocation_leaf _ _ _ _ H2) as (_ & F2 & _ & Hh).
  assert (R3 : forall role,
             roleSlot role
               (set_observations o
                  (set_officeLocation
                     (nameOf (findLocation locations (officeLocationIdOf task)))
                     c2))
             = roleSlot role c1).
  { unfold sameButLocation in F2. decompose [and] F2.
    apply roleSlot_frame; assumption. }
  assert (Hh1 : healthCenter c1 = None).
  { unfold sameButRoles in F1. decompose [and] F1.
    match goal with H : healthCenter c1 = _ |- _ => rewrite H end. reflexivity. }
  split; [ | split; [ | split ] ].
  - intros role v Hrole Hv. apply Slots.
    destruct H4 as [->|(i & _ & ->)].
    + rewrite <- R3. exact Hv.
    + rewrite <- R3. destruct role; try exact Hv. contradiction.
  - intros i Hi.
    destruct H4 as [->|(i' & Hi' & ->)].
    + right.
      assert (Ri : roleSlot informantRole c1 = Some (informantPatient i)).
      { rewrite <- R3. cbn [roleSlot]. rewrite Hi. reflexivity. }
      split; [ | apply Slots; exact Ri ].
      (* a slot a section filled carries no relationship *)
      assert (Rel : forall c0, setPatientsDetailsInComposition st composition
                      (set_event (if strictEq (comp_title composition)
                                              (Some "Birth Declaration")
                                  then Birth else Death) emptyFullComposition)
                      locations = Some c0 ->
                    forall j, fc_informant c0 = Some j -> relationship j = None).
      { clear. intros c0 H.
        unfold setPatientsDetailsInComposition in H.
        apply bind_Some in H; destruct H as (patientList & _ & H).
        apply bind_Some in H; destruct H as (patientIds & _ & H).
        apply bind_Some in H; destruct H as (ids & _ & H).
        apply bind_Some in H; destruct H as (patients & _ & H).
        destruct (comp_section composition) as [sections|];
          [ | injection H as <-; intros j Hj; discriminate ].
        refine (foldM_invariant _
                  (fun c0 => forall j, fc_informant c0 = Some j ->
                                       relationship j = None) _
                  sections _ c0 _ H).
        - intros s x s' Ps Hstep j Hj.
          apply patientStep_cases in Hstep.
          destruct Hstep as [->|(title & r & q' & w & _ & _ & _ & _ & _ & _ & ->)];
            [ apply Ps; exact Hj | ].
          destruct (TITLE_MAP title) as [[]|]; cbn in Hj;
            try (apply Ps; exact Hj).
          injection Hj as <-. reflexivity.
        - intros j Hj. discriminate. }
      assert (Ei : fc_informant c1 = Some i).
      { unfold sameButLocation in F2. decompose [and] F2.
        cbn [set_observations set_officeLocation fc_informant] in Hi. congruence. }
      exact (Rel c1 H1 i Ei).
    + left. cbn [set_informant fc_informant] in Hi. injection Hi as <-. exact Hi'.
  - exists leaf. split; [ exact Hleaf | ].
    assert (Eh : healthCenter c = healthCenter c2)
      by (destruct H4 as [->|(i & _ & ->)]; reflexivity).
    rewrite Eh. destruct Hh as [[F Hf]|[O Ho]]; [ left | right ]; split;
      try assumption. rewrite Ho. exact Hh1.
  - unfold makePatientObject, address0, addressReadable in *.
    destruct (getValueFromExt_cases p patientOccupationExtURL) as (O1 & O2 & O3).
    destruct (getValueFromExt_cases p patientEduAttainmentExtURL) as (E1 & E2 & E3).
    destruct (pat_address p) as [[|a0 rest0]|] eqn:Ea; [ discriminate | | ];
      cbn [optFirst first bind ret];
      eexists; (split; [ reflexivity | ]);
      cbn [gender birthDate deceasedDate maritalStatus multipleBirth occupation
           educational_attainment city district state];
      (split; [ reflexivity | ]); (split; [ reflexivity | ]);
      (split; [ reflexivity | ]);
      (split; [ destruct (pat_maritalStatus p); reflexivity | ]);
      (split; [ reflexivity | ]);
      (split; [ intro N; split; [ apply O1 | apply E1 ]; exact N | ]);
      (split; [ intros extension Hx;
                split; [ apply O2; exact Hx | ];
                split; [ apply E2; exact Hx | ];
                split; [ intros e; apply O3; exact Hx
                       | intros e; apply E3; exact Hx ] | ]);
      split; try (intro; discriminate);
      try (intros a rest Heq; discriminate Heq).
    + intros a rest Heq. injection Heq as <- <-. repeat split.
    + intros _. repeat split.
Qed.

Lemma C5_partial_aggregate_defaulted_snapshots_witness :
  exists c,
    buildFullComposition Example.store Example.locations Example.birth
      (Example.taskFor "c1" "REGISTERED") = Some c
    /\ coreShaped c = true
    /\ healthCenter c = None
    /\ exists s, makePatientObject Example.motherPatient = Some s
                 /\ city s = "" /\ deceasedDate s = ""
                 /\ occupation s = "Farmer" /\ educational_attainment s = "".
Proof.
  destruct (buildFullComposition Example.store Example.locations Example.birth
              (Example.taskFor "c1" "REGISTERED")) as [c|] eqn:E;
    [ | vm_compute in E; discriminate E ].
  exists c. split; [ reflexivity | ].
  destruct (C5_partial_aggregate_defaulted_snapshots
              Example.store Example.locations Example.birth
              (Example.taskFor "c1" "REGISTERED") c Example.motherPatient
              E eq_refl)
    as (Hcore & _ & _ & (leaf & Hleaf & Hh) & s & Hs & _ & _ & Hd & _ & _ & _
        & Hext & Ha & _).
  split; [ exact Hcore | ].
  split.
  { vm_compute in Hleaf. injection Hleaf as <-.
    destruct Hh as [[F _]|[_ Hh]]; [ vm_compute in F; discriminate F | exact Hh ]. }
  exists s. split; [ exact Hs | ].
  destruct (Hext [mkExtension patientOccupationExtURL (Some "Farmer") None] eq_refl)
    as (_ & Hedu & Hocc & _).
  split; [ apply Ha; reflexivity | ].
  split; [ exact Hd | ].
  split.
  - apply (Hocc (mkExtension patientOccupationExtURL (Some "Farmer") None)).
    exists [], []. split; [ reflexivity | ].
    split; [ reflexivity | intros x [] ].
  - apply Hedu. intros x [<-|[]] Hx. vm_compute in Hx. discriminate Hx.
Defined.

(** ** The slot a titled Patient section fills *)

Lemma find_exists {A} (p : A -> bool) (l : list A) x :
  In x l -> p x = true -> exists y, List.find p l = Some y.
Proof.
  intros Hin Hp. destruct (List.find p l) as [y|] eqn:E; [ eauto | ].
  rewrite (find_none _ _ E x Hin) in Hp. discriminate.
Qed.

Lemma find_first {A} (p : A -> bool) (front back : list A) x :
  p x = true -> (forall y, In y front -> p y = false) ->
  List.find p (front ++ x :: back) = Some x.
Proof.
  intros Hp Hfront. induction front as [|y front IH]; simpl.
  - rewrite Hp. reflexivity.
  - rewrite (Hfront y (or_introl eq_refl)). apply IH.
    intros z Hz. apply Hfront. right; exact Hz.
Qed.

Lemma filter_first {A} (p : A -> bool) (front back : list A) x :
  p x = true -> (forall y, In y front -> p y = false) ->
  first (filter p (front ++ x :: back)) = Some x.
Proof.
  intros Hp Hfront. induction front as [|y front IH]; simpl.
  - rewrite Hp. reflexivity.
  - rewrite (Hfront y (or_introl eq_refl)). apply IH.
    intros z Hz. apply Hfront. right; exact Hz.
Qed.

(** The section [s], which references [Patient/pid] under a title of the
    role map, fills the slot of its role with the snapshot of the stored
    Patient of that id, after the address substitution; the sections after
    it, titled for other roles, leave the slot. *)
Lemma setPatientsDetails_fills
    st composition fc locations c front s back title pid role p :
  comp_section composition = Some (front ++ s :: back)%list ->
  entryReference s = Some (Some ("Patient/" ++ pid)) ->
  sec_title s = Some title ->
  TITLE_MAP title = Some role ->
  (forall s' t, In s' back -> sec_title s' = Some t -> TITLE_MAP t <> Some role) ->
  In p (PATIENT st) -> pat_id p = Some pid ->
  (forall q, In q (PATIENT st) -> pat_id q = Some pid -> q = p) ->
  setPatientsDetailsInComposition st composition fc locations = Some c ->
  exists p' v,
    setPatientAddress locations p = Some p'
    /\ makePatientObject p' = Some v
    /\ roleSlot role c = Some v.
Proof.
  intros Hsections Href Htitle Hrole Hback Hp Hpid Huniq Hc.
  assert (Hkind : referencesKind "Patient/" s = Some true).
  { unfold referencesKind, bind, ret; rewrite Href.
    unfold startsWith. rewrite (prefix_append "Patient/" pid). reflexivity. }
  assert (Htruthy : isTruthy (sec_title s) = true).
  { rewrite Htitle; simpl. unfold truthy.
    destruct (String.eqb_spec title ""); [ subst; discriminate | reflexivity ]. }
  unfold setPatientsDetailsInComposition in Hc. rewrite Hsections in Hc.
  apply bind_Some in Hc; destruct Hc as (patientList & E1 & Hc).
  apply bind_Some in E1; destruct E1 as (l & El & E1). injection E1 as <-.
  apply bind_Some in Hc; destruct Hc as (patientIds & E2 & Hc).
  apply bind_Some in E2; destruct E2 as (refs & Erefs & E2). injection E2 as <-.
  cbn [bind] in Hc.
  apply bind_Some in Hc; destruct Hc as (patients & Epatients & Hc).
  assert (Hin_l : In s l).
  { eapply filterM_keeps;
      [ exact El | apply in_or_app; right; left; reflexivity | exact Hkind ]. }
  assert (Hid : In pid (refIds "Patient/" refs)).
  { destruct (Forall2_In_l _ _ _ _ (mapM_Forall2 _ _ _ Erefs) Hin_l)
      as (r & Hr & Hsr).
    rewrite Href in Hsr; injection Hsr as <-.
    unfold refIds. apply in_flat_map. eexists; split; [ exact Hr | ].
    left. exact (replace_prefix "Patient/" pid). }
  set (ids := refIds "Patient/" refs) in *.
  assert (Hdocs : getCollectionDocuments pat_id (PATIENT st) ids
                  = filter (fun d => idIn (pat_id d) ids) (PATIENT st)).
  { unfold getCollectionDocuments. destruct ids; [ contradiction | reflexivity ]. }
  assert (Hfetched : forall q', In q' patients ->
            exists q, In q (PATIENT st) /\ setPatientAddress locations q = Some q').
  { intros q' Hq'. eapply fetched_patient; [ exact Epatients | exact Hq' ]. }
  rewrite Hdocs in Epatients.
  unfold setPatientsAddress in Epatients. apply mapM_Forall2 in Epatients.
  assert (Hpdocs : In p (filter (fun d => idIn (pat_id d) ids) (PATIENT st))).
  { apply filter_In; split; [ exact Hp | ].
    rewrite Hpid; simpl. apply existsb_exists. exists pid; split; [ exact Hid | ].
    apply String.eqb_refl. }
  destruct (Forall2_In_l _ _ _ _ Epatients Hpdocs) as (p' & Hp' & Hset).
  (* the turn of [s] *)
  apply foldM_app in Hc; destruct Hc as (c1 & _ & Hc).
  cbn [foldM] in Hc.
  apply bind_Some in Hc; destruct Hc as (c2 & Hstep & Hc).
  rewrite Hkind in Hstep; cbn [bind] in Hstep.
  rewrite Href in Hstep; cbn [bind toStr nullish] in Hstep.
  rewrite (replace_prefix "Patient/" pid) in Hstep.
  destruct (find_exists (fun q => strictEq (pat_id q) (Some pid)) patients p' Hp')
    as (q' & Ef).
  { rewrite (setPatientAddress_id _ _ _ Hset), Hpid.
    simpl. apply String.eqb_refl. }
  unfold find in Hstep. rewrite Ef in Hstep.
  rewrite Htruthy in Hstep.
  apply bind_Some in Hstep; destruct Hstep as (v & Ev & Hstep).
  injection Hstep as <-.
  apply find_some in Ef; destruct Ef as [Hq' Hq'id].
  apply strictEq_true in Hq'id.
  destruct (Hfetched q' Hq') as (q & Hq & Hsetq).
  assert (q = p).
  { apply Huniq; [ exact Hq | ].
    rewrite <- (setPatientAddress_id _ _ _ Hsetq). exact Hq'id. }
  subst q.
  exists q', v. split; [ exact Hsetq | ]. split; [ exact Ev | ].
  (* the turns after it *)
  refine (foldM_invariant_In _ (fun c0 => roleSlot role c0 = Some v) back _ _ c _ Hc).
  - intros s0 x s0' Hx Ps Hturn.
    apply patientStep_cases in Hturn.
    destruct Hturn as [->|(t & r & q0 & w & Et & _ & _ & _ & _ & _ & ->)];
      [ exact Ps | ].
    destruct (roleSlot_set_role_cases (TITLE_MAP t) w s0 role)
      as [[Erole _]|[_ Eslot]].
    + exfalso. exact (Hback x t Hx Et Erole).
    + rewrite Eslot. exact Ps.
  - rewrite Htitle; cbn [toStr nullish]. rewrite Hrole. apply roleSlot_set_role.
Qed.

Lemma nullish_not_truthy v : isTruthy v = false -> nullish v "" = "".
Proof.
  destruct v as [x|]; simpl; [ | reflexivity ].
  unfold truthy; destruct (String.eqb_spec x ""); simpl; congruence.
Qed.

(** The snapshot of a patient with an address, taken after the substitution
    of names. *)
Lemma snapshot_after_substitution locations p a rest p' v :
  pat_address p = Some (a :: rest) ->
  setPatientAddress locations p = Some p' ->
  makePatientObject p' = Some v ->
  city v = nullish (addr_city a) ""
  /\ district v = (if isTruthy (addr_district a)
                   then nameOf (findLocation locations (addr_district a))
                   else "")
  /\ state v = (if isTruthy (addr_state a)
                then nameOf (findLocation locations (addr_state a))
                else "").
Proof.
  intros Ha Hset Hv.
  unfold setPatientAddress in Hset. rewrite Ha in Hset.
  cbn [bind ret first tl] in Hset. injection Hset as <-.
  unfold makePatientObject, address0 in Hv.
  cbn [pat_address optFirst first bind ret] in Hv. injection Hv as <-.
  cbn [city district state].
  destruct a as [ci di sa]; cbn [addr_city addr_district addr_state].
  destruct (isTruthy di) eqn:Ed; cbn [addr_city addr_district addr_state];
    destruct (isTruthy sa) eqn:Es; cbn [addr_city addr_district addr_state nullish];
    repeat split; auto using nullish_not_truthy.
Qed.

(** C10: in the death row of a completed aggregation, for a composition
    whose last section titled "Deceased details" references the stored
    Patient [p] (the only one of that id), the deathCity column is the city
    of the first address of [p], and the deathDistrict and deathState columns
    are the names of the Locations whose ids that address gives as district
    and state (empty when the id is missing, empty or unknown): the address
    of the deceased after the substitution of names.  And for every
    aggregate the three columns are read off the deceased's snapshot (empty
    when there is none), and the row does not depend on the city, district
    and state of the event. *)
Theorem C10_death_address_from_deceased
    st locations composition task c front s back pid
    (p : Patient) (a : Address) (rest : list Address)
    (Hc : buildFullComposition st locations composition task = Some c)
    (Hsections : comp_section composition = Some (front ++ s :: back)%list)
    (Href : entryReference s = Some (Some ("Patient/" ++ pid)))
    (Htitle : sec_title s = Some "Deceased details")
    (Hlast : forall s', In s' back -> sec_title s' <> Some "Deceased details")
    (Hp : In p (PATIENT st)) (Hid : pat_id p = Some pid)
    (Huniq : forall q, In q (PATIENT st) -> pat_id q = Some pid -> q = p)
    (Ha : pat_address p = Some (a :: rest)) :
  get "deathCity" (makeDeathRow c) = Some (VString (nullish (addr_city a) ""))
  /\ get "deathDistrict" (makeDeathRow c)
     = Some (VString (if isTruthy (addr_district a)
                      then nameOf (findLocation locations (addr_district a))
                      else ""))
  /\ get "deathState" (makeDeathRow c)
     = Some (VString (if isTruthy (addr_state a)
                      then nameOf (findLocation locations (addr_state a))
                      else ""))
  /\ (forall c0 : IFullComposition,
        get "deathCity" (makeDeathRow c0) = Some (field (fc_deceased c0) city)
        /\ get "deathDistrict" (makeDeathRow c0)
           = Some (field (fc_deceased c0) district)
        /\ get "deathState" (makeDeathRow c0) = Some (field (fc_deceased c0) state))
  /\ (forall (c0 : IFullComposition) (eCity eDistrict eState : string),
        makeDeathRow (set_eventCity eCity
                        (set_eventDistrict eDistrict (set_eventState eState c0)))
        = makeDeathRow c0).
Proof.
  assert (Rows : forall c0 : IFullComposition,
            get "deathCity" (makeDeathRow c0) = Some (field (fc_deceased c0) city)
            /\ get "deathDistrict" (makeDeathRow c0)
               = Some (field (fc_deceased c0) district)
            /\ get "deathState" (makeDeathRow c0)
               = Some (field (fc_deceased c0) state)).
  { intro c0.
    split; [ vm_compute; reflexivity | ].
    split; [ vm_compute; reflexivity | vm_compute; reflexivity ]. }
  destruct (buildFullComposition_stages _ _ _ _ _ Hc)
    as (c1 & leaf & c2 & o & H1 & _ & H2 & H4).
  assert (Hback : forall s' t, In s' back -> sec_title s' = Some t ->
                               TITLE_MAP t <> Some deceased).
  { intros s' t Hs' Et Em. apply (Hlast s' Hs'). rewrite Et. f_equal.
    unfold TITLE_MAP in Em.
    destruct (String.eqb_spec t "Child details"); [ discriminate Em | ].
    destruct (String.eqb_spec t "Deceased details"); [ assumption | ].
    destruct (String.eqb t "Mother's details"); [ discriminate Em | ].
    destruct (String.eqb t "Father's details"); [ discriminate Em | ].
    destruct (String.eqb t "Informant's details"); discriminate Em. }
  destruct (setPatientsDetails_fills _ _ _ _ _ _ _ _ _ _ deceased _
              Hsections Href Htitle eq_refl Hback Hp Hid Huniq H1)
    as (p' & v & Hset & Hv & Hslot).
  cbn [roleSlot] in Hslot.
  destruct (setEventLocation_leaf _ _ _ _ H2) as (_ & F2 & _ & _).
  assert (Hd : fc_deceased c = Some v).
  { unfold sameButLocation in F2. decompose [and] F2.
    destruct H4 as [->|(i & _ & ->)];
      cbn [set_informant set_observations set_officeLocation fc_deceased];
      congruence. }
  destruct (snapshot_after_substitution _ _ _ _ _ _ Ha Hset Hv) as (Ec & Ed & Es).
  destruct (Rows c) as (Rc & Rd & Rs). rewrite Hd in Rc, Rd, Rs.
  unfold field in Rc, Rd, Rs. cbn [option_map nullish] in Rc, Rd, Rs.
  rewrite Ec in Rc. rewrite Ed in Rd. rewrite Es in Rs.
  split; [ exact Rc | ].
  split; [ exact Rd | ].
  split; [ exact Rs | ].
  split; [ exact Rows | ].
  intros c0 eCity eDistrict eState. vm_compute. reflexivity.
Qed.

Lemma C10_death_address_from_deceased_witness :
  exists c,
    buildFullComposition Example.store Example.locations Example.death
      (Example.taskFor "c4" "CERTIFIED") = Some c
    /\ eventCity c = Some "Ibombo Town"
    /\ get "deathCity" (makeDeathRow c) = Some (VString "Chamakubi")
    /\ get "deathDistrict" (makeDeathRow c) = Some (VString "Ibombo")
    /\ get "deathState" (makeDeathRow c) = Some (VString "Central").
Proof.
  destruct (buildFullComposition Example.store Example.locations Example.death
              (Example.taskFor "c4" "CERTIFIED")) as [c|] eqn:E;
    [ | vm_compute in E; discriminate E ].
  exists c. split; [ reflexivity | ].
  split; [ vm_compute in E; injection E as <-; reflexivity | ].
  destruct (C10_death_address_from_deceased
              Example.store Example.locations Example.death
              (Example.taskFor "c4" "CERTIFIED") c
              [] Example.deceasedSection
              [Example.deathEncounterSection; Example.informantSection]
              "p3" Example.deceasedPatient
              (mkAddress (Some "Chamakubi") (Some "d1") (Some "s1")) []
              E eq_refl eq_refl eq_refl)
    as (Hcity & Hdistrict & Hstate & _).
  - intros s' [<-|[<-|[]]]; discriminate.
  - right; right; left; reflexivity.
  - reflexivity.
  - intros q [<-|[<-|[<-|[]]]] Hq; try discriminate Hq; reflexivity.
  - reflexivity.
  - split; [ exact Hcity | ]. split; [ exact Hdistrict | exact Hstate ].
Defined.

(** ** The Locations the aggregate names *)

Lemma pointsElsewhere_kind prefix s :
  pointsElsewhere prefix s -> referencesKind prefix s = Some false.
Proof.
  unfold referencesKind, entryReference.
  intros [E|(r & more & E & [N|(x & Ex & Hx)])]; rewrite E; cbn [optFirst first bind ret].
  - reflexivity.
  - rewrite N. reflexivity.
  - rewrite Ex, Hx. reflexivity.
Qed.

Lemma findM_first {A} (p : A -> Js bool) (front back : list A) x :
  p x = Some true -> (forall y, In y front -> p y = Some false) ->
  findM p (front ++ x :: back) = Some (Some x).
Proof.
  intros Hp Hfront. induction front as [|y front IH]; simpl.
  - rewrite Hp. reflexivity.
  - rewrite (Hfront y (or_introl eq_refl)). simpl. apply IH.
    intros z Hz. apply Hfront. right; exact Hz.
Qed.

Lemma findLocation_firstWithId locations id l :
  firstWithId loc_id locations id l -> findLocation locations (Some id) = Some l.
Proof.
  intros (front & back & -> & Hid & Hfront). unfold findLocation, find.
  apply find_first.
  - apply strictEq_true. exact Hid.
  - intros y Hy. destruct (strictEq (loc_id y) (Some id)) eqn:E; [ | reflexivity ].
    apply strictEq_true in E. exfalso. exact (Hfront y Hy E).
Qed.

Lemma findLocation_unknown locations id :
  (forall l, In l locations -> loc_id l <> id) -> findLocation locations id = None.
Proof.
  intro H. unfold findLocation, find.
  induction locations as [|l ls IH]; simpl; [ reflexivity | ].
  destruct (strictEq (loc_id l) id) eqn:E.
  - apply strictEq_true in E. exfalso. exact (H l (or_introl eq_refl) E).
  - apply IH. intros l' Hl'. apply H. right; exact Hl'.
Qed.

Lemma first_getCollectionDocuments {D} (getId : D -> option string) docs id d :
  firstWithId getId docs id d ->
  first (getCollectionDocuments getId docs [id]) = Some d.
Proof.
  intros (front & back & -> & Hid & Hfront).
  unfold getCollectionDocuments. cbn [List.length Z.of_nat Z.ltb Z.compare].
  apply filter_first.
  - rewrite Hid. simpl. rewrite String.eqb_refl. reflexivity.
  - intros y Hy. specialize (Hfront y Hy).
    destruct (getId y) as [i|]; simpl; [ | reflexivity ].
    destruct (String.eqb_spec i id); [ subst; contradiction | reflexivity ].
Qed.

(** The Location the Encounter of the composition points to, read off the
    documents. *)
Lemma encounterLocation_regular st locations composition sections sec eid e more lid l :
  comp_section composition = Some sections ->
  firstSectionReferencing "Encounter/" sections sec eid ->
  firstWithId enc_id (ENCOUNTER st) eid e ->
  enc_location e
  = Some (mkEncounterLocation (mkReference (Some ("Location/" ++ lid))) :: more) ->
  firstWithId loc_id locations lid l ->
  encounterLocation st locations composition = Some l.
Proof.
  intros Hs (front & back & more' & -> & Hentry & Hfront) He Hloc Hl.
  assert (Href : entryReference sec = Some (Some ("Encounter/" ++ eid))).
  { unfold entryReference. rewrite Hentry. reflexivity. }
  unfold encounterLocation, findSection. rewrite Hs.
  rewrite (findM_first (referencesKind "Encounter/") front back sec).
  - cbn [bind sectionReference]. rewrite Href.
    cbn [bind option_map nullish].
    rewrite (replace_prefix "Encounter/" eid).
    rewrite (first_getCollectionDocuments enc_id (ENCOUNTER st) eid e He).
    cbn [bind]. rewrite Hloc. cbn [optFirst first bind el_location locationIdOf
                                   reference option_map].
    rewrite (replace_prefix "Location/" lid).
    apply findLocation_firstWithId. exact Hl.
  - unfold referencesKind. rewrite Href. cbn [bind ret].
    unfold startsWith. rewrite (prefix_append "Encounter/" eid). reflexivity.
  - intros y Hy. apply pointsElsewhere_kind, Hfront, Hy.
Qed.

(** The id of the office Location, read off the Task. *)
Lemma officeLocationIdOf_cases task :
  (task_extension task = None -> officeLocationIdOf task = None)
  /\ (forall extension,
        task_extension task = Some extension ->
        (forall x, In x extension -> ext_url x <> officeLocationExtURL) ->
        officeLocationIdOf task = None)
  /\ (forall extension e id,
        task_extension task = Some extension ->
        firstExtension officeLocationExtURL extension e ->
        ext_valueReference e = Some (mkReference (Some ("Location/" ++ id))) ->
        officeLocationIdOf task = Some id).
Proof.
  unfold officeLocationIdOf. split; [ | split ].
  - intros ->. reflexivity.
  - intros extension -> H.
    pose proof (find_noExtension officeLocationExtURL extension H) as N.
    rewrite N. reflexivity.
  - intros extension e id -> H Hv.
    pose proof (find_firstExtension officeLocationExtURL extension e H) as F.
    rewrite F, Hv. cbn [locationIdOf reference option_map].
    rewrite (replace_prefix "Location/" id). reflexivity.
Qed.

(** X16: in the aggregate of a completed aggregation the office location is
    the name of the first Location whose id the first regLastOffice
    extension of the Task references ([''] when that Location has no name);
    it is [''] when no Location has the referenced id, and also when the
    extension array or the extension is missing and every Location has an
    id.  The event city is the address city of the Location the Encounter
    points to, and the health center is that Location's name when it is
    tagged HEALTH_FACILITY and absent when it has another tag; that Location
    is the first of the set with the id that the first location entry of the
    first stored Encounter references, the Encounter being the one the first
    Encounter section of the composition references.  The later resolvers
    leave these names as the location resolver set them. *)
Theorem X16_location_names_of_aggregate st locations composition task c
    (Hc : buildFullComposition st locations composition task = Some c) :
  officeLocation c = Some (nameOf (findLocation locations (officeLocationIdOf task)))
  /\ (forall extension e id l,
        task_extension task = Some extension ->
        firstExtension officeLocationExtURL extension e ->
        ext_valueReference e = Some (mkReference (Some ("Location/" ++ id))) ->
        firstWithId loc_id locations id l ->
        officeLocation c = Some (nullish (loc_name l) ""))
  /\ (forall extension e id,
        task_extension task = Some extension ->
        firstExtension officeLocationExtURL extension e ->
        ext_valueReference e = Some (mkReference (Some ("Location/" ++ id))) ->
        (forall l, In l locations -> loc_id l <> Some id) ->
        officeLocation c = Some "")
  /\ ((task_extension task = None
       \/ exists extension,
            task_extension task = Some extension
            /\ forall x, In x extension -> ext_url x <> officeLocationExtURL) ->
      (forall l, In l locations -> loc_id l <> None) ->
      officeLocation c = Some "")
  /\ (exists leaf,
        encounterLocation st locations composition = Some leaf
        /\ In leaf locations
        /\ eventCity c = Some (nullish (addressField leaf addr_city) "")
        /\ ((isHealthFacility leaf
             /\ healthCenter c = Some (nullish (loc_name leaf) ""))
            \/ (isOtherLocation leaf /\ healthCenter c = None)))
  /\ (forall sections sec eid e more lid l,
        comp_section composition = Some sections ->
        firstSectionReferencing "Encounter/" sections sec eid ->
        firstWithId enc_id (ENCOUNTER st) eid e ->
        enc_location e
        = Some (mkEncounterLocation (mkReference (Some ("Location/" ++ lid)))
                  :: more) ->
        firstWithId loc_id locations lid l ->
        eventCity c = Some (nullish (addressField l addr_city) "")
        /\ ((isHealthFacility l /\ healthCenter c = Some (nullish (loc_name l) ""))
            \/ (isOtherLocation l /\ healthCenter c = None))).
Proof.
  destruct (buildFullComposition_stages _ _ _ _ _ Hc)
    as (c1 & leaf & c2 & o & H1 & Hleaf & H2 & H4).
  pose proof (setPatientsDetails_frame _ _ _ _ _ H1) as F1.
  destruct (setEventLocation_leaf _ _ _ _ H2) as (Hcity & _ & _ & Hh).
  assert (Hh1 : healthCenter c1 = None).
  { unfold sameButRoles in F1. decompose [and] F1.
    match goal with H : healthCenter c1 = _ |- _ => rewrite H end. reflexivity. }
  assert (Eo : officeLocation c
               = Some (nameOf (findLocation locations (officeLocationIdOf task))))
    by (destruct H4 as [->|(i & _ & ->)]; reflexivity).
  assert (Ec : eventCity c = eventCity c2)
    by (destruct H4 as [->|(i & _ & ->)]; reflexivity).
  assert (Eh : healthCenter c = healthCenter c2)
    by (destruct H4 as [->|(i & _ & ->)]; reflexivity).
  assert (Leaf : eventCity c = Some (nullish (addressField leaf addr_city) "")
                 /\ ((isHealthFacility leaf
                      /\ healthCenter c = Some (nullish (loc_name leaf) ""))
                     \/ (isOtherLocation leaf /\ healthCenter c = None))).
  { rewrite Ec, Eh. split; [ exact Hcity | ].
    destruct Hh as [[F Hf]|[O Ho]]; [ left | right ]; split; try assumption.
    rewrite Ho. exact Hh1. }
  destruct (officeLocationIdOf_cases task) as (I1 & I2 & I3).
  split; [ exact Eo | ].
  split.
  { intros extension e id l Hx He Hv Hl. rewrite Eo.
    rewrite (I3 extension e id Hx He Hv).
    rewrite (findLocation_firstWithId locations id l Hl). reflexivity. }
  split.
  { intros extension e id Hx He Hv Hnone. rewrite Eo.
    rewrite (I3 extension e id Hx He Hv).
    rewrite (findLocation_unknown locations (Some id) Hnone). reflexivity. }
  split.
  { intros Hmissing Hids. rewrite Eo.
    assert (N : officeLocationIdOf task = None).
    { destruct Hmissing as [N|(extension & Hx & Hno)];
        [ exact (I1 N) | exact (I2 extension Hx Hno) ]. }
    rewrite N, (findLocation_unknown locations None Hids). reflexivity. }
  split.
  { exists leaf. split; [ exact Hleaf | ].
    split; [ | exact Leaf ].
    unfold encounterLocation in Hleaf.
    apply bind_Some in Hleaf; destruct Hleaf as (x1 & _ & Hleaf).
    apply bind_Some in Hleaf; destruct Hleaf as (x2 & _ & Hleaf).
    apply bind_Some in Hleaf; destruct Hleaf as (x3 & _ & Hleaf).
    apply bind_Some in Hleaf; destruct Hleaf as (x4 & _ & Hleaf).
    apply findLocation_Some in Hleaf. tauto. }
  intros sections sec eid e more lid l Hs Hsec He Hloc Hl.
  pose proof (encounterLocation_regular _ _ _ _ _ _ _ _ _ _ Hs Hsec He Hloc Hl) as R.
  rewrite Hleaf in R. injection R as <-. exact Leaf.
Qed.

Lemma X16_location_names_of_aggregate_witness :
  exists c,
    buildFullComposition Example.store Example.locations Example.death
      (Example.taskFor "c4" "CERTIFIED") = Some c
    /\ officeLocation c = Some "Ibombo Office"
    /\ eventCity c = Some "Ibombo Town"
    /\ healthCenter c = Some "Ibombo Clinic".
Proof.
  destruct (buildFullComposition Example.store Example.locations Example.death
              (Example.taskFor "c4" "CERTIFIED")) as [c|] eqn:E;
    [ | vm_compute in E; discriminate E ].
  exists c; split; [ reflexivity | ].
  destruct (X16_location_names_of_aggregate _ _ _ _ _ E)
    as (_ & Hoffice & _ & _ & _ & Hleaf).
  split.
  { apply (Hoffice [Example.officeExtension] Example.officeExtension "o1"
             Example.officeLoc eq_refl).
    - exists [], []. split; [ reflexivity | ].
      split; [ reflexivity | intros x [] ].
    - reflexivity.
    - exists [Example.stateLoc; Example.districtLoc; Example.facilityLoc;
              Example.homeLoc], [].
      split; [ reflexivity | ]. split; [ reflexivity | ].
      intros y [<-|[<-|[<-|[<-|[]]]]]; discriminate. }
  destruct (Hleaf [Example.deceasedSection; Example.deathEncounterSection;
                   Example.informantSection]
              Example.deathEncounterSection "e2" Example.facilityEncounter []
              "f1" Example.facilityLoc eq_refl)
    as (Hcity & [[_ Hh]|[(t & Et & Hne) _]]).
  - exists [Example.deceasedSection], [Example.informantSection], [].
    split; [ reflexivity | ]. split; [ reflexivity | ].
    intros s [<-|[]]. right. exists (Example.ref "Patient/p3"), [].
    split; [ reflexivity | ]. right. exists "Patient/p3".
    split; reflexivity.
  - exists [Example.homeEncounter], []. split; [ reflexivity | ].
    split; [ reflexivity | ]. intros y [<-|[]]; discriminate.
  - reflexivity.
  - exists [Example.stateLoc; Example.districtLoc], [Example.homeLoc; Example.officeLoc].
    split; [ reflexivity | ]. split; [ reflexivity | ].
    intros y [<-|[<-|[]]]; discriminate.
  - split; [ exact Hcity | exact Hh ].
  - exfalso. apply Hne. vm_compute in Et. injection Et as <-. reflexivity.
Defined.

(** X12: a section that has no title or an empty one, or is titled
    "Certificates" or "Supporting Documents", has no effect on what a
    composition resolves to, whatever it references and wherever it
    stands. *)
Theorem X12_non_clinical_section_ignored
    st locations id title front s back
    (Hs : sec_title s = None \/ sec_title s = Some ""
          \/ sec_title s = Some "Certificates"
          \/ sec_title s = Some "Supporting Documents") :
  resolveRecord st locations
    (mkComposition id title (Some (front ++ s :: back)%list))
  = resolveRecord st locations
      (mkComposition id title (Some (front ++ back)%list)).
Proof.
  assert (Hf : isClinicalSection s = false).
  { unfold isClinicalSection.
    destruct Hs as [ -> | [ -> | [ -> | -> ] ] ]; reflexivity. }
  assert (E : clinicalSections (mkComposition id title (Some (front ++ s :: back)%list))
              = clinicalSections (mkComposition id title (Some (front ++ back)%list))).
  { unfold clinicalSections; cbn [comp_id comp_title comp_section option_map].
    rewrite !filter_app. cbn [filter]. rewrite Hf. reflexivity. }
  unfold resolveRecord. rewrite E. reflexivity.
Qed.

Lemma X12_non_clinical_section_ignored_witness :
  resolveRecord Example.store Example.locations
    (mkComposition (Some "c1") (Some "Birth Declaration")
       (Some [Example.childSection;
              mkSection (Some "Supporting Documents") (Some []);
              Example.encounterSection; Example.informantSection]))
  = resolveRecord Example.store Example.locations Example.birth.
Proof.
  exact (X12_non_clinical_section_ignored Example.store Example.locations
           (Some "c1") (Some "Birth Declaration")
           [Example.childSection]
           (mkSection (Some "Supporting Documents") (Some []))
           [Example.encounterSection; Example.informantSection]
           (or_intror (or_intror (or_intror eq_refl)))).
Defined.
